(** * TaskApp: the request handlers of [app/app.py] and their properties

    A shallow embedding of the Flask handlers of the task tracker
    ([login], [get_tasks], [create_task], [update_task], [delete_task],
    [get_stats]) over an explicit model of the two tables they query, the
    connection pool they draw from and the session they read.

    - A request body is what [request.get_json()] finds in the request
      ([request_body]); a parsed body is a Python value ([json]), numbers
      are integers in this model.
    - A [str] is held as the bytes of its UTF-8 encoding.
    - A bound statement parameter and a text cell of a table is a [sqlval].
    - A handler is a computation in a state-and-exception monad over
      [world]; a [try ... except Exception] is [try_except].
    - Of [jsonify] the sorting of dict keys is modelled, the one step of
      it that can raise on what the views hand over; logging is not
      modelled.
    - The table declarations are not part of the repository: what a
      column stores for a bound value is a parameter of the development.
    - The server executes the statements of the API views; in [login]
      and [health_check] a server that fails the statement is an input
      of the view. *)

From stdpp Require Import gmap strings list fin_maps.
From Stdlib Require Import ZArith Lia.

Set Warnings "-register-all".

Open Scope string_scope.
Open Scope Z_scope.

(** ** Python values of a request body *)

Inductive json : Type :=
| JNull
| JBool (b : bool)
| JNum (n : Z)
| JStr (s : string)
| JArr (items : list json)
| JObj (fields : list (string * json)).

(** Python truth value: [None], [False], [0], [''], [[]] and [{}] are
    false. *)
Definition truthy (v : json) : bool :=
  match v with
  | JNull => false
  | JBool b => b
  | JNum n => negb (Z.eqb n 0)
  | JStr s => negb (String.eqb s "")
  | JArr items => match items with [] => false | _ :: _ => true end
  | JObj fields => match fields with [] => false | _ :: _ => true end
  end.

(** A dict is kept as the list of its bindings; a key is looked up at its
    first binding. *)
Fixpoint assoc (k : string) (fields : list (string * json)) : option json :=
  match fields with
  | [] => None
  | (k', v) :: rest => if String.eqb k k' then Some v else assoc k rest
  end.

(** [d.get(k)] and [d.get(k, default)] on a dict. *)
Definition dict_get (fields : list (string * json)) (k : string) : json :=
  match assoc k fields with Some v => v | None => JNull end.

Definition dict_get_default (fields : list (string * json)) (k : string)
    (default : json) : json :=
  match assoc k fields with Some v => v | None => default end.

(** [needle in hay] on two strings. *)
Fixpoint is_prefix (p s : string) : bool :=
  match p, s with
  | EmptyString, _ => true
  | String a p', String b s' => if Ascii.eqb a b then is_prefix p' s' else false
  | String _ _, EmptyString => false
  end.

Fixpoint is_substring (needle hay : string) : bool :=
  if is_prefix needle hay then true
  else match hay with
       | EmptyString => false
       | String _ hay' => is_substring needle hay'
       end.

Definition is_str (k : string) (v : json) : bool :=
  match v with JStr s => String.eqb s k | _ => false end.

(** ** Exceptions *)

Inductive exn : Type :=
| TypeError_not_iterable      (* [k in data] on None, a bool or a number *)
| TypeError_bad_index         (* [data[k]] on a string or a list *)
| KeyError (k : string)       (* [data[k]] on a dict without the key *)
| AttributeError_get          (* [data.get] on a value that is no dict *)
| ProgrammingError_param      (* a list or dict bound as a parameter *)
| DataError_date              (* the date column rejects the bound value *)
| ValueError_salt             (* [bcrypt.checkpw] on a malformed hash *)
| BadRequest                  (* [get_json] on a body that does not parse *)
| UnsupportedMediaType        (* [get_json] on a request that is not JSON *)
| DataError_column            (* a text column rejects the bound value *)
| TypeError_sort_keys         (* [jsonify] sorting keys of two kinds *)
| OperationalError.           (* the server fails a statement *)

Inductive result (A : Type) : Type :=
| Ok (a : A)
| Raise (e : exn).
Arguments Ok {A} a.
Arguments Raise {A} e.

(** What [request.get_json()] finds in the request: a content type that
    is not JSON, a JSON body that does not parse (an empty one too), or
    the value the body parses to.  The first two raise werkzeug's
    [UnsupportedMediaType] and [BadRequest] (Flask 2.1 and later). *)
Inductive request_body : Type :=
| NotJson
| Malformed
| Parsed (data : json).

Definition get_json (body : request_body) : result json :=
  match body with
  | NotJson => Raise UnsupportedMediaType
  | Malformed => Raise BadRequest
  | Parsed data => Ok data
  end.

(** The status of an [HTTPException]. *)
Definition http_code (e : exn) : option Z :=
  match e with
  | BadRequest => Some 400
  | UnsupportedMediaType => Some 415
  | _ => None
  end.

(** [k in data] for a string [k]. *)
Definition py_in (k : string) (data : json) : result bool :=
  match data with
  | JObj fields =>
      Ok (match assoc k fields with Some _ => true | None => false end)
  | JArr items => Ok (existsb (is_str k) items)
  | JStr s => Ok (is_substring k s)
  | JNull | JBool _ | JNum _ => Raise TypeError_not_iterable
  end.

(** [data[k]] for a string [k]. *)
Definition py_getitem (data : json) (k : string) : result json :=
  match data with
  | JObj fields =>
      match assoc k fields with Some v => Ok v | None => Raise (KeyError k) end
  | _ => Raise TypeError_bad_index
  end.

(** ** The store *)

Inductive sqlval : Type :=
| SNull
| SInt (n : Z)
| SStr (s : string).

Global Instance sqlval_eq_dec : EqDecision sqlval.
Proof. solve_decision. Defined.

Global Instance sqlval_countable : Countable sqlval.
Proof.
  refine (inj_countable'
    (fun v => match v with
              | SNull => inl tt
              | SInt n => inr (inl n)
              | SStr s => inr (inr s)
              end)
    (fun c => match c with
              | inl _ => SNull
              | inr (inl n) => SInt n
              | inr (inr s) => SStr s
              end) _).
  intros []; reflexivity.
Defined.

(** The connector's conversion of a Python value to a statement parameter:
    lists and dicts have no conversion and make [cursor.execute] raise. *)
Definition to_param (v : json) : result sqlval :=
  match v with
  | JNull => Ok SNull
  | JBool b => Ok (SInt (if b then 1 else 0))
  | JNum n => Ok (SInt n)
  | JStr s => Ok (SStr s)
  | JArr _ | JObj _ => Raise ProgrammingError_param
  end.

(** A row of [tasks].  The table is declared outside this repository:
    the text columns keep the value that was bound, [due_date] is a date
    (a day number) or NULL, and the two timestamps are kept by the
    store. *)
Record task : Type := mkTask {
  t_id : Z;
  t_user_id : Z;
  t_title : sqlval;
  t_description : sqlval;
  t_status : sqlval;
  t_priority : sqlval;
  t_due_date : option Z;
  t_created_at : Z;
  t_updated_at : Z
}.

(** A row of [users]; the handlers only read this table. *)
Record user : Type := mkUser {
  u_id : Z;
  u_username : string;
  u_password_hash : string;
  u_first_name : string;
  u_last_name : string
}.

Record session : Type := mkSession {
  s_user_id : option Z;
  s_username : option string;
  s_first_name : option string
}.

(** [w_pool] is [None] when the pool could not be built at start-up
    ([db_pool = None]) and otherwise the number of free connections. *)
Record world : Type := mkWorld {
  w_tasks : list task;
  w_users : list user;
  w_pool : option nat;
  w_next_id : Z;
  w_now : Z;
  w_today : Z;
  w_session : session;
  w_flashes : list (string * string)
}.

Definition set_tasks (ts : list task) (w : world) : world :=
  mkWorld ts (w_users w) (w_pool w) (w_next_id w) (w_now w) (w_today w)
          (w_session w) (w_flashes w).

Definition set_pool (p : option nat) (w : world) : world :=
  mkWorld (w_tasks w) (w_users w) p (w_next_id w) (w_now w) (w_today w)
          (w_session w) (w_flashes w).

Definition set_next_id (n : Z) (w : world) : world :=
  mkWorld (w_tasks w) (w_users w) (w_pool w) n (w_now w) (w_today w)
          (w_session w) (w_flashes w).

Definition set_session (s : session) (w : world) : world :=
  mkWorld (w_tasks w) (w_users w) (w_pool w) (w_next_id w) (w_now w) (w_today w)
          s (w_flashes w).

Definition add_flash (msg category : string) (w : world) : world :=
  mkWorld (w_tasks w) (w_users w) (w_pool w) (w_next_id w) (w_now w) (w_today w)
          (w_session w) (w_flashes w ++ [(msg, category)]).

(** ** The handler monad: state over [world], with exceptions *)

Definition M (A : Type) : Type := world -> result A * world.

Definition ret {A} (a : A) : M A := fun w => (Ok a, w).

Definition bind {A B} (m : M A) (k : A -> M B) : M B :=
  fun w => match m w with
           | (Ok a, w') => k a w'
           | (Raise e, w') => (Raise e, w')
           end.

Definition raise {A} (e : exn) : M A := fun w => (Raise e, w).

Definition lift {A} (r : result A) : M A := fun w => (r, w).

Definition try_except {A} (body : M A) (handler : exn -> M A) : M A :=
  fun w => match body w with
           | (Ok a, w') => (Ok a, w')
           | (Raise e, w') => handler e w'
           end.

Definition get_world : M world := fun w => (Ok w, w).
Definition modify (f : world -> world) : M unit := fun w => (Ok tt, f w).

Notation "'do' x <- m ; k" := (bind m (fun x => k))
  (at level 10, x name, m at level 100, k at level 200).
Notation "'do_' m ; k" := (bind m (fun _ => k))
  (at level 10, m at level 100, k at level 200).

(** ** Responses *)

(** One element of the array [GET /api/tasks] answers with: the selected
    columns, the three date columns as ISO-8601 text or null. *)
Record task_json : Type := mkTaskJson {
  j_id : Z;
  j_title : sqlval;
  j_description : sqlval;
  j_status : sqlval;
  j_priority : sqlval;
  j_due_date : option string;
  j_created_at : option string;
  j_updated_at : option string;
  j_username : string;
  j_first_name : string;
  j_last_name : string
}.

Record stats : Type := mkStats {
  status_counts : gmap sqlval Z;
  priority_counts : gmap sqlval Z;
  overdue_count : Z;
  total_tasks : Z
}.

Inductive body : Type :=
| BError (msg : string)                          (* {'error': msg} *)
| BException (e : exn)                           (* {'error': str(e)} *)
| BMessage (msg : string)                        (* {'message': msg} *)
| BCreated (id : Z) (msg : string) (title : json)
| BTasks (rows : list task_json)
| BStats (st : stats).

Inductive response : Type :=
| Json (b : body) (code : Z)
| Redirect (endpoint : string)
| Render (template : string) (code : Z)
| HttpError (code : Z).              (* werkzeug's page for an HTTPException *)

Definition status_code (r : response) : Z :=
  match r with
  | Json _ code => code
  | Redirect _ => 302
  | Render _ code => code
  | HttpError code => code
  end.

(** An [HTTPException] that leaves a view function is the response
    itself (the application registers handlers for 404 and 500 only);
    any other exception reaches the 500 handler, [internal_error]. *)
Definition dispatch (view : M response) (w : world) : response * world :=
  match view w with
  | (Ok r, w') => (r, w')
  | (Raise e, w') =>
      match http_code e with
      | Some code => (HttpError code, w')
      | None => (Render "500.html" 500, w')
      end
  end.

(** ** The pool *)

Inductive connection : Type := Conn.

(** [get_db_connection]: [None] when there is no pool, and when the pool
    is exhausted (the [PoolError] is a [mysql.connector.Error] and is
    caught). *)
Definition get_db_connection : M (option connection) :=
  fun w => match w_pool w with
           | None => (Ok None, w)
           | Some O => (Ok None, w)
           | Some (S free) => (Ok (Some Conn), set_pool (Some free) w)
           end.

(** [conn.close()] hands the connection back to the pool. *)
Definition conn_close (c : connection) : M unit :=
  modify (fun w => set_pool (S <$> w_pool w) w).

Definition flash (msg category : string) : M unit :=
  modify (add_flash msg category).

(** [login_required]: without [user_id] in the session the view is not
    run. *)
Definition login_required (view : Z -> M response) : M response :=
  do w <- get_world;
  match s_user_id (w_session w) with
  | None =>
      do_ flash "Please log in to access this page" "warning";
      ret (Redirect "login")
  | Some user_id => view user_id
  end.

(** ** SQL comparisons: a comparison with NULL is unknown, and a row is
    selected only where the condition is true. *)

Definition sql_ne (a b : sqlval) : option bool :=
  match a, b with
  | SNull, _ | _, SNull => None
  | _, _ => Some (negb (bool_decide (a = b)))
  end.

Definition sql_lt_date (a : option Z) (b : Z) : option bool :=
  match a with
  | None => None
  | Some d => Some (d <? b)
  end.

Definition sql_and (a b : option bool) : option bool :=
  match a, b with
  | Some false, _ | _, Some false => Some false
  | Some true, Some true => Some true
  | _, _ => None
  end.

Definition sql_true (c : option bool) : bool :=
  match c with Some true => true | _ => false end.

(** [ORDER BY updated_at DESC], as a stable insertion sort. *)
Fixpoint insert_desc {A} (key : A -> Z) (x : A) (l : list A) : list A :=
  match l with
  | [] => [x]
  | y :: rest =>
      if key x <? key y then y :: insert_desc key x rest else x :: y :: rest
  end.

Definition order_by_desc {A} (key : A -> Z) (l : list A) : list A :=
  foldr (insert_desc key) [] l.

(** [SELECT k, COUNT( * ) ... GROUP BY k]: one row per distinct key. *)
Fixpoint bump (k : sqlval) (groups : list (sqlval * Z)) : list (sqlval * Z) :=
  match groups with
  | [] => [(k, 1)]
  | (k', n) :: rest =>
      if bool_decide (k = k') then (k', n + 1) :: rest
      else (k', n) :: bump k rest
  end.

Definition group_count {A} (key : A -> sqlval) (rows : list A)
    : list (sqlval * Z) :=
  foldl (fun groups r => bump (key r) groups) [] rows.

(** [{row[k]: row['count'] for row in rows}]: a later row overwrites. *)
Definition dict_of_rows (rows : list (sqlval * Z)) : gmap sqlval Z :=
  foldl (fun d r => <[r.1 := r.2]> d) ∅ rows.

(** [jsonify] writes a dict with its keys sorted ([sort_keys]).  Python
    orders [None] with nothing, and text and numbers only among
    themselves, so sorting keys of two kinds raises [TypeError]; a single
    key is never compared. *)
Definition same_kind (a b : sqlval) : bool :=
  match a, b with
  | SNull, SNull | SInt _, SInt _ | SStr _, SStr _ => true
  | _, _ => false
  end.

Definition sortable (keys : list sqlval) : bool :=
  forallb (fun a => forallb (same_kind a) keys) keys.

Definition sort_keys (d : gmap sqlval Z) : result unit :=
  if sortable (map_to_list d).*1 then Ok tt else Raise TypeError_sort_keys.

(** [sum(d.values())] *)
Definition sum_values (d : gmap sqlval Z) : Z :=
  foldr Z.add 0 ((map_to_list d).*2).

(** [str.isspace] on a code point: the white space [str.strip()]
    removes (U+0009..U+000D, U+001C..U+0020, U+0085, U+00A0, U+1680,
    U+2000..U+200A, U+2028, U+2029, U+202F, U+205F, U+3000). *)
Definition is_space (c : Z) : bool :=
  ((9 <=? c) && (c <=? 13)) || ((28 <=? c) && (c <=? 32))
  || (c =? 133) || (c =? 160) || (c =? 5760)
  || ((8192 <=? c) && (c <=? 8202))
  || (c =? 8232) || (c =? 8233) || (c =? 8239) || (c =? 8287) || (c =? 12288).

Definition byte (a : Ascii.ascii) : Z := Z.of_N (Ascii.N_of_ascii a).

Definition continuation (a : Ascii.ascii) : bool :=
  (128 <=? byte a) && (byte a <=? 191).

(** A white-space character of one, two or three bytes of UTF-8 (there is
    none of four). *)
Definition space1 (a : Ascii.ascii) : bool :=
  (byte a <? 128) && is_space (byte a).

Definition space2 (a b : Ascii.ascii) : bool :=
  (194 <=? byte a) && (byte a <=? 223) && continuation b
  && is_space ((byte a - 192) * 64 + (byte b - 128)).

Definition space3 (a b c : Ascii.ascii) : bool :=
  (224 <=? byte a) && (byte a <=? 239) && continuation b && continuation c
  && is_space ((byte a - 224) * 4096 + (byte b - 128) * 64 + (byte c - 128)).

(** Drops the white space a string starts with; with [back] the string
    is read from its end, so the bytes of a character come last first. *)
Fixpoint drop_spaces (back : bool) (s : string) : string :=
  match s with
  | EmptyString => EmptyString
  | String a rest =>
      if space1 a then drop_spaces back rest
      else
        match rest with
        | EmptyString => s
        | String b rest2 =>
            if (if back then space2 b a else space2 a b)
            then drop_spaces back rest2
            else
              match rest2 with
              | EmptyString => s
              | String c rest3 =>
                  if (if back then space3 c b a else space3 a b c)
                  then drop_spaces back rest3
                  else s
              end
        end
  end.

Definition lstrip (s : string) : string := drop_spaces false s.

Definition rstrip (s : string) : string :=
  String.rev (drop_spaces true (String.rev s)).

Definition strip (s : string) : string := rstrip (lstrip s).

Fixpoint form_get (form : list (string * string)) (k : string) (default : string)
    : string :=
  match form with
  | [] => default
  | (k', v) :: rest => if String.eqb k k' then v else form_get rest k default
  end.

Inductive http_method : Type := GET | POST.

Inductive column : Type := Ctitle | Cdescription | Cstatus | Cpriority | Cdue_date.

(** A [SET] clause once its parameter has reached the column. *)
Inductive assignment : Type :=
| SetTitle (v : sqlval)
| SetDescription (v : sqlval)
| SetStatus (v : sqlval)
| SetPriority (v : sqlval)
| SetDueDate (d : option Z).

Definition apply_assignment (t : task) (a : assignment) : task :=
  match a with
  | SetTitle v =>
      mkTask (t_id t) (t_user_id t) v (t_description t) (t_status t)
             (t_priority t) (t_due_date t) (t_created_at t) (t_updated_at t)
  | SetDescription v =>
      mkTask (t_id t) (t_user_id t) (t_title t) v (t_status t)
             (t_priority t) (t_due_date t) (t_created_at t) (t_updated_at t)
  | SetStatus v =>
      mkTask (t_id t) (t_user_id t) (t_title t) (t_description t) v
             (t_priority t) (t_due_date t) (t_created_at t) (t_updated_at t)
  | SetPriority v =>
      mkTask (t_id t) (t_user_id t) (t_title t) (t_description t) (t_status t)
             v (t_due_date t) (t_created_at t) (t_updated_at t)
  | SetDueDate d =>
      mkTask (t_id t) (t_user_id t) (t_title t) (t_description t) (t_status t)
             (t_priority t) d (t_created_at t) (t_updated_at t)
  end.

(** Modelled from the spec: the [tasks] table is declared outside this
    file; its [updated_at] is a timestamp the store maintains and that
    advances on every mutation of the row. *)
Definition touch (now : Z) (t : task) : task :=
  mkTask (t_id t) (t_user_id t) (t_title t) (t_description t) (t_status t)
         (t_priority t) (t_due_date t) (t_created_at t) now.

Fixpoint map_result {A B} (f : A -> result B) (l : list A)
    : result (list B) :=
  match l with
  | [] => Ok []
  | x :: rest =>
      match f x with
      | Raise e => Raise e
      | Ok y => match map_result f rest with
                | Raise e => Raise e
                | Ok ys => Ok (y :: ys)
                end
      end
  end.

Section Handlers.

Local Set Default Proof Using "Type".

(** The parts of the deployment that are not this repository's code are
    parameters of the development. *)

(** The [DATE] column's reading of a bound non-NULL parameter; [None]
    when the store rejects the value. *)
Variable to_date : sqlval -> option Z.

(** What a text column of [tasks] stores for a bound parameter: the
    value itself, or what the store converts it to (the digits of a
    number; outside strict mode a text cut to the column's length), and
    [None] when the store rejects the value and the statement raises (a
    NULL in a column declared NOT NULL, a value outside an
    enumeration). *)
Variable stores : column -> sqlval -> option sqlval.

(** The schema's default for [tasks.status], which [INSERT] leaves out. *)
Variable default_status : sqlval.

(** [date.isoformat] and [datetime.isoformat]. *)
Variable isoformat_date : Z -> string.
Variable isoformat_datetime : Z -> string.

(** [bcrypt.checkpw password hash]; [None] when it raises on a malformed
    hash. *)
Variable checkpw : string -> string -> option bool.

(** Drops the parameters a statement does not mention. *)
Ltac only_used :=
  try clear checkpw; try clear isoformat_datetime; try clear isoformat_date;
  try clear default_status; try clear stores; try clear to_date.

(** Modelled from the spec: [due_date] is an optional date, so a bound
    NULL is stored as NULL. *)
Definition coerce_date (v : sqlval) : result (option Z) :=
  match v with
  | SNull => Ok None
  | _ => match to_date v with
         | Some d => Ok (Some d)
         | None => Raise DataError_date
         end
  end.

Definition coerce_text (c : column) (v : sqlval) : result sqlval :=
  match stores c v with
  | Some x => Ok x
  | None => Raise DataError_column
  end.

Definition store_assignment (s : column * sqlval) : result assignment :=
  match s with
  | (Ctitle, v) =>
      match coerce_text Ctitle v with
      | Ok x => Ok (SetTitle x)
      | Raise e => Raise e
      end
  | (Cdescription, v) =>
      match coerce_text Cdescription v with
      | Ok x => Ok (SetDescription x)
      | Raise e => Raise e
      end
  | (Cstatus, v) =>
      match coerce_text Cstatus v with
      | Ok x => Ok (SetStatus x)
      | Raise e => Raise e
      end
  | (Cpriority, v) =>
      match coerce_text Cpriority v with
      | Ok x => Ok (SetPriority x)
      | Raise e => Raise e
      end
  | (Cdue_date, v) =>
      match coerce_date v with
      | Ok d => Ok (SetDueDate d)
      | Raise e => Raise e
      end
  end.

(** *** Statements *)

(** [FROM tasks t JOIN users u ON t.user_id = u.id] *)
Definition join_users (ts : list task) (us : list user)
    : list (task * user) :=
  t ← ts; u ← us;
  if bool_decide (t_user_id t = u_id u) then [(t, u)] else [].

(** The [SELECT] of [get_tasks]. *)
Definition select_tasks (user_id : Z) (w : world) : list (task * user) :=
  order_by_desc (fun r => t_updated_at r.1)
    (filter (fun r => t_user_id r.1 = user_id)
       (join_users (w_tasks w) (w_users w))).

(** One fetched row after the loop that turns the dates that are set into
    ISO text; a timestamp is always set. *)
Definition task_row (r : task * user) : task_json :=
  mkTaskJson (t_id r.1) (t_title r.1) (t_description r.1) (t_status r.1)
    (t_priority r.1)
    (isoformat_date <$> t_due_date r.1)
    (Some (isoformat_datetime (t_created_at r.1)))
    (Some (isoformat_datetime (t_updated_at r.1)))
    (u_username r.2) (u_first_name r.2) (u_last_name r.2).

(** [INSERT INTO tasks (user_id, title, description, priority, due_date)]
    and [cursor.lastrowid]. *)
Definition execute_insert (user_id : Z)
    (title description priority due_date : json) : M Z :=
  do p_title <- lift (to_param title);
  do p_description <- lift (to_param description);
  do p_priority <- lift (to_param priority);
  do p_due_date <- lift (to_param due_date);
  do p_title <- lift (coerce_text Ctitle p_title);
  do p_description <- lift (coerce_text Cdescription p_description);
  do p_priority <- lift (coerce_text Cpriority p_priority);
  do d <- lift (coerce_date p_due_date);
  fun w =>
    let id := w_next_id w in
    let row := mkTask id user_id p_title p_description default_status
                      p_priority d (w_now w) (w_now w) in
    (Ok id, set_next_id (id + 1) (set_tasks (w_tasks w ++ [row]) w)).

(** [SELECT id FROM tasks WHERE id = %s AND user_id = %s] and
    [fetchone()]. *)
Definition select_owned (task_id user_id : Z) : M (option Z) :=
  fun w =>
    (Ok (t_id <$> head (filter (fun t => t_id t = task_id
                                         /\ t_user_id t = user_id)
                               (w_tasks w))), w).

(** [UPDATE tasks SET ... WHERE id = %s]: [sets] pairs each column of
    [update_fields] with its entry of [values]. *)
Definition execute_update (sets : list (column * json)) (task_id : Z)
    : M unit :=
  do params <- lift (map_result (fun s => match to_param s.2 with
                                          | Ok v => Ok (s.1, v)
                                          | Raise e => Raise e
                                          end) sets);
  do assignments <- lift (map_result store_assignment params);
  modify (fun w =>
    set_tasks
      ((fun t => if bool_decide (t_id t = task_id)
                 then touch (w_now w) (foldl apply_assignment t assignments)
                 else t) <$> w_tasks w) w).

(** [DELETE FROM tasks WHERE id = %s AND user_id = %s] and
    [cursor.rowcount]. *)
Definition execute_delete (task_id user_id : Z) : M Z :=
  fun w =>
    let hit := fun t => t_id t = task_id /\ t_user_id t = user_id in
    (Ok (Z.of_nat (length (filter hit (w_tasks w)))),
     set_tasks (filter (fun t => ~ hit t) (w_tasks w)) w).

(** The [WHERE] of the overdue count, [user_id = %s AND due_date <
    CURDATE() AND status != 'completed']; text is compared exactly. *)
Definition overdue_where (user_id today : Z) (t : task) : bool :=
  bool_decide (t_user_id t = user_id)
  && sql_true (sql_and (sql_lt_date (t_due_date t) today)
                       (sql_ne (t_status t) (SStr "completed"))).

Definition select_overdue_count (user_id : Z) (w : world) : Z :=
  Z.of_nat (length (filter (fun t => overdue_where user_id (w_today w) t = true)
                           (w_tasks w))).

Definition select_group_count (key : task -> sqlval) (user_id : Z) (w : world)
    : list (sqlval * Z) :=
  group_count key (filter (fun t => t_user_id t = user_id) (w_tasks w)).

(** [SELECT id, username, password_hash, first_name FROM users WHERE
    username = %s] and [fetchone()]; the user name is matched exactly. *)
Definition select_user (username : string) (w : world) : option user :=
  head (filter (fun u => u_username u = username) (w_users w)).

(** *** View functions *)

Definition get_tasks : M response :=
  login_required (fun user_id =>
    try_except
      (do conn <- get_db_connection;
       match conn with
       | None => ret (Json (BError "Database connection failed") 500)
       | Some c =>
           do w <- get_world;
           let tasks := task_row <$> select_tasks user_id w in
           do_ conn_close c;
           ret (Json (BTasks tasks) 200)
       end)
      (fun e => ret (Json (BException e) 500))).

(** [data.get(k, default)]; [data] is whatever the body parsed to. *)
Definition py_get (data : json) (k : string) (default : json) : result json :=
  match data with
  | JObj fields => Ok (dict_get_default fields k default)
  | _ => Raise AttributeError_get
  end.

Definition create_task (body : request_body) : M response :=
  login_required (fun user_id =>
    do data <- lift (get_json body);
    (* [not data or not data.get('title')], outside the [try] *)
    do rejected <- (if negb (truthy data) then ret true
                    else do title <- lift (py_get data "title" JNull);
                         ret (negb (truthy title)));
    if (rejected : bool) then ret (Json (BError "Title is required") 400)
    else
      try_except
        (do conn <- get_db_connection;
         match conn with
         | None => ret (Json (BError "Database connection failed") 500)
         | Some c =>
             do title <- lift (py_getitem data "title");
             do description <- lift (py_get data "description" (JStr ""));
             do priority <- lift (py_get data "priority" (JStr "medium"));
             do due <- lift (py_get data "due_date" JNull);
             let due_date := if truthy due then due else JNull in
             do task_id <- execute_insert user_id title description priority
                                          due_date;
             do_ conn_close c;
             ret (Json (BCreated task_id "Task created successfully" title) 201)
         end)
        (fun e => ret (Json (BException e) 500))).

(** [if key in data: update_fields.append(...); values.append(...)] *)
Definition add_field (data : json) (key : string) (c : column)
    (value : json -> json) (sets : list (column * json))
    : M (list (column * json)) :=
  do present <- lift (py_in key data);
  if (present : bool)
  then do v <- lift (py_getitem data key); ret (sets ++ [(c, value v)])%list
  else ret sets.

Definition update_task (task_id : Z) (body : request_body) : M response :=
  login_required (fun user_id =>
    do data <- lift (get_json body);
    try_except
      (do conn <- get_db_connection;
       match conn with
       | None => ret (Json (BError "Database connection failed") 500)
       | Some c =>
           do owned <- select_owned task_id user_id;
           match owned with
           | None =>
               do_ conn_close c;
               ret (Json (BError "Task not found") 404)
           | Some _ =>
               do sets <- add_field data "title" Ctitle id [];
               do sets <- add_field data "description" Cdescription id sets;
               do sets <- add_field data "status" Cstatus id sets;
               do sets <- add_field data "priority" Cpriority id sets;
               do sets <- add_field data "due_date" Cdue_date
                            (fun v => if truthy v then v else JNull) sets;
               do_ (match sets with
                    | [] => ret tt
                    | _ :: _ => execute_update sets task_id
                    end);
               do_ conn_close c;
               ret (Json (BMessage "Task updated successfully") 200)
           end
       end)
      (fun e => ret (Json (BException e) 500))).

Definition delete_task (task_id : Z) : M response :=
  login_required (fun user_id =>
    try_except
      (do conn <- get_db_connection;
       match conn with
       | None => ret (Json (BError "Database connection failed") 500)
       | Some c =>
           do rowcount <- execute_delete task_id user_id;
           if Z.eqb rowcount 0
           then do_ conn_close c;
                ret (Json (BError "Task not found") 404)
           else do_ conn_close c;
                ret (Json (BMessage "Task deleted successfully") 200)
       end)
      (fun e => ret (Json (BException e) 500))).

Definition get_stats : M response :=
  login_required (fun user_id =>
    try_except
      (do conn <- get_db_connection;
       match conn with
       | None => ret (Json (BError "Database connection failed") 500)
       | Some c =>
           do w <- get_world;
           let status_counts :=
             dict_of_rows (select_group_count t_status user_id w) in
           let priority_counts :=
             dict_of_rows (select_group_count t_priority user_id w) in
           let overdue_count := select_overdue_count user_id w in
           do_ conn_close c;
           let stats := mkStats status_counts priority_counts overdue_count
                                (sum_values status_counts) in
           (* [jsonify(stats)], inside the [try] *)
           do_ lift (sort_keys status_counts);
           do_ lift (sort_keys priority_counts);
           ret (Json (BStats stats) 200)
       end)
      (fun e => ret (Json (BException e) 500))).

(** [cursor.execute] and [fetchone] on a server that may fail the
    statement: [fault] is the error it answers with, if any. *)
Definition round_trip (fault : option exn) : M unit :=
  match fault with
  | Some e => raise e
  | None => ret tt
  end.

(** [login].  [fault] is what the server does with the [SELECT] of this
    request. *)
Definition login (method : http_method) (form : list (string * string))
    (fault : option exn) : M response :=
  match method with
  | GET => ret (Render "login.html" 200)
  | POST =>
      let username := strip (form_get form "username" "") in
      let password := form_get form "password" "" in
      if String.eqb username "" || String.eqb password ""
      then do_ flash "Please enter both username and password" "error";
           ret (Render "login.html" 200)
      else
        do early <-
          try_except
            (do conn <- get_db_connection;
             match conn with
             | None =>
                 do_ flash "Database connection error" "error";
                 ret (Some (Render "login.html" 200))
             | Some c =>
                 do_ round_trip fault;
                 do w <- get_world;
                 let user := select_user username w in
                 do_ conn_close c;
                 do ok <- match user with
                          | None => ret false
                          | Some u =>
                              match checkpw password (u_password_hash u) with
                              | Some b => ret b
                              | None => raise ValueError_salt
                              end
                          end;
                 match user, (ok : bool) with
                 | Some u, true =>
                     do_ modify (set_session
                           (mkSession (Some (u_id u)) (Some (u_username u))
                                      (Some (u_first_name u))));
                     do_ flash (String.append "Welcome back, "
                                  (String.append (u_first_name u) "!"))
                               "success";
                     ret (Some (Redirect "dashboard"))
                 | _, _ =>
                     do_ flash "Invalid username or password" "error";
                     ret None
                 end
             end)
            (fun e =>
               do_ flash "An error occurred during login" "error";
               ret None);
        match early with
        | Some r => ret r
        | None => ret (Render "login.html" 200)
        end
  end.

(** [index]: the landing page, or the dashboard for a signed-in user. *)
Definition index : M response :=
  do w <- get_world;
  match s_user_id (w_session w) with
  | Some _ => ret (Redirect "dashboard")
  | None => ret (Render "index.html" 200)
  end.

(** [logout].  Flask keeps the flashed messages in the session, so
    [session.clear()] drops the pending ones with the three keys; the
    message of [logout] itself is flashed after that. *)
Definition logout : M response :=
  do_ modify (fun w =>
        mkWorld (w_tasks w) (w_users w) (w_pool w) (w_next_id w) (w_now w)
                (w_today w) (mkSession None None None) []);
  do_ flash "You have been logged out successfully" "info";
  ret (Redirect "index").

(** The [database] entry of the health report. *)
Inductive health_database : Type :=
| Connected
| Disconnected
| HealthError (e : exn).          (* 'error: ' + str(e) *)

(** The report of [health_check].  The response time is a float computed
    from two readings of the clock; it is carried as it comes. *)
Record health_data (T : Type) : Type := mkHealth {
  h_status : string;
  h_timestamp : string;
  h_version : string;
  h_database : health_database;
  h_response_time_ms : T
}.
Arguments mkHealth {T} _ _ _ _ _.
Arguments h_status {T} _.
Arguments h_timestamp {T} _.
Arguments h_version {T} _.
Arguments h_database {T} _.
Arguments h_response_time_ms {T} _.

(** [health_check], with the reading of [datetime.utcnow()], the rounded
    response time and what the server does with [SELECT 1] as inputs; the
    view is not behind [login_required]. *)
Definition health_check {T} (utcnow : Z) (response_time_ms : T)
    (fault : option exn) : M (health_data T * Z) :=
  do checked <-
    try_except
      (do conn <- get_db_connection;
       match conn with
       | Some c =>
           do_ round_trip fault;
           do_ conn_close c;
           ret (Connected, "healthy")
       | None => ret (Disconnected, "unhealthy")
       end)
      (fun e => ret (HealthError e, "unhealthy"));
  let health := mkHealth checked.2 (isoformat_datetime utcnow) "1.0.0"
                         checked.1 response_time_ms in
  ret (health, if String.eqb (h_status health) "healthy" then 200 else 503).

(** *** Routes *)

(** The requests of the JSON API, all behind [login_required]. *)
Inductive api_request : Type :=
| GetTasks
| CreateTask (body : request_body)
| UpdateTask (task_id : Z) (body : request_body)
| DeleteTask (task_id : Z)
| GetStats.

Definition api_view (r : api_request) : M response :=
  match r with
  | GetTasks => get_tasks
  | CreateTask body => create_task body
  | UpdateTask task_id body => update_task task_id body
  | DeleteTask task_id => delete_task task_id
  | GetStats => get_stats
  end.

(** A request to one of the routes modelled here. *)
Inductive request : Type :=
| Index
| Login (method : http_method) (form : list (string * string))
        (fault : option exn)
| Logout
| Api (r : api_request).

Definition view_of (r : request) : M response :=
  match r with
  | Index => index
  | Login method form fault => login method form fault
  | Logout => logout
  | Api a => api_view a
  end.

(** One request, and a run of requests of one client, each on the state
    the one before left. *)
Definition handle (r : request) (w : world) : response * world :=
  dispatch (view_of r) w.

Definition run (rs : list request) (w : world) : world :=
  foldl (fun w r => (handle r w).2) w rs.

(** The responses of a run, in order. *)
Fixpoint responses (rs : list request) (w : world) : list response :=
  match rs with
  | [] => []
  | r :: rest => (handle r w).1 :: responses rest (handle r w).2
  end.

(** *** Schema constraints

    Modelled from the spec: the tables are declared outside this file;
    [id] is the primary key of each table and [tasks.user_id] references
    [users.id]. *)
Definition primary_key (ts : list task) : Prop := NoDup (t_id <$> ts).

Definition users_key (us : list user) : Prop := NoDup (u_id <$> us).

Definition foreign_key (w : world) : Prop :=
  Forall (fun t => t_user_id t ∈ u_id <$> w_users w) (w_tasks w).

(** The rows and the statistics a response carries. *)
Definition rows_of (r : result response * world) : list task_json :=
  match r.1 with
  | Ok (Json (BTasks rows) _) => rows
  | _ => []
  end.

Definition stats_of (r : result response * world) : option stats :=
  match r.1 with
  | Ok (Json (BStats st) _) => Some st
  | _ => None
  end.

Definition code_of (r : result response * world) : option Z :=
  match r.1 with
  | Ok resp => Some (status_code resp)
  | Raise _ => None
  end.

Definition sum_counts (groups : list (sqlval * Z)) : Z :=
  foldr Z.add 0 (groups.*2).

(** The number of rows of [tasks] that meet [P]. *)
Definition count_where (P : task -> bool) (ts : list task) : Z :=
  Z.of_nat (length (filter (fun t => P t = true) ts)).




(** *** A small deployment to evaluate the views on *)

Definition demo_to_date (v : sqlval) : option Z :=
  match v with
  | SInt n => Some n
  | _ => None
  end.

Definition demo_iso (n : Z) : string := "2024-01-01".

(** Modelled from the spec: the table [tasks] is declared outside this
    repository; section 3 of the specification describes its columns: a
    title is required and is a non-empty string, a description is an
    optional string, status and priority are enumerations.  A value is
    required of the title only, so the other columns take NULL. *)
Definition demo_accepts (c : column) (v : sqlval) : bool :=
  match c, v with
  | Ctitle, SStr s => negb (String.eqb s "")
  | Cdescription, (SStr _ | SNull) => true
  | Cstatus, SStr s =>
      bool_decide (s ∈ ["pending"; "in_progress"; "completed"])
  | Cpriority, SStr s => bool_decide (s ∈ ["low"; "medium"; "high"])
  | (Cstatus | Cpriority), SNull => true
  | _, _ => false
  end.

(** A store in strict mode: a value a column takes is stored as it was
    bound, any other is rejected. *)
Definition demo_stores (c : column) (v : sqlval) : option sqlval :=
  if demo_accepts c v then Some v else None.

(** A stand-in for [bcrypt.checkpw]: the hash of a password is the
    password itself, and the empty string is no hash: on it [checkpw]
    raises, as bcrypt does on a malformed hash. *)
Definition demo_checkpw (password hash : string) : option bool :=
  if String.eqb hash "" then None else Some (String.eqb password hash).

Definition alice : user := mkUser 1 "alice" "secret-a" "Alice" "Adams".
Definition bob : user := mkUser 2 "bob" "secret-b" "Bob" "Brown".

(** A user whose stored hash is malformed. *)
Definition carol : user := mkUser 3 "carol" "" "Carol" "Clark".

(** U+00A0, NO-BREAK SPACE, in UTF-8. *)
Definition no_break_space : string :=
  String (Ascii.ascii_of_nat 194) (String (Ascii.ascii_of_nat 160) EmptyString).

Definition task_milk : task :=
  mkTask 10 1 (SStr "Buy milk") (SStr "") (SStr "pending") (SStr "medium")
         (Some 5) 100 100.

Definition task_call : task :=
  mkTask 11 2 (SStr "Call home") (SStr "soon") (SStr "pending") (SStr "high")
         None 100 120.

Definition task_rent : task :=
  mkTask 12 1 (SStr "Pay rent") (SStr "") (SStr "completed") (SStr "high")
         (Some 3) 100 130.

Definition demo_tasks : list task := [task_milk; task_call; task_rent].

Definition session_of (u : user) : session :=
  mkSession (Some (u_id u)) (Some (u_username u)) (Some (u_first_name u)).

Definition anonymous : session := mkSession None None None.

(** Day 7, five free connections, [who] signed in. *)
Definition demo_world (who : session) : world :=
  mkWorld demo_tasks [alice; bob] (Some 5%nat) 13 200 7 who [].

(** The same with [carol] among the users, nobody signed in. *)
Definition world_with_carol : world :=
  mkWorld demo_tasks [alice; bob; carol] (Some 5%nat) 13 200 7 anonymous [].


(** "The body lacks a title key or the title is empty", for a parsed
    body: an object without the key or with an empty title, and every
    value that is no object and so has no key at all. *)
Definition title_missing_or_empty (data : json) : Prop :=
  match data with
  | JObj fields =>
      match assoc "title" fields with
      | None => True
      | Some v => truthy v = false
      end
  | _ => True
  end.


Definition is_object (data : json) : bool :=
  match data with
  | JObj _ => true
  | _ => false
  end.

(** What one [if key in data] block adds for a dict body. *)
Definition field_set (fields : list (string * json)) (key : string) (c : column)
    (value : json -> json) : list (column * json) :=
  match assoc key fields with
  | Some v => [(c, value v)]
  | None => []
  end.

Definition update_sets (fields : list (string * json)) : list (column * json) :=
  ((((field_set fields "title" Ctitle id
      ++ field_set fields "description" Cdescription id)
     ++ field_set fields "status" Cstatus id)
    ++ field_set fields "priority" Cpriority id)
   ++ field_set fields "due_date" Cdue_date
        (fun v => if truthy v then v else JNull))%list.





(** The value of a text column after a patch: untouched when the key is
    absent, the bound value of the key otherwise. *)
Definition bound_to (patch : option json) (old new : sqlval) : Prop :=
  match patch with
  | None => new = old
  | Some v => to_param v = Ok new
  end.

(** The same for [due_date]: an empty value is stored as NULL. *)
Definition bound_date (patch : option json) (old new : option Z) : Prop :=
  match patch with
  | None => new = old
  | Some v =>
      if truthy v
      then exists p, to_param v = Ok p /\ to_date p = new /\ is_Some new
      else new = None
  end.

(** A value the connector can bind and the column stores as it was
    bound; a key that is absent asks nothing of its column. *)
Definition storable (c : column) (v : json) : Prop :=
  exists p, to_param v = Ok p /\ stores c p = Some p.

(** What [create_task] asks of a column: a value of the body is bound
    and stored, in whatever form; the default of an absent key is stored
    as it is. *)
Definition insertable (c : column) (patch : option json) (default : sqlval)
    : Prop :=
  match patch with
  | Some v => exists p s, to_param v = Ok p /\ stores c p = Some s
  | None => stores c default = Some default
  end.

Definition bindable (c : column) (patch : option json) : Prop :=
  match patch with
  | None => True
  | Some v => storable c v
  end.

(** A date the store accepts. *)
Definition date_accepted (patch : option json) : Prop :=
  match patch with
  | None => True
  | Some v =>
      truthy v = true -> exists p d, to_param v = Ok p /\ to_date p = Some d
  end.

(** *** The state the views keep

    The two keys, the reference from [tasks] to [users], ids below the next
    auto-increment value, and a session that names a row of [users]. *)
Definition well_formed (w : world) : Prop :=
  primary_key (w_tasks w)
  /\ users_key (w_users w)
  /\ foreign_key w
  /\ Forall (fun t => t_id t < w_next_id w) (w_tasks w)
  /\ (forall uid, s_user_id (w_session w) = Some uid ->
                  uid ∈ u_id <$> w_users w).

(** [m] keeps [P]: whatever [m] answers or raises, [P] holds afterwards. *)
Definition preserves {A} (P : world -> Prop) (m : M A) : Prop :=
  forall w, P w -> P (m w).2.

(** Inside a view the caller is known. *)
Definition signed_in (uid : Z) (w : world) : Prop :=
  well_formed w /\ s_user_id (w_session w) = Some uid.

(** [P] looks at the tables, the id counter and the session only. *)
Definition frame (P : world -> Prop) : Prop :=
  forall w w',
    w_tasks w' = w_tasks w -> w_users w' = w_users w ->
    w_next_id w' = w_next_id w -> w_session w' = w_session w ->
    P w -> P w'.

(** *** The [SET] list of [update_task] for any body

    The five [if key in data] blocks touch nothing but the two lists, so
    their chain is a function of the body. *)
Definition collect_field (data : json) (key : string) (c : column)
    (value : json -> json) (sets : list (column * json))
    : result (list (column * json)) :=
  match py_in key data with
  | Raise e => Raise e
  | Ok false => Ok sets
  | Ok true =>
      match py_getitem data key with
      | Raise e => Raise e
      | Ok v => Ok (sets ++ [(c, value v)])%list
      end
  end.

Definition and_then {A B} (r : result A) (k : A -> result B) : result B :=
  match r with
  | Ok a => k a
  | Raise e => Raise e
  end.

Definition collect_sets (data : json) : result (list (column * json)) :=
  and_then (collect_field data "title" Ctitle id []) (fun sets =>
  and_then (collect_field data "description" Cdescription id sets) (fun sets =>
  and_then (collect_field data "status" Cstatus id sets) (fun sets =>
  and_then (collect_field data "priority" Cpriority id sets) (fun sets =>
  collect_field data "due_date" Cdue_date
    (fun v => if truthy v then v else JNull) sets)))).

(** The body has a title that passes the check of [create_task]. *)
Definition has_title (data : json) : bool :=
  match data with
  | JObj fields => truthy (dict_get_default fields "title" JNull)
  | _ => false
  end.

(** The request gets as far as asking for a connection: its body, when
    the view reads one, parses, and a create request has a title. *)
Definition passes_validation (a : api_request) : bool :=
  match a with
  | CreateTask (Parsed data) => has_title data
  | UpdateTask _ (Parsed _) => true
  | CreateTask _ | UpdateTask _ _ => false
  | _ => true
  end.

(** A 500 that carries the text of an exception: the answer of an
    [except] block. *)
Definition exception_answer (r : response) : bool :=
  match r with
  | Json (BException _) _ => true
  | _ => false
  end.

(** The tasks of one user, and the tasks of everybody else. *)
Definition tasks_of (uid : Z) (ts : list task) : list task :=
  filter (fun t => t_user_id t = uid) ts.

Definition tasks_of_others (uid : Z) (ts : list task) : list task :=
  filter (fun t => t_user_id t <> uid) ts.

(** The statistics of one user, and whether [jsonify] can write them:
    the statuses of the user's tasks are of one kind, and so are the
    priorities. *)
Definition statistics (uid : Z) (w : world) : stats :=
  mkStats (dict_of_rows (select_group_count t_status uid w))
          (dict_of_rows (select_group_count t_priority uid w))
          (select_overdue_count uid w)
          (sum_values (dict_of_rows (select_group_count t_status uid w))).

Definition serializable (uid : Z) (w : world) : bool :=
  sortable (t_status <$> tasks_of uid (w_tasks w))
  && sortable (t_priority <$> tasks_of uid (w_tasks w)).

(** The count a [GROUP BY] result holds for a key, 0 without a row for
    it. *)
Fixpoint count_of (k : sqlval) (groups : list (sqlval * Z)) : Z :=
  match groups with
  | [] => 0
  | (k', n) :: rest => if bool_decide (k = k') then n else count_of k rest
  end.

(** A list in descending order of [key]. *)
Fixpoint descending {A} (key : A -> Z) (l : list A) : Prop :=
  match l with
  | [] => True
  | x :: rest => Forall (fun y => key y <= key x) rest /\ descending key rest
  end.

(** ** Lemmas on the statements *)

Lemma insert_desc_perm {A} (key : A -> Z) (x : A) (l : list A) :
  insert_desc key x l ≡ₚ x :: l.
Proof.
  induction l as [|y l IH]; simpl; [done|].
  destruct (key x <? key y); [|done].
  rewrite IH. apply Permutation_swap.
Qed.

Lemma order_by_desc_perm {A} (key : A -> Z) (l : list A) :
  order_by_desc key l ≡ₚ l.
Proof.
  induction l as [|x l IH]; simpl; [done|].
  rewrite insert_desc_perm. by rewrite IH.
Qed.

Lemma bump_sum k groups : sum_counts (bump k groups) = sum_counts groups + 1.
Proof.
  unfold sum_counts.
  induction groups as [|[k' n] groups IH]; csimpl; [lia|].
  case_bool_decide; csimpl; lia.
Qed.

Lemma bump_keys k groups x :
  x ∈ (bump k groups).*1 -> x = k \/ x ∈ groups.*1.
Proof.
  induction groups as [|[k' n] groups IH]; csimpl.
  - intros ?%list_elem_of_singleton. by left.
  - case_bool_decide; csimpl.
    + by right.
    + intros [->|Hin]%elem_of_cons.
      * right. apply list_elem_of_here.
      * destruct (IH Hin) as [->|?]; [by left|].
        right. by apply list_elem_of_further.
Qed.

Lemma bump_nodup k groups : NoDup (groups.*1) -> NoDup ((bump k groups).*1).
Proof.
  induction groups as [|[k' n] groups IH]; csimpl.
  - intros _. apply NoDup_singleton.
  - rewrite NoDup_cons. intros [Hk' Hnd].
    case_bool_decide; csimpl; rewrite NoDup_cons; [done|].
    split; [|by apply IH].
    intros [->|?]%bump_keys; congruence.
Qed.

Lemma group_count_acc {A} (key : A -> sqlval) (rows : list A) acc :
  NoDup (acc.*1) ->
  let groups := foldl (fun g r => bump (key r) g) acc rows in
  NoDup (groups.*1) /\ sum_counts groups = sum_counts acc + Z.of_nat (length rows).
Proof.
  revert acc. induction rows as [|r rows IH]; intros acc Hnd; csimpl.
  - split; [done|lia].
  - destruct (IH (bump (key r) acc) (bump_nodup _ _ Hnd)) as [H1 H2].
    split; [done|]. rewrite H2, bump_sum. lia.
Qed.

Lemma group_count_spec {A} (key : A -> sqlval) (rows : list A) :
  NoDup ((group_count key rows).*1)
  /\ sum_counts (group_count key rows) = Z.of_nat (length rows).
Proof.
  destruct (group_count_acc key rows [] (NoDup_nil_2)) as [H1 H2].
  split; [done|]. unfold group_count. rewrite H2. done.
Qed.

Lemma sum_perm (l k : list Z) : l ≡ₚ k -> foldr Z.add 0 l = foldr Z.add 0 k.
Proof. induction 1; csimpl; lia. Qed.

Lemma dict_of_rows_rev (rows : list (sqlval * Z)) :
  dict_of_rows rows = list_to_map (reverse rows).
Proof.
  unfold dict_of_rows.
  induction rows as [|[k v] rows IH] using rev_ind; [done|].
  rewrite foldl_app, reverse_app. csimpl. by rewrite IH.
Qed.

Lemma sum_values_dict (rows : list (sqlval * Z)) :
  NoDup (rows.*1) -> sum_values (dict_of_rows rows) = sum_counts rows.
Proof.
  intros Hnd. unfold sum_values, sum_counts.
  rewrite dict_of_rows_rev. apply sum_perm.
  rewrite map_to_list_to_map.
  - by rewrite reverse_Permutation.
  - by rewrite fmap_reverse, reverse_Permutation.
Qed.

Lemma join_none (t : task) (us : list user) :
  t_user_id t ∉ u_id <$> us ->
  (u ← us; if bool_decide (t_user_id t = u_id u) then [(t, u)] else []) = [].
Proof.
  induction us as [|u us IH]; csimpl; [done|].
  rewrite not_elem_of_cons. intros [Hne Hnot].
  rewrite bool_decide_eq_false_2 by done. by rewrite IH.
Qed.

Lemma join_one (t : task) (us : list user) :
  users_key us -> t_user_id t ∈ u_id <$> us ->
  exists u,
    (u ← us; if bool_decide (t_user_id t = u_id u) then [(t, u)] else [])
    = [(t, u)].
Proof.
  unfold users_key.
  induction us as [|u us IH]; csimpl.
  - intros _ Hin. by apply elem_of_nil in Hin.
  - rewrite NoDup_cons. intros [Hfresh Hnd] Hin.
    case_bool_decide as Heq.
    + exists u. rewrite join_none; [done|]. by rewrite Heq.
    + apply elem_of_cons in Hin as [?|Hin]; [done|].
      destruct (IH Hnd Hin) as [u' ->]. by exists u'.
Qed.

Lemma join_users_length (uid : Z) (ts : list task) (us : list user) :
  users_key us ->
  Forall (fun t => t_user_id t ∈ u_id <$> us) ts ->
  length (filter (fun r : task * user => t_user_id r.1 = uid) (join_users ts us))
  = length (filter (fun t => t_user_id t = uid) ts).
Proof.
  intros Hkey. unfold join_users.
  induction 1 as [|t ts Hin _ IH]; csimpl; [done|].
  destruct (join_one t us Hkey Hin) as [u ->].
  rewrite filter_app, length_app, IH, !filter_cons, filter_nil. simpl.
  destruct (decide (t_user_id t = uid)); simpl; done.
Qed.

Lemma join_users_elem (r : task * user) (ts : list task) (us : list user) :
  r ∈ join_users ts us -> r.1 ∈ ts /\ r.2 ∈ us /\ t_user_id r.1 = u_id r.2.
Proof.
  unfold join_users.
  intros (t & (u & Hr & Hu)%list_elem_of_bind & Ht)%list_elem_of_bind.
  case_bool_decide; [|by apply elem_of_nil in Hr].
  apply list_elem_of_singleton in Hr as ->. done.
Qed.

Lemma select_tasks_elem (uid : Z) (w : world) (r : task * user) :
  r ∈ select_tasks uid w ->
  r.1 ∈ w_tasks w /\ r.2 ∈ w_users w /\ t_user_id r.1 = uid.
Proof.
  unfold select_tasks. rewrite order_by_desc_perm.
  intros [Hown (Ht & Hu & _)%join_users_elem]%list_elem_of_filter. done.
Qed.

Lemma select_tasks_length (uid : Z) (w : world) :
  users_key (w_users w) -> foreign_key w ->
  length (select_tasks uid w)
  = length (filter (fun t => t_user_id t = uid) (w_tasks w)).
Proof.
  intros Hkey Hfk. unfold select_tasks.
  rewrite order_by_desc_perm. by apply join_users_length.
Qed.

(** Taking a connection does not touch the tables. *)
Lemma select_tasks_set_pool (uid : Z) (p : option nat) (w : world) :
  select_tasks uid (set_pool p w) = select_tasks uid w.
Proof. reflexivity. Qed.

Lemma select_group_count_set_pool key (uid : Z) (p : option nat) (w : world) :
  select_group_count key uid (set_pool p w) = select_group_count key uid w.
Proof. reflexivity. Qed.

Lemma select_overdue_count_set_pool (uid : Z) (p : option nat) (w : world) :
  select_overdue_count uid (set_pool p w) = select_overdue_count uid w.
Proof. reflexivity. Qed.

Arguments assoc : simpl never.
Arguments group_count : simpl never.
Arguments order_by_desc : simpl never.
Arguments dict_of_rows : simpl never.
Arguments sum_values : simpl never.
Arguments join_users : simpl never.
Arguments select_tasks : simpl never.
Arguments select_group_count : simpl never.
Arguments select_overdue_count : simpl never.

(** Running a view for a signed-in user who gets a connection. *)
Ltac parsed_body :=
  repeat match goal with
         | |- context [lift (get_json (Parsed ?d)) ?w] =>
             change (lift (get_json (Parsed d)) w) with (@Ok json d, w)
         end.

Ltac enter_view Hsession Hpool :=
  unfold login_required, try_except, bind, get_world, get_db_connection;
  rewrite Hsession; parsed_body; cbv beta iota; rewrite Hpool; cbn [fst snd].

(** *** The statistics and their serialisation *)

Lemma count_of_bump (k k' : sqlval) (groups : list (sqlval * Z)) :
  count_of k (bump k' groups)
  = count_of k groups + (if bool_decide (k = k') then 1 else 0).
Proof.
  induction groups as [|[k1 n] groups IH]; cbn.
  - by case_bool_decide.
  - destruct (bool_decide (k' = k1)) eqn:Hhead; cbn.
    + apply bool_decide_eq_true in Hhead as ->.
      case_bool_decide; lia.
    + apply bool_decide_eq_false in Hhead.
      destruct (bool_decide (k = k1)) eqn:Hk; [|by rewrite IH].
      apply bool_decide_eq_true in Hk as ->.
      rewrite bool_decide_eq_false_2 by done. lia.
Qed.

Lemma bump_positive (k : sqlval) (groups : list (sqlval * Z)) :
  Forall (fun g => 0 < g.2) groups -> Forall (fun g => 0 < g.2) (bump k groups).
Proof.
  induction 1 as [|[k1 n] groups Hn Hrest IH]; cbn.
  - apply Forall_singleton. cbn. lia.
  - case_bool_decide; apply Forall_cons; cbn in *.
    + split; [lia|done].
    + split; [done|exact IH].
Qed.

Lemma group_count_counts {A} (key : A -> sqlval) (rows : list A) (k : sqlval) :
  count_of k (group_count key rows)
  = Z.of_nat (length (filter (fun r => key r = k) rows))
  /\ Forall (fun g => 0 < g.2) (group_count key rows).
Proof.
  unfold group_count.
  assert (Hacc : forall acc,
    Forall (fun g => 0 < g.2) acc ->
    count_of k (foldl (fun g r => bump (key r) g) acc rows)
    = count_of k acc + Z.of_nat (length (filter (fun r => key r = k) rows))
    /\ Forall (fun g => 0 < g.2) (foldl (fun g r => bump (key r) g) acc rows)).
  { induction rows as [|r rows IH]; intros acc Hpos; cbn [foldl].
    - split; [rewrite filter_nil; cbn; lia|done].
    - destruct (IH (bump (key r) acc) (bump_positive _ _ Hpos)) as [-> Hpos'].
      split; [|done]. rewrite count_of_bump, filter_cons.
      destruct (decide (key r = k)) as [Heq|Hne].
      + rewrite bool_decide_eq_true_2 by done. cbn [length]. lia.
      + rewrite bool_decide_eq_false_2 by congruence. lia. }
  destruct (Hacc [] (Forall_nil_2 _)) as [-> Hpos]. split; [cbn; lia|done].
Qed.

Lemma count_of_elem (k : sqlval) (n : Z) (groups : list (sqlval * Z)) :
  NoDup (groups.*1) -> (k, n) ∈ groups -> count_of k groups = n.
Proof.
  induction groups as [|[k1 n1] groups IH]; csimpl.
  - intros _ Hin. by apply elem_of_nil in Hin.
  - rewrite NoDup_cons. intros [Hfresh Hnd] [[= -> ->]|Hin]%elem_of_cons.
    + by rewrite bool_decide_eq_true_2.
    + rewrite bool_decide_eq_false_2; [by apply IH|].
      intros ->. apply Hfresh.
      by apply (list_elem_of_fmap_2 fst groups (k1, n)).
Qed.

Lemma count_of_absent (k : sqlval) (groups : list (sqlval * Z)) :
  k ∉ groups.*1 -> count_of k groups = 0.
Proof.
  induction groups as [|[k1 n1] groups IH]; csimpl; [done|].
  rewrite not_elem_of_cons. intros [Hne Hrest].
  rewrite bool_decide_eq_false_2 by done. by apply IH.
Qed.

(** The dict built from a [GROUP BY] result holds, for every key, the
    count of the rows with that key, and no key for a count of zero. *)
Lemma dict_of_group_count {A} (key : A -> sqlval) (rows : list A) (k : sqlval) :
  let n := Z.of_nat (length (filter (fun r => key r = k) rows)) in
  dict_of_rows (group_count key rows) !! k
  = if bool_decide (n = 0) then None else Some n.
Proof.
  intros n. destruct (group_count_spec key rows) as [Hnd _].
  destruct (group_count_counts key rows k) as [Hcount Hpos]. fold n in Hcount.
  rewrite dict_of_rows_rev.
  assert (Hnd' : NoDup ((reverse (group_count key rows)).*1))
    by (by rewrite fmap_reverse, reverse_Permutation).
  destruct (list_to_map (reverse (group_count key rows)) !! k) as [m|] eqn:Hlook.
  - apply elem_of_list_to_map in Hlook; [|done].
    rewrite elem_of_reverse in Hlook.
    pose proof (count_of_elem k m _ Hnd Hlook) as Hm.
    pose proof (proj1 (Forall_forall _ _) Hpos _ Hlook) as Hm0. cbn in Hm0.
    rewrite bool_decide_eq_false_2 by lia. f_equal. lia.
  - apply not_elem_of_list_to_map in Hlook.
    rewrite fmap_reverse, elem_of_reverse in Hlook.
    pose proof (count_of_absent k _ Hlook) as Hzero.
    by rewrite bool_decide_eq_true_2 by lia.
Qed.

(** Whether a list of keys sorts depends on the keys it holds only. *)
Lemma sortable_spec (l : list sqlval) :
  sortable l = true
  <-> forall a b, a ∈ l -> b ∈ l -> same_kind a b = true.
Proof.
  unfold sortable. rewrite forallb_forall. split.
  - intros Hall a b Ha Hb.
    apply (proj1 (forallb_forall _ _) (Hall a (proj1 (list_elem_of_In _ _) Ha))).
    by apply list_elem_of_In.
  - intros Hall a Ha. apply forallb_forall. intros b Hb.
    apply Hall; by apply list_elem_of_In.
Qed.

Lemma sortable_same_elements (l l' : list sqlval) :
  (forall x, x ∈ l <-> x ∈ l') -> sortable l = sortable l'.
Proof.
  intros Hsame.
  destruct (sortable l) eqn:Hl, (sortable l') eqn:Hl'; try done.
  - rewrite sortable_spec in Hl. rewrite <- Hl'. symmetry.
    apply sortable_spec. intros a b Ha Hb. apply Hl; by apply Hsame.
  - rewrite sortable_spec in Hl'. rewrite <- Hl.
    apply sortable_spec. intros a b Ha Hb. apply Hl'; by apply Hsame.
Qed.

(** The keys of the dict built from a [GROUP BY] result are the keys of
    the grouped rows. *)
Lemma dict_keys_group_count {A} (key : A -> sqlval) (rows : list A)
    (x : sqlval) :
  x ∈ (map_to_list (dict_of_rows (group_count key rows))).*1
  <-> x ∈ key <$> rows.
Proof.
  split.
  - intros ([k n] & -> & Hin)%list_elem_of_fmap. cbn.
    pose proof (dict_of_group_count key rows k) as Hlook. cbn zeta in Hlook.
    apply elem_of_map_to_list in Hin. rewrite Hin in Hlook.
    case_bool_decide as Hzero; [done|].
    destruct (filter (fun r => key r = k) rows) as [|r hits] eqn:Hhits;
      [done|].
    assert (Hr : r ∈ filter (fun r => key r = k) rows)
      by (rewrite Hhits; apply list_elem_of_here).
    apply list_elem_of_filter in Hr as [<- Hr].
    by apply list_elem_of_fmap_2.
  - intros (r & -> & Hr)%list_elem_of_fmap.
    pose proof (dict_of_group_count key rows (key r)) as Hlook.
    cbn zeta in Hlook.
    assert (Hhit : r ∈ filter (fun r' => key r' = key r) rows)
      by (by apply list_elem_of_filter).
    rewrite bool_decide_eq_false_2 in Hlook.
    + apply elem_of_map_to_list in Hlook.
      by apply (list_elem_of_fmap_2 fst _ _ Hlook).
    + destruct (filter (fun r' => key r' = key r) rows);
        [by apply elem_of_nil in Hhit|cbn; lia].
Qed.

Lemma sort_keys_group_count {A} (key : A -> sqlval) (rows : list A) :
  sort_keys (dict_of_rows (group_count key rows))
  = if sortable (key <$> rows) then Ok tt else Raise TypeError_sort_keys.
Proof.
  unfold sort_keys.
  by rewrite (sortable_same_elements _ (key <$> rows))
    by apply dict_keys_group_count.
Qed.

Lemma get_tasks_run (w : world) (uid : Z) (free : nat) :
  s_user_id (w_session w) = Some uid ->
  w_pool w = Some (S free) ->
  get_tasks w = (Ok (Json (BTasks (task_row <$> select_tasks uid w)) 200), w).
Proof.
  intros Hsession Hpool. unfold get_tasks. enter_view Hsession Hpool.
  cbn. rewrite select_tasks_set_pool.
  destruct w; simpl in *. by rewrite Hpool.
Qed.

(** [get_stats] for a signed-in user who gets a connection: the
    statistics when they can be written, the [TypeError] of [jsonify]
    otherwise; the connection is back in the pool either way. *)
Lemma get_stats_run (w : world) (uid : Z) (free : nat) :
  s_user_id (w_session w) = Some uid ->
  w_pool w = Some (S free) ->
  get_stats w
  = if serializable uid w
    then (Ok (Json (BStats (statistics uid w)) 200), w)
    else (Ok (Json (BException TypeError_sort_keys) 500), w).
Proof.
  intros Hsession Hpool. unfold get_stats. enter_view Hsession Hpool.
  unfold conn_close, modify, lift. cbn [w_pool set_pool fmap option_fmap option_map].
  rewrite !select_group_count_set_pool, select_overdue_count_set_pool.
  unfold select_group_count. rewrite !sort_keys_group_count.
  assert (Hback : set_pool (Some (S free)) (set_pool (Some free) w) = w)
    by (destruct w; simpl in *; by rewrite Hpool).
  unfold serializable, statistics, select_group_count, tasks_of.
  destruct (sortable (t_status <$> _)); cbn; [|by rewrite Hback].
  destruct (sortable (t_priority <$> _)); cbn; by rewrite Hback.
Qed.

(** ** Properties of the views *)

(** C7: whenever [get_stats] answers with statistics, [total_tasks] is
    the sum of the values of [status_counts], and it is the number of
    rows [get_tasks] answers with for the same user, on a store that
    meets its key constraints.  It answers with statistics exactly when
    [jsonify] can sort the keys of the two dicts, and 500 otherwise. *)
Theorem stats_total_tasks_consistent (w : world) (uid : Z) (free : nat) :
  s_user_id (w_session w) = Some uid ->
  w_pool w = Some (S free) ->
  users_key (w_users w) ->
  foreign_key w ->
  code_of (get_tasks w) = Some 200
  /\ (serializable uid w = true ->
      exists st, get_stats w = (Ok (Json (BStats st) 200), w))
  /\ (serializable uid w = false ->
      get_stats w = (Ok (Json (BException TypeError_sort_keys) 500), w))
  /\ (forall st,
        stats_of (get_stats w) = Some st ->
        total_tasks st = sum_values (status_counts st)
        /\ total_tasks st = Z.of_nat (length (rows_of (get_tasks w)))).
Proof.
  intros Hsession Hpool Hkey Hfk.
  rewrite (get_stats_run w uid free), (get_tasks_run w uid free) by done.
  unfold code_of, rows_of, stats_of. cbn [fst].
  split; [done|]. split; [intros ->; by eexists|]. split; [by intros ->|].
  intros st. destruct (serializable uid w); cbn [fst]; [|done].
  intros [= <-]. cbn [total_tasks status_counts statistics].
  split; [done|]. rewrite length_fmap.
  unfold select_group_count.
  destruct (group_count_spec t_status
              (filter (fun t => t_user_id t = uid) (w_tasks w))) as [Hnd Hsum].
  rewrite sum_values_dict by done. rewrite Hsum.
  f_equal. symmetry. by apply select_tasks_length.
Qed.


(** *** Rows that match, and rows that do not *)

Lemma filter_none {A} (P : A -> Prop) `{forall x, Decision (P x)} (l : list A) :
  Forall (fun x => ~ P x) l -> filter P l = [].
Proof.
  induction 1 as [|x l Hx _ IH]; [done|].
  rewrite filter_cons. by destruct (decide (P x)).
Qed.

Lemma filter_all {A} (P : A -> Prop) `{forall x, Decision (P x)} (l : list A) :
  Forall P l -> filter P l = l.
Proof.
  induction 1 as [|x l Hx _ IH]; [done|].
  rewrite filter_cons. destruct (decide (P x)); [by rewrite IH|done].
Qed.

Lemma filter_nil_forall {A} (P : A -> Prop) `{forall x, Decision (P x)}
    (l : list A) :
  filter P l = [] -> Forall (fun x => ~ P x) l.
Proof.
  intros Hnil. apply Forall_forall. intros x Hin HP.
  by apply (filter_nil_not_elem_of P l x Hnil HP).
Qed.

Lemma primary_key_unique (ts : list task) (t t' : task) :
  primary_key ts -> t ∈ ts -> t' ∈ ts -> t_id t = t_id t' -> t = t'.
Proof.
  unfold primary_key. induction ts as [|x ts IH]; csimpl.
  - intros _ Hin. by apply elem_of_nil in Hin.
  - rewrite NoDup_cons. intros [Hfresh Hnd].
    intros [->|Hin]%elem_of_cons [->|Hin']%elem_of_cons Heq; [done| | |by apply IH].
    + exfalso. apply Hfresh. rewrite Heq. by apply list_elem_of_fmap_2.
    + exfalso. apply Hfresh. rewrite <- Heq. by apply list_elem_of_fmap_2.
Qed.


(** *** The two outcomes of the ownership check *)

Lemma update_task_no_match (w : world) (uid task_id : Z) (data : json)
    (free : nat) :
  s_user_id (w_session w) = Some uid ->
  w_pool w = Some (S free) ->
  filter (fun t => t_id t = task_id /\ t_user_id t = uid) (w_tasks w) = [] ->
  update_task task_id (Parsed data) w = (Ok (Json (BError "Task not found") 404), w).
Proof.
  intros Hsession Hpool Hnone.
  unfold update_task. enter_view Hsession Hpool.
  unfold select_owned. cbn [w_tasks set_pool]. rewrite Hnone.
  cbn. destruct w; simpl in *. by rewrite Hpool.
Qed.

Lemma delete_task_no_match (w : world) (uid task_id : Z) (free : nat) :
  s_user_id (w_session w) = Some uid ->
  w_pool w = Some (S free) ->
  filter (fun t => t_id t = task_id /\ t_user_id t = uid) (w_tasks w) = [] ->
  delete_task task_id w = (Ok (Json (BError "Task not found") 404), w).
Proof.
  intros Hsession Hpool Hnone.
  unfold delete_task. enter_view Hsession Hpool.
  unfold execute_delete. cbn [w_tasks set_pool]. rewrite Hnone.
  rewrite (filter_all (fun t => ~ (t_id t = task_id /\ t_user_id t = uid)))
    by apply (filter_nil_forall _ _ Hnone).
  cbn. destruct w; simpl in *. by rewrite Hpool.
Qed.


Lemma delete_task_match (w : world) (uid task_id : Z) (free : nat) :
  s_user_id (w_session w) = Some uid ->
  w_pool w = Some (S free) ->
  filter (fun t => t_id t = task_id /\ t_user_id t = uid) (w_tasks w) <> [] ->
  delete_task task_id w
  = (Ok (Json (BMessage "Task deleted successfully") 200),
     set_tasks (filter (fun t => ~ (t_id t = task_id /\ t_user_id t = uid))
                       (w_tasks w)) w).
Proof.
  intros Hsession Hpool Hsome.
  unfold delete_task. enter_view Hsession Hpool.
  unfold execute_delete. cbn [w_tasks set_pool].
  destruct (filter _ (w_tasks w)) as [|t hits] eqn:Hhits; [done|].
  cbn. destruct w; simpl in *. by rewrite Hpool.
Qed.

(** C5: [delete_task] answers 404 exactly when no row matches the pair
    [(task_id, user_id)], with the same response whether the task does not
    exist or belongs to someone else; when a row matches it is deleted and
    the answer is 200. *)
Theorem delete_not_found_iff_no_match (w : world) (uid task_id : Z)
    (free : nat) :
  s_user_id (w_session w) = Some uid ->
  w_pool w = Some (S free) ->
  let matched :=
    filter (fun t => t_id t = task_id /\ t_user_id t = uid) (w_tasks w) in
  (code_of (delete_task task_id w) = Some 404 <-> matched = [])
  /\ (Forall (fun t => t_id t <> task_id) (w_tasks w) ->
      delete_task task_id w = (Ok (Json (BError "Task not found") 404), w))
  /\ (Forall (fun t => t_id t = task_id -> t_user_id t <> uid) (w_tasks w) ->
      delete_task task_id w = (Ok (Json (BError "Task not found") 404), w))
  /\ (matched <> [] ->
      delete_task task_id w
      = (Ok (Json (BMessage "Task deleted successfully") 200),
         set_tasks (filter (fun t => ~ (t_id t = task_id /\ t_user_id t = uid))
                           (w_tasks w)) w)).
Proof.
  intros Hsession Hpool matched.
  assert (Hcases : matched = [] \/ matched <> [])
    by (destruct matched; [by left|by right]).
  repeat split.
  - destruct Hcases as [Hnone|Hsome]; [done|].
    rewrite (delete_task_match w uid task_id free) by done. by cbn.
  - intros Hnone.
    rewrite (delete_task_no_match w uid task_id free) by done. by cbn.
  - intros Habsent.
    apply (delete_task_no_match w uid task_id free); [done|done|].
    apply filter_none. eapply Forall_impl; [exact Habsent|].
    intros t Hne [Hid _]. done.
  - intros Hforeign.
    apply (delete_task_no_match w uid task_id free); [done|done|].
    apply filter_none. eapply Forall_impl; [exact Hforeign|].
    intros t Hne [Hid Hown]. by apply Hne.
  - intros Hsome. by apply (delete_task_match w uid task_id free).
Qed.

(** The body of [update_task] once the ownership check has passed, on a
    body that is [None]: the first [in] raises. *)
Lemma update_task_null_body_owned (w : world) (uid task_id : Z) (free : nat) :
  s_user_id (w_session w) = Some uid ->
  w_pool w = Some (S free) ->
  filter (fun t => t_id t = task_id /\ t_user_id t = uid) (w_tasks w) <> [] ->
  update_task task_id (Parsed JNull) w
  = (Ok (Json (BException TypeError_not_iterable) 500),
     set_pool (Some free) w).
Proof.
  intros Hsession Hpool Hsome.
  unfold update_task. enter_view Hsession Hpool.
  unfold select_owned. cbn [w_tasks set_pool].
  destruct (filter _ (w_tasks w)) as [|t hits] eqn:Hhits; [done|].
  reflexivity.
Qed.

Lemma bind_ok {A B} (m : M A) (k : A -> M B) (w w' : world) (b : B) :
  bind m k w = (Ok b, w') ->
  exists a w1, m w = (Ok a, w1) /\ k a w1 = (Ok b, w').
Proof.
  unfold bind. destruct (m w) as [[a|e] w1]; [|done].
  intros Hk. by exists a, w1.
Qed.

(** Every answer of [update_task] is a redirect to the login page, a 200,
    a 404 or a 500, whatever the request holds. *)
Lemma update_task_codes (task_id : Z) (body : request_body) (w w' : world)
    (r : response) :
  update_task task_id body w = (Ok r, w') ->
  status_code r = 302 \/ status_code r = 200
  \/ status_code r = 404 \/ status_code r = 500.
Proof.
  only_used.
  unfold update_task, login_required. intros E.
  apply bind_ok in E as (w0 & w1 & [= <- <-] & E).
  destruct (s_user_id (w_session w)) as [uid|].
  - apply bind_ok in E as (data & w1 & _ & E).
    unfold try_except in E.
    match type of E with
    | match ?body w1 with _ => _ end = _ =>
        destruct (body w1) as [[r0|e0] w2] eqn:Ebody
    end.
    + injection E as <- <-.
      apply bind_ok in Ebody as ([c|] & w3 & _ & Ebody).
      * apply bind_ok in Ebody as ([owned|] & w4 & _ & Ebody).
        -- do 7 (apply bind_ok in Ebody as (? & ? & _ & Ebody)).
           injection Ebody as <- _. cbn. tauto.
        -- apply bind_ok in Ebody as (? & ? & _ & Ebody).
           injection Ebody as <- _. cbn. tauto.
      * injection Ebody as <- _. cbn. tauto.
    + injection E as <- _. cbn. tauto.
  - apply bind_ok in E as (? & ? & _ & E).
    injection E as <- _. cbn. tauto.
Qed.

(** A body that [get_json] refuses never reaches the code of a view: the
    exception leaves the view before the [try], nothing is touched, and
    the answer is werkzeug's page for it. *)
Lemma update_task_refused (w : world) (uid task_id : Z) (body : request_body)
    (e : exn) :
  s_user_id (w_session w) = Some uid ->
  get_json body = Raise e ->
  update_task task_id body w = (Raise e, w).
Proof.
  only_used.
  intros Hsession Hrefused.
  unfold update_task, login_required, bind, get_world, lift.
  by rewrite Hsession, Hrefused.
Qed.

(** C10 (as amended): an update whose body parsed to [None] answers 404
    when the task is not the caller's, and 500 when it is (the first [in]
    on the body raises).  A request that is no JSON, or whose JSON does
    not parse, is answered by [get_json] before the ownership check, with
    415 and 400, and nothing is touched; the view itself answers no
    400. *)
Theorem update_without_body (w : world) (uid task_id : Z) (free : nat) :
  s_user_id (w_session w) = Some uid ->
  w_pool w = Some (S free) ->
  let owned :=
    filter (fun t => t_id t = task_id /\ t_user_id t = uid) (w_tasks w) in
  (owned = [] ->
   update_task task_id (Parsed JNull) w
   = (Ok (Json (BError "Task not found") 404), w))
  /\ (owned <> [] ->
      update_task task_id (Parsed JNull) w
      = (Ok (Json (BException TypeError_not_iterable) 500),
         set_pool (Some free) w))
  /\ dispatch (update_task task_id NotJson) w = (HttpError 415, w)
  /\ dispatch (update_task task_id Malformed) w = (HttpError 400, w)
  /\ (forall body w0 w' r,
        update_task task_id body w0 = (Ok r, w') -> status_code r <> 400).
Proof.
  intros Hsession Hpool owned. repeat split.
  - intros Hnone. by apply (update_task_no_match w uid task_id JNull free).
  - intros Hsome. by apply (update_task_null_body_owned w uid).
  - unfold dispatch.
    by rewrite (update_task_refused w uid task_id NotJson UnsupportedMediaType).
  - unfold dispatch.
    by rewrite (update_task_refused w uid task_id Malformed BadRequest).
  - intros body w0 w' r E. apply update_task_codes in E. lia.
Qed.

(** [create_task] on a body that is true and no dict: [data.get] raises
    before the [try], the request ends in the application's 500 page, and
    nothing was touched. *)
Lemma create_task_not_a_dict (w : world) (uid : Z) (data : json) :
  s_user_id (w_session w) = Some uid ->
  truthy data = true ->
  (forall fields, data <> JObj fields) ->
  create_task (Parsed data) w = (Raise AttributeError_get, w)
  /\ dispatch (create_task (Parsed data)) w = (Render "500.html" 500, w).
Proof.
  intros Hsession Htruthy Hnot.
  assert (Hrun : create_task (Parsed data) w = (Raise AttributeError_get, w)).
  { unfold create_task, login_required, bind, get_world. rewrite Hsession.
    parsed_body. cbv beta iota. rewrite Htruthy. cbn.
    destruct data; try done. by destruct (Hnot fields). }
  split; [done|]. unfold dispatch. by rewrite Hrun.
Qed.

(** A create request whose body is an object without a title or with an
    empty one, or a value that is false in Python, answers 400 and
    changes nothing. *)
Lemma create_task_title_required (w : world) (uid : Z) (data : json) :
  s_user_id (w_session w) = Some uid ->
  title_missing_or_empty data ->
  truthy data && negb (is_object data) = false ->
  create_task (Parsed data) w = (Ok (Json (BError "Title is required") 400), w).
Proof.
  intros Hsession Hmissing Hkind.
  unfold create_task, login_required, bind, get_world. rewrite Hsession.
  parsed_body. cbv beta iota.
  unfold title_missing_or_empty in Hmissing.
  destruct data as [|b|n|s|items|fields];
    [cbn [is_object negb] in Hkind; rewrite andb_true_r in Hkind;
     by rewrite Hkind..|].
  destruct fields as [|kv fields]; [done|].
  cbn [truthy negb]. unfold lift, py_get, dict_get_default.
  cbn in Hmissing |- *.
  destruct (assoc "title" (kv :: fields)) as [v|]; cbn; [|done].
  by rewrite Hmissing.
Qed.

Lemma create_task_refused (w : world) (uid : Z) (body : request_body)
    (e : exn) :
  s_user_id (w_session w) = Some uid ->
  get_json body = Raise e ->
  create_task body w = (Raise e, w).
Proof.
  only_used.
  intros Hsession Hrefused.
  unfold create_task, login_required, bind, get_world, lift.
  by rewrite Hsession, Hrefused.
Qed.


(** A sign-in with filled-in credentials on a server that answers, for a
    name without a row in [users]. *)
Lemma login_unknown_user (w : world) (free : nat)
    (form : list (string * string)) :
  w_pool w = Some (S free) ->
  strip (form_get form "username" "") <> "" ->
  form_get form "password" "" <> "" ->
  select_user (strip (form_get form "username" "")) w = None ->
  login POST form None w
  = (Ok (Render "login.html" 200),
     add_flash "Invalid username or password" "error" w).
Proof.
  intros Hpool Hu Hp Habsent.
  unfold login.
  rewrite (proj2 (String.eqb_neq _ _) Hu), (proj2 (String.eqb_neq _ _) Hp).
  cbn [orb]. unfold try_except, bind, get_db_connection, get_world, round_trip.
  rewrite Hpool. cbn [fst snd ret].
  change (select_user ?n (set_pool (Some free) w)) with (select_user n w).
  rewrite Habsent. cbn.
  destruct w; simpl in *. by rewrite Hpool.
Qed.

(** The same for a name with a row, by what [checkpw] does with the
    password and the hash of the row. *)
Lemma login_known_user (w : world) (free : nat)
    (form : list (string * string)) (u : user) :
  w_pool w = Some (S free) ->
  strip (form_get form "username" "") <> "" ->
  form_get form "password" "" <> "" ->
  select_user (strip (form_get form "username" "")) w = Some u ->
  login POST form None w
  = match checkpw (form_get form "password" "") (u_password_hash u) with
    | Some true =>
        (Ok (Redirect "dashboard"),
         add_flash (String.append "Welcome back, "
                      (String.append (u_first_name u) "!")) "success"
           (set_session (mkSession (Some (u_id u)) (Some (u_username u))
                                   (Some (u_first_name u))) w))
    | Some false =>
        (Ok (Render "login.html" 200),
         add_flash "Invalid username or password" "error" w)
    | None =>
        (Ok (Render "login.html" 200),
         add_flash "An error occurred during login" "error" w)
    end.
Proof.
  intros Hpool Hu Hp Hexists.
  unfold login.
  rewrite (proj2 (String.eqb_neq _ _) Hu), (proj2 (String.eqb_neq _ _) Hp).
  cbn [orb]. unfold try_except, bind, get_db_connection, get_world, round_trip.
  rewrite Hpool. cbn [fst snd ret].
  change (select_user ?n (set_pool (Some free) w)) with (select_user n w).
  rewrite Hexists. cbn.
  destruct (checkpw _ _) as [[|]|]; cbn;
    destruct w; simpl in *; by rewrite Hpool.
Qed.

(** C8: a failed sign-in for a name that does not exist ends in the
    login page with the one message "Invalid username or password", and
    so does a failed sign-in for a user that exists when [checkpw]
    answers false.  When [checkpw] raises on the password and the stored
    hash, the sign-in for the user that exists ends in another message,
    "An error occurred during login", and the two are told apart. *)
Theorem login_failure_outcomes (w : world) (free : nat)
    (form1 form2 : list (string * string)) (u : user) :
  w_pool w = Some (S free) ->
  let username1 := strip (form_get form1 "username" "") in
  let password1 := form_get form1 "password" "" in
  let username2 := strip (form_get form2 "username" "") in
  let password2 := form_get form2 "password" "" in
  username1 <> "" -> password1 <> "" ->
  username2 <> "" -> password2 <> "" ->
  select_user username1 w = Some u ->
  select_user username2 w = None ->
  login POST form2 None w
  = (Ok (Render "login.html" 200),
     add_flash "Invalid username or password" "error" w)
  /\ (checkpw password1 (u_password_hash u) = Some false ->
      login POST form1 None w = login POST form2 None w)
  /\ (checkpw password1 (u_password_hash u) = None ->
      login POST form1 None w
      = (Ok (Render "login.html" 200),
         add_flash "An error occurred during login" "error" w)
      /\ login POST form1 None w <> login POST form2 None w).
Proof.
  intros Hpool username1 password1 username2 password2
         Hu1 Hp1 Hu2 Hp2 Hexists Habsent.
  rewrite (login_unknown_user w free form2) by done.
  rewrite (login_known_user w free form1 u) by done.
  fold password1.
  split; [done|]. split; [by intros ->|].
  intros ->. split; [done|].
  intros [= Hflash]. by apply app_inv_head in Hflash.
Qed.

(** *** Partial update *)

Lemma add_field_obj (fields : list (string * json)) (key : string) (c : column)
    (value : json -> json) (sets : list (column * json)) (w : world) :
  add_field (JObj fields) key c value sets w
  = (Ok (sets ++ field_set fields key c value)%list, w).
Proof.
  unfold add_field, field_set, bind, lift, py_in, py_getitem, ret.
  destruct (assoc key fields); [done|]. by rewrite app_nil_r.
Qed.

Lemma to_param_truthy (v : json) (p : sqlval) :
  truthy v = true -> to_param v = Ok p -> p <> SNull.
Proof. destruct v; simpl; intros Ht [= <-]; done. Qed.

Lemma coerce_date_set (p : sqlval) (d : Z) :
  p <> SNull -> to_date p = Some d -> coerce_date p = Ok (Some d).
Proof. unfold coerce_date. destruct p; [done| |]; by intros _ ->. Qed.

Lemma update_task_obj (w : world) (uid task_id : Z)
    (fields : list (string * json)) (free : nat) :
  s_user_id (w_session w) = Some uid ->
  w_pool w = Some (S free) ->
  filter (fun t => t_id t = task_id /\ t_user_id t = uid) (w_tasks w) <> [] ->
  update_task task_id (Parsed (JObj fields)) w
  = match update_sets fields with
    | [] => (Ok (Json (BMessage "Task updated successfully") 200), w)
    | sets =>
        match execute_update sets task_id (set_pool (Some free) w) with
        | (Ok _, w') =>
            (Ok (Json (BMessage "Task updated successfully") 200),
             set_pool (Some (S free)) w')
        | (Raise e, w') => (Ok (Json (BException e) 500), w')
        end
    end.
Proof.
  intros Hsession Hpool Hsome.
  unfold update_task. enter_view Hsession Hpool.
  unfold select_owned. cbn [w_tasks set_pool].
  destruct (filter _ (w_tasks w)) as [|t hits] eqn:Hhits; [done|].
  cbn [head fmap option_fmap option_map].
  rewrite !add_field_obj. cbn [app].
  fold (update_sets fields).
  destruct (update_sets fields) as [|s sets].
  - cbn. destruct w; simpl in *. by rewrite Hpool.
  - destruct (execute_update (s :: sets) task_id (set_pool (Some free) w))
      as [[[]|e] w'] eqn:Hexec; [|done].
    unfold conn_close, modify, ret. cbn [fst snd].
    f_equal. f_equal.
    unfold execute_update, bind, lift, modify in Hexec.
    destruct (map_result _ (s :: sets)) as [params|]; [|done].
    destruct (map_result store_assignment params) as [assignments|]; [|done].
    injection Hexec as <-. done.
Qed.

Arguments coerce_date : simpl never.
Arguments to_param : simpl never.

Lemma pool_returned (w : world) (free : nat) (ts : list task) :
  w_pool w = Some (S free) ->
  set_pool (Some (S free)) (set_tasks ts (set_pool (Some free) w))
  = set_tasks ts w.
Proof. destruct w; simpl; intros ->; done. Qed.

Lemma rows_untouched (w : world) (hit : task -> bool) :
  w = set_tasks ((fun t => if hit t then t else t) <$> w_tasks w) w.
Proof.
  destruct w as [ts us p n now today s fl]; unfold set_tasks; simpl. f_equal.
  induction ts as [|t ts IH]; csimpl; [done|].
  rewrite <- IH. by destruct (hit t).
Qed.

(** One case of the patch: the [SET] list is known, its parameters are
    bound, and the statement runs. *)
Ltac run_update Hpool :=
  unfold execute_update, bind, lift, modify;
  repeat (progress (cbn [map_result store_assignment fst snd id])
          || (progress unfold coerce_text)
          || match goal with
             | H : to_param _ = Ok _ |- _ => rewrite H
             | H : stores _ _ = Some _ |- _ => rewrite H
             | H : coerce_date _ = Ok _ |- _ => rewrite H
             | H : truthy _ = _ |- _ => rewrite H
             end);
  eexists; split;
  [ rewrite (pool_returned _ _ _ Hpool); reflexivity
  | split;
    [ intros t; cbn; unfold bound_date;
      repeat match goal with
             | H : truthy _ = _ |- _ => rewrite H
             end;
      repeat split; eauto
    | intros; discriminate ] ].

(** With values the connector can bind and a date the store accepts, the
    update succeeds and every key that is present stores its bound value. *)
Lemma update_stores_bound_values (w : world) (uid task_id : Z)
    (fields : list (string * json)) (free : nat) :
  s_user_id (w_session w) = Some uid ->
  w_pool w = Some (S free) ->
  filter (fun t => t_id t = task_id /\ t_user_id t = uid) (w_tasks w) <> [] ->
  bindable Ctitle (assoc "title" fields) ->
  bindable Cdescription (assoc "description" fields) ->
  bindable Cstatus (assoc "status" fields) ->
  bindable Cpriority (assoc "priority" fields) ->
  date_accepted (assoc "due_date" fields) ->
  exists patch : task -> task,
    update_task task_id (Parsed (JObj fields)) w
    = (Ok (Json (BMessage "Task updated successfully") 200),
       set_tasks ((fun t => if bool_decide (t_id t = task_id)
                            then patch t else t) <$> w_tasks w) w)
    /\ (forall t,
          t_id (patch t) = t_id t
          /\ t_user_id (patch t) = t_user_id t
          /\ t_created_at (patch t) = t_created_at t
          /\ bound_to (assoc "title" fields) (t_title t) (t_title (patch t))
          /\ bound_to (assoc "description" fields)
                      (t_description t) (t_description (patch t))
          /\ bound_to (assoc "status" fields) (t_status t) (t_status (patch t))
          /\ bound_to (assoc "priority" fields)
                      (t_priority t) (t_priority (patch t))
          /\ bound_date (assoc "due_date" fields)
                        (t_due_date t) (t_due_date (patch t)))
    /\ (assoc "title" fields = None ->
        assoc "description" fields = None ->
        assoc "status" fields = None ->
        assoc "priority" fields = None ->
        assoc "due_date" fields = None ->
        update_task task_id (Parsed (JObj fields)) w
        = (Ok (Json (BMessage "Task updated successfully") 200), w)).
Proof.
  intros Hsession Hpool Howned Hb1 Hb2 Hb3 Hb4 Hd.
  rewrite (update_task_obj w uid task_id fields free) by done.
  unfold update_sets, field_set.
  destruct (assoc "title" fields) as [v1|];
    [destruct Hb1 as (p1 & Hp1 & Ha1)|clear Hb1].
  all: destruct (assoc "description" fields) as [v2|];
    [destruct Hb2 as (p2 & Hp2 & Ha2)|clear Hb2].
  all: destruct (assoc "status" fields) as [v3|];
    [destruct Hb3 as (p3 & Hp3 & Ha3)|clear Hb3].
  all: destruct (assoc "priority" fields) as [v4|];
    [destruct Hb4 as (p4 & Hp4 & Ha4)|clear Hb4].
  all: destruct (assoc "due_date" fields) as [v5|];
    [destruct (truthy v5) eqn:Ht5;
     [destruct (Hd Ht5) as (p5 & d5 & Hp5 & Hd5);
      pose proof (coerce_date_set p5 d5 (to_param_truthy v5 p5 Ht5 Hp5) Hd5)
        as Hc5
     |assert (Hn5 : to_param JNull = Ok SNull) by reflexivity;
      assert (Hc5 : coerce_date SNull = Ok None) by reflexivity]
    |clear Hd].
  all: cbn [app].
  all: try (run_update Hpool).
  exists (fun t => t). split; [|split].
  - f_equal. apply rows_untouched.
  - intros t. cbn. done.
  - done.
Qed.











(** *** Creating a task *)

Lemma select_tasks_intro (uid : Z) (w : world) (t : task) (u : user) :
  t ∈ w_tasks w -> u ∈ w_users w -> u_id u = uid -> t_user_id t = uid ->
  (t, u) ∈ select_tasks uid w.
Proof.
  intros Ht Hu Hid Hown. unfold select_tasks. rewrite order_by_desc_perm.
  apply list_elem_of_filter. split; [done|].
  unfold join_users. apply list_elem_of_bind. exists t. split; [|done].
  apply list_elem_of_bind. exists u. split; [|done].
  rewrite bool_decide_eq_true_2 by congruence. apply list_elem_of_here.
Qed.

(** The [INSERT] of [create_task] for a dict body with a title. *)
Lemma create_task_obj (w : world) (uid : Z) (fields : list (string * json))
    (title : json) (free : nat) :
  s_user_id (w_session w) = Some uid ->
  w_pool w = Some (S free) ->
  assoc "title" fields = Some title ->
  truthy title = true ->
  let due := dict_get_default fields "due_date" JNull in
  create_task (Parsed (JObj fields)) w
  = match execute_insert uid title
            (dict_get_default fields "description" (JStr ""))
            (dict_get_default fields "priority" (JStr "medium"))
            (if truthy due then due else JNull)
            (set_pool (Some free) w) with
    | (Ok task_id, w') =>
        (Ok (Json (BCreated task_id "Task created successfully" title) 201),
         set_pool (S <$> w_pool w') w')
    | (Raise e, w') => (Ok (Json (BException e) 500), w')
    end.
Proof.
  intros Hsession Hpool Htitle Htruthy due.
  unfold create_task, login_required. unfold bind at 1. unfold get_world.
  rewrite Hsession.
  unfold bind at 1. parsed_body. cbv beta iota.
  assert (Hdata : truthy (JObj fields) = true).
  { destruct fields; [done|done]. }
  rewrite Hdata. cbn [negb].
  unfold bind at 1. unfold bind at 1. unfold lift at 1.
  unfold py_get at 1. unfold dict_get_default at 1. rewrite Htitle.
  unfold ret at 1. rewrite Htruthy. cbn [negb].
  unfold try_except. unfold bind at 1. unfold get_db_connection.
  rewrite Hpool.
  unfold bind at 1. unfold lift at 1. unfold py_getitem. rewrite Htitle.
  unfold bind at 1. unfold lift at 1. unfold py_get at 1.
  unfold bind at 1. unfold lift at 1. unfold py_get at 1.
  unfold bind at 1. unfold lift at 1. unfold py_get at 1.
  fold due.
  unfold bind at 1.
  destruct (execute_insert _ _ _ _ _ _) as [[task_id|e] w']; [|done].
  reflexivity.
Qed.

Lemma pool_returned_insert (w : world) (free : nat) (ts : list task) (n : Z) :
  w_pool w = Some (S free) ->
  set_pool (Some (S free))
    (set_next_id n (set_tasks ts (set_pool (Some free) w)))
  = set_next_id n (set_tasks ts w).
Proof. destruct w; simpl; intros ->; done. Qed.

Ltac run_insert :=
  unfold execute_insert, bind, lift, dict_get_default, coerce_text;
  repeat (progress (cbn [fst snd])
          || match goal with
             | H : to_param _ = Ok _ |- _ => rewrite H
             | H : stores _ _ = Some _ |- _ => rewrite H
             | H : coerce_date _ = Ok _ |- _ => rewrite H
             | H : truthy _ = _ |- _ => rewrite H
             end).

(** C9: a create request with a title, whose [INSERT] the store takes
    (the values of the body are bound and stored, the defaults are values
    of their columns), stores the empty string for an omitted
    description, "medium" for an omitted priority and NULL for an omitted
    or empty due date, and the next [get_tasks] of the same user answers
    with these very values for the new task. *)
Theorem create_defaults_round_trip (w : world) (uid : Z)
    (fields : list (string * json)) (title : json) (p_title s_title : sqlval)
    (free : nat) (u : user) :
  s_user_id (w_session w) = Some uid ->
  w_pool w = Some (S free) ->
  assoc "title" fields = Some title ->
  truthy title = true ->
  to_param title = Ok p_title ->
  stores Ctitle p_title = Some s_title ->
  insertable Cdescription (assoc "description" fields) (SStr "") ->
  insertable Cpriority (assoc "priority" fields) (SStr "medium") ->
  date_accepted (assoc "due_date" fields) ->
  u ∈ w_users w -> u_id u = uid ->
  Forall (fun t => t_id t <> w_next_id w) (w_tasks w) ->
  exists row,
    let w' := set_next_id (w_next_id w + 1) (set_tasks (w_tasks w ++ [row]) w) in
    create_task (Parsed (JObj fields)) w
    = (Ok (Json (BCreated (w_next_id w) "Task created successfully" title) 201),
       w')
    /\ t_id row = w_next_id w
    /\ t_user_id row = uid
    /\ t_title row = s_title
    /\ (assoc "description" fields = None -> t_description row = SStr "")
    /\ (assoc "priority" fields = None -> t_priority row = SStr "medium")
    /\ (match assoc "due_date" fields with
        | None => True
        | Some v => truthy v = false
        end -> t_due_date row = None)
    /\ (exists j, j ∈ rows_of (get_tasks w') /\ j_id j = w_next_id w)
    /\ (forall j, j ∈ rows_of (get_tasks w') -> j_id j = w_next_id w ->
          j_title j = t_title row
          /\ j_description j = t_description row
          /\ j_priority j = t_priority row
          /\ j_due_date j = isoformat_date <$> t_due_date row).
Proof.
  intros Hsession Hpool Htitle Htruthy Hp_title Ha_title Hb2 Hb4 Hd Hu Huid
         Hfresh.
  rewrite (create_task_obj w uid fields title free) by done.
  assert (Hlist : forall row,
    let w' := set_next_id (w_next_id w + 1) (set_tasks (w_tasks w ++ [row]) w) in
    t_id row = w_next_id w -> t_user_id row = uid ->
    (exists j, j ∈ rows_of (get_tasks w') /\ j_id j = w_next_id w)
    /\ (forall j, j ∈ rows_of (get_tasks w') -> j_id j = w_next_id w ->
          j_title j = t_title row
          /\ j_description j = t_description row
          /\ j_priority j = t_priority row
          /\ j_due_date j = isoformat_date <$> t_due_date row)).
  { intros row w' Hid Hown.
    assert (Hrows : rows_of (get_tasks w') = task_row <$> select_tasks uid w').
    { unfold rows_of, get_tasks.
      unfold login_required, try_except, bind, get_world, get_db_connection.
      replace (s_user_id (w_session w')) with (Some uid) by (by rewrite <- Hsession).
      replace (w_pool w') with (Some (S free)) by (by rewrite <- Hpool).
      reflexivity. }
    rewrite Hrows. split.
    - exists (task_row (row, u)). split; [|done].
      apply list_elem_of_fmap_2. apply select_tasks_intro; try done.
      subst w'. cbn. apply elem_of_app. right. apply list_elem_of_here.
    - intros j (r & -> & Hr)%list_elem_of_fmap Hj. cbn in Hj.
      apply select_tasks_elem in Hr as (Hin & _ & _).
      subst w'. cbn in Hin. apply elem_of_app in Hin as [Hold|Hnew].
      + rewrite Forall_forall in Hfresh. by destruct (Hfresh r.1 Hold).
      + apply list_elem_of_singleton in Hnew. cbn. by rewrite Hnew. }
  unfold dict_get_default, insertable in *.
  destruct (assoc "description" fields) as [v2|];
    [destruct Hb2 as (p2 & s2 & Hp2 & Ha2)
    |assert (Hp2 : to_param (JStr "") = Ok (SStr "")) by reflexivity].
  all: destruct (assoc "priority" fields) as [v4|];
    [destruct Hb4 as (p4 & s4 & Hp4 & Ha4)
    |assert (Hp4 : to_param (JStr "medium") = Ok (SStr "medium"))
       by reflexivity].
  all: assert (Hn5 : to_param JNull = Ok SNull) by reflexivity;
    assert (Hc0 : coerce_date SNull = Ok None) by reflexivity;
    assert (Hnull : truthy JNull = false) by reflexivity.
  all: destruct (assoc "due_date" fields) as [v5|];
    [destruct (truthy v5) eqn:Ht5;
     [destruct (Hd Ht5) as (p5 & d5 & Hp5 & Hd5);
      pose proof (coerce_date_set p5 d5 (to_param_truthy v5 p5 Ht5 Hp5) Hd5)
        as Hc5
     |]
    |clear Hd].
  all: run_insert.
  all: eexists; split;
    [cbn; rewrite (pool_returned_insert _ _ _ _ Hpool); reflexivity|].
  all: cbn [t_id t_user_id t_title t_description t_priority t_due_date].
  all: repeat (split; [try done; intros; done|]).
  all: apply Hlist; done.
Qed.

(** *** The views keep the store well formed *)

Lemma preserves_ret {A} (P : world -> Prop) (a : A) : preserves P (ret a).
Proof. by intros w. Qed.

Lemma preserves_lift {A} (P : world -> Prop) (r : result A) :
  preserves P (lift r).
Proof. by intros w. Qed.

Lemma preserves_bind {A B} (P : world -> Prop) (m : M A) (k : A -> M B) :
  preserves P m -> (forall a, preserves P (k a)) -> preserves P (bind m k).
Proof.
  intros Hm Hk w HP. unfold bind. specialize (Hm w HP).
  destruct (m w) as [[a|e] w1]; [by apply Hk|done].
Qed.

Lemma preserves_try {A} (P : world -> Prop) (body : M A) (handler : exn -> M A) :
  preserves P body -> (forall e, preserves P (handler e)) ->
  preserves P (try_except body handler).
Proof.
  intros Hbody Hhandler w HP. unfold try_except. specialize (Hbody w HP).
  destruct (body w) as [[a|e] w1]; [done|by apply Hhandler].
Qed.

Lemma preserves_modify (P : world -> Prop) (f : world -> world) :
  (forall w, P w -> P (f w)) -> preserves P (modify f).
Proof. intros Hf w HP. by apply Hf. Qed.

Lemma preserves_login_required (view : Z -> M response) :
  (forall uid, preserves (signed_in uid) (view uid)) ->
  preserves well_formed (login_required view).
Proof.
  intros Hview w Hwf. unfold login_required, bind, get_world.
  destruct (s_user_id (w_session w)) as [uid|] eqn:Hsession.
  - by destruct (Hview uid w (conj Hwf Hsession)).
  - done.
Qed.

Lemma well_formed_frame : frame well_formed.
Proof.
  unfold frame, well_formed, foreign_key. by intros w w' -> -> -> ->.
Qed.

Lemma signed_in_frame (uid : Z) : frame (signed_in uid).
Proof.
  unfold frame, signed_in, well_formed, foreign_key.
  by intros w w' -> -> -> ->.
Qed.

Lemma preserves_get_db_connection (P : world -> Prop) :
  frame P -> preserves P get_db_connection.
Proof.
  intros Hframe w HP. unfold get_db_connection.
  destruct (w_pool w) as [[|free]|]; [done| |done].
  by apply (Hframe w).
Qed.

Lemma preserves_conn_close (P : world -> Prop) (c : connection) :
  frame P -> preserves P (conn_close c).
Proof. intros Hframe w HP. by apply (Hframe w). Qed.

Lemma preserves_flash (P : world -> Prop) (msg category : string) :
  frame P -> preserves P (flash msg category).
Proof. intros Hframe w HP. by apply (Hframe w). Qed.

Lemma preserves_get_world (P : world -> Prop) : preserves P get_world.
Proof. by intros w. Qed.

Lemma preserves_select_owned (P : world -> Prop) (task_id user_id : Z) :
  preserves P (select_owned task_id user_id).
Proof. by intros w. Qed.

Lemma preserves_raise {A} (P : world -> Prop) (e : exn) :
  preserves P (raise e : M A).
Proof. by intros w. Qed.

Lemma keys_after_filter (P : task -> Prop) `{forall t, Decision (P t)}
    (ts : list task) :
  primary_key ts -> primary_key (filter P ts).
Proof.
  unfold primary_key. induction ts as [|t ts IH]; csimpl; [done|].
  rewrite NoDup_cons. intros [Hfresh Hnd]. rewrite filter_cons.
  destruct (decide (P t)); [|by apply IH].
  csimpl. rewrite NoDup_cons. split; [|by apply IH].
  intros (t' & Hid & [_ Hin]%list_elem_of_filter)%list_elem_of_fmap.
  apply Hfresh. rewrite Hid. by apply list_elem_of_fmap_2.
Qed.

Lemma preserves_execute_delete (uid task_id user_id : Z) :
  preserves (signed_in uid) (execute_delete task_id user_id).
Proof.
  intros w ((Hkey & Hukey & Hfk & Hnext & Hs) & Hsession).
  unfold execute_delete, signed_in, well_formed, foreign_key. cbn.
  repeat split; try done.
  - by apply keys_after_filter.
  - apply Forall_forall. intros t [_ Hin]%list_elem_of_filter.
    by apply (proj1 (Forall_forall _ _) Hfk).
  - apply Forall_forall. intros t [_ Hin]%list_elem_of_filter.
    by apply (proj1 (Forall_forall _ _) Hnext).
Qed.

Lemma apply_assignment_keys (t : task) (a : assignment) :
  t_id (apply_assignment t a) = t_id t
  /\ t_user_id (apply_assignment t a) = t_user_id t.
Proof. by destruct a. Qed.

Lemma patched_keys (now task_id : Z) (assignments : list assignment) (t : task) :
  let t' := if bool_decide (t_id t = task_id)
            then touch now (foldl apply_assignment t assignments) else t in
  t_id t' = t_id t /\ t_user_id t' = t_user_id t.
Proof.
  case_bool_decide; [|done]. cbn.
  revert t H. induction assignments as [|a rest IH]; intros t Hid; [done|].
  cbn. destruct (apply_assignment_keys t a) as [Ha Hb].
  destruct (IH (apply_assignment t a)) as [Hc Hd]; [congruence|].
  split; congruence.
Qed.

Lemma preserves_execute_update (uid task_id : Z) (sets : list (column * json)) :
  preserves (signed_in uid) (execute_update sets task_id).
Proof.
  intros w ((Hkey & Hukey & Hfk & Hnext & Hs) & Hsession).
  unfold execute_update, bind, lift, modify.
  destruct (map_result _ sets) as [params|]; [|done].
  destruct (map_result store_assignment params) as [assignments|]; [|done].
  unfold signed_in, well_formed, foreign_key, primary_key. cbn.
  assert (Hids : forall f : task -> Z,
            (forall t, f (if bool_decide (t_id t = task_id)
                          then touch (w_now w)
                                 (foldl apply_assignment t assignments)
                          else t) = f t) ->
            f <$> ((fun t => if bool_decide (t_id t = task_id)
                             then touch (w_now w)
                                    (foldl apply_assignment t assignments)
                             else t) <$> w_tasks w) = f <$> w_tasks w).
  { intros f Hf. rewrite <- list_fmap_compose.
    apply Forall_fmap_ext_1, Forall_forall. intros t _. apply Hf. }
  repeat split; try done.
  - rewrite Hids; [done|]. intros t. apply patched_keys.
  - apply Forall_fmap, Forall_forall. intros t Hin. cbn.
    destruct (patched_keys (w_now w) task_id assignments t) as [_ ->].
    by apply (proj1 (Forall_forall _ _) Hfk).
  - apply Forall_fmap, Forall_forall. intros t Hin. cbn.
    destruct (patched_keys (w_now w) task_id assignments t) as [-> _].
    by apply (proj1 (Forall_forall _ _) Hnext).
Qed.

Lemma preserves_execute_insert (uid : Z) (title description priority due : json) :
  preserves (signed_in uid) (execute_insert uid title description priority due).
Proof.
  intros w ((Hkey & Hukey & Hfk & Hnext & Hs) & Hsession).
  unfold execute_insert, bind, lift.
  destruct (to_param title); [|done].
  destruct (to_param description); [|done].
  destruct (to_param priority); [|done].
  destruct (to_param due); [|done].
  unfold coerce_text.
  destruct (stores Ctitle _); [|done].
  destruct (stores Cdescription _); [|done].
  destruct (stores Cpriority _); [|done].
  destruct (coerce_date _); [|done].
  unfold signed_in, well_formed, foreign_key, primary_key. cbn.
  repeat split; try done.
  - rewrite fmap_app. apply NoDup_app. repeat split; [done| |apply NoDup_singleton].
    intros x (t & -> & Hin)%list_elem_of_fmap Hx.
    apply list_elem_of_singleton in Hx.
    pose proof (proj1 (Forall_forall _ _) Hnext t Hin). cbn in *. lia.
  - apply Forall_app. split; [done|]. apply Forall_singleton. cbn. by apply Hs.
  - apply Forall_app. split.
    + eapply Forall_impl; [exact Hnext|]. cbn. intros; lia.
    + apply Forall_singleton. cbn. lia.
Qed.

Lemma preserves_add_field (P : world -> Prop) (data : json) (key : string)
    (c : column) (value : json -> json) (sets : list (column * json)) :
  preserves P (add_field data key c value sets).
Proof.
  unfold add_field. apply preserves_bind; [apply preserves_lift|].
  intros [|]; [|apply preserves_ret].
  apply preserves_bind; [apply preserves_lift|]. intros v. apply preserves_ret.
Qed.

(** One step through the body of a view. *)
Ltac keep_step :=
  first
    [ apply preserves_ret
    | apply preserves_lift
    | apply preserves_raise
    | apply preserves_get_world
    | apply preserves_select_owned
    | apply preserves_add_field
    | apply preserves_execute_insert
    | apply preserves_execute_update
    | apply preserves_execute_delete
    | apply preserves_get_db_connection; apply signed_in_frame
    | apply preserves_conn_close; apply signed_in_frame
    | apply preserves_get_db_connection; apply well_formed_frame
    | apply preserves_conn_close; apply well_formed_frame
    | apply preserves_flash; apply well_formed_frame
    | apply preserves_try
    | apply preserves_bind
    | match goal with
      | |- preserves _ (match ?x with _ => _ end) => destruct x
      | |- preserves _ (if ?b then _ else _) => destruct b
      | |- forall _, _ => intro
      end ].

(** Every view takes a well-formed state to a well-formed state, on
    every exit. *)
Lemma get_tasks_well_formed : preserves well_formed get_tasks.
Proof.
  apply preserves_login_required. intros uid. unfold get_tasks.
  repeat keep_step.
Qed.

Lemma get_stats_well_formed : preserves well_formed get_stats.
Proof.
  apply preserves_login_required. intros uid. unfold get_stats.
  repeat keep_step.
Qed.

Lemma create_task_well_formed (body : request_body) :
  preserves well_formed (create_task body).
Proof.
  apply preserves_login_required. intros uid.
  repeat keep_step.
Qed.

Lemma update_task_well_formed (task_id : Z) (body : request_body) :
  preserves well_formed (update_task task_id body).
Proof.
  apply preserves_login_required. intros uid.
  repeat keep_step.
Qed.

Lemma delete_task_well_formed (task_id : Z) :
  preserves well_formed (delete_task task_id).
Proof.
  apply preserves_login_required. intros uid.
  repeat keep_step.
Qed.

Lemma select_user_elem (username : string) (w : world) (u : user) :
  select_user username w = Some u -> u ∈ w_users w.
Proof.
  unfold select_user. intros Hhead%head_Some_elem_of.
  by apply list_elem_of_filter in Hhead as [_ Hin].
Qed.

(** While [login] runs, [users] stays the table the row was read from. *)
Lemma same_users_frame (w0 : world) :
  frame (fun w => well_formed w /\ w_users w = w_users w0).
Proof.
  intros w w' Ht Hu Hn Hs [Hwf Heq]. split; [|congruence].
  by apply (well_formed_frame w).
Qed.

Lemma preserves_set_session (w0 : world) (u : user) :
  u ∈ w_users w0 ->
  preserves (fun w => well_formed w /\ w_users w = w_users w0)
    (modify (set_session (mkSession (Some (u_id u)) (Some (u_username u))
                                    (Some (u_first_name u))))).
Proof.
  intros Hu w [(Hkey & Hukey & Hfk & Hnext & Hs) Heq].
  unfold modify, well_formed, foreign_key. cbn.
  repeat split; try done.
  intros uid [= <-]. rewrite Heq. by apply list_elem_of_fmap_2.
Qed.

Lemma preserves_with_world {B} (P : world -> Prop) (k : world -> M B) :
  (forall w0, P w0 -> P (k w0 w0).2) -> preserves P (bind get_world k).
Proof. intros Hk w HP. by apply Hk. Qed.

Lemma login_well_formed (method : http_method) (form : list (string * string))
    (fault : option exn) :
  preserves well_formed (login method form fault).
Proof.
  unfold login. destruct method; [apply preserves_ret|].
  destruct (_ || _); [repeat keep_step|].
  apply preserves_bind; [|intros [r|]; apply preserves_ret].
  apply preserves_try; [|repeat keep_step].
  apply preserves_bind; [repeat keep_step|]. intros [c|]; [|repeat keep_step].
  apply preserves_bind;
    [destruct fault; [apply preserves_raise|apply preserves_ret]|].
  intros _.
  apply preserves_with_world. intros w0 Hwf0.
  refine (proj1 ((_ : preserves
                        (fun w => well_formed w /\ w_users w = w_users w0) _)
                   w0 (conj Hwf0 eq_refl))).
  pose proof (select_user_elem (strip (form_get form "username" "")) w0)
    as Huser.
  destruct (select_user _ w0) as [u|].
  - specialize (Huser u eq_refl).
    apply preserves_bind; [apply preserves_conn_close, same_users_frame|].
    intros _. apply preserves_bind.
    { destruct (checkpw _ _); [apply preserves_ret|apply preserves_raise]. }
    intros [|].
    + apply preserves_bind; [by apply preserves_set_session|]. intros _.
      apply preserves_bind; [apply preserves_flash, same_users_frame|].
      intros _. apply preserves_ret.
    + apply preserves_bind; [apply preserves_flash, same_users_frame|].
      intros _. apply preserves_ret.
  - apply preserves_bind; [apply preserves_conn_close, same_users_frame|].
    intros _. apply preserves_bind; [apply preserves_ret|].
    intros ok. apply preserves_bind; [apply preserves_flash, same_users_frame|].
    intros _. apply preserves_ret.
Qed.

(** ** Further properties of the views *)

(** *** Every outcome of [update_task] *)

Lemma add_field_collect (data : json) (key : string) (c : column)
    (value : json -> json) (sets : list (column * json)) :
  add_field data key c value sets = lift (collect_field data key c value sets).
Proof.
  unfold add_field, collect_field, bind, lift, ret.
  destruct (py_in key data) as [[|]|]; [|done|done].
  by destruct (py_getitem data key).
Qed.

Lemma collect_sets_obj (fields : list (string * json)) :
  collect_sets (JObj fields) = Ok (update_sets fields).
Proof.
  unfold collect_sets, collect_field, update_sets, field_set, py_in, py_getitem,
    and_then.
  destruct (assoc "title" fields), (assoc "description" fields),
    (assoc "status" fields), (assoc "priority" fields),
    (assoc "due_date" fields); reflexivity.
Qed.

(** The run of [update_task] once the caller has a connection and the
    ownership check has found a row. *)
Lemma update_task_owned (w : world) (uid task_id : Z) (data : json)
    (free : nat) :
  s_user_id (w_session w) = Some uid ->
  w_pool w = Some (S free) ->
  filter (fun t => t_id t = task_id /\ t_user_id t = uid) (w_tasks w) <> [] ->
  update_task task_id (Parsed data) w
  = match collect_sets data with
    | Raise e => (Ok (Json (BException e) 500), set_pool (Some free) w)
    | Ok [] => (Ok (Json (BMessage "Task updated successfully") 200), w)
    | Ok sets =>
        match execute_update sets task_id (set_pool (Some free) w) with
        | (Ok _, w') =>
            (Ok (Json (BMessage "Task updated successfully") 200),
             set_pool (Some (S free)) w')
        | (Raise e, w') => (Ok (Json (BException e) 500), w')
        end
    end.
Proof.
  intros Hsession Hpool Hsome.
  unfold update_task. enter_view Hsession Hpool.
  unfold select_owned. cbn [w_tasks set_pool].
  destruct (filter _ (w_tasks w)) as [|t hits] eqn:Hhits; [done|].
  cbn [head fmap option_fmap option_map].
  unfold collect_sets, and_then.
  rewrite add_field_collect. unfold lift at 1.
  destruct (collect_field data "title" _ _ _) as [s1|]; [|done].
  rewrite add_field_collect. unfold lift at 1.
  destruct (collect_field data "description" _ _ _) as [s2|]; [|done].
  rewrite add_field_collect. unfold lift at 1.
  destruct (collect_field data "status" _ _ _) as [s3|]; [|done].
  rewrite add_field_collect. unfold lift at 1.
  destruct (collect_field data "priority" _ _ _) as [s4|]; [|done].
  rewrite add_field_collect. unfold lift at 1.
  destruct (collect_field data "due_date" _ _ _) as [[|s sets]|]; [| |done].
  - cbn. destruct w; simpl in *. by rewrite Hpool.
  - destruct (execute_update (s :: sets) task_id (set_pool (Some free) w))
      as [[[]|e] w'] eqn:Hexec; [|done].
    unfold conn_close, modify, ret. cbn [fst snd].
    f_equal. f_equal.
    unfold execute_update, bind, lift, modify in Hexec.
    destruct (map_result _ (s :: sets)) as [params|]; [|done].
    destruct (map_result store_assignment params) as [assignments|]; [|done].
    injection Hexec as <-. done.
Qed.

Lemma view_without_session (view : Z -> M response) (w : world) :
  s_user_id (w_session w) = None ->
  login_required view w
  = (Ok (Redirect "login"),
     add_flash "Please log in to access this page" "warning" w).
Proof.
  intros Hsession. unfold login_required, bind, get_world.
  by rewrite Hsession.
Qed.

Lemma update_task_no_connection (w : world) (uid task_id : Z) (data : json) :
  s_user_id (w_session w) = Some uid ->
  w_pool w = None \/ w_pool w = Some 0%nat ->
  update_task task_id (Parsed data) w
  = (Ok (Json (BError "Database connection failed") 500), w).
Proof.
  intros Hsession Hpool. unfold update_task, login_required, try_except, bind,
    get_world, get_db_connection. rewrite Hsession.
  parsed_body. cbv beta iota.
  by destruct Hpool as [-> | ->].
Qed.

(** What [execute_update] leaves: the table as it was when it raises, the
    matched rows patched when it runs. *)
Lemma execute_update_outcome (sets : list (column * json)) (task_id : Z)
    (w : world) :
  (exists e, execute_update sets task_id w = (Raise e, w))
  \/ (exists assignments,
        execute_update sets task_id w
        = (Ok tt,
           set_tasks
             ((fun t => if bool_decide (t_id t = task_id)
                        then touch (w_now w)
                               (foldl apply_assignment t assignments)
                        else t) <$> w_tasks w) w)).
Proof.
  unfold execute_update, bind, lift, modify.
  destruct (map_result _ sets) as [params|e]; [|left; by exists e].
  destruct (map_result store_assignment params) as [assignments|e];
    [|left; by exists e].
  right. by exists assignments.
Qed.


(** *** The runs of the other views *)

Lemma get_tasks_no_connection (w : world) (uid : Z) :
  s_user_id (w_session w) = Some uid ->
  w_pool w = None \/ w_pool w = Some 0%nat ->
  get_tasks w = (Ok (Json (BError "Database connection failed") 500), w).
Proof.
  intros Hsession Hpool. unfold get_tasks, login_required, try_except, bind,
    get_world, get_db_connection. rewrite Hsession.
  by destruct Hpool as [-> | ->].
Qed.

Lemma get_stats_no_connection (w : world) (uid : Z) :
  s_user_id (w_session w) = Some uid ->
  w_pool w = None \/ w_pool w = Some 0%nat ->
  get_stats w = (Ok (Json (BError "Database connection failed") 500), w).
Proof.
  intros Hsession Hpool. unfold get_stats, login_required, try_except, bind,
    get_world, get_db_connection. rewrite Hsession.
  by destruct Hpool as [-> | ->].
Qed.

Lemma delete_task_no_connection (w : world) (uid task_id : Z) :
  s_user_id (w_session w) = Some uid ->
  w_pool w = None \/ w_pool w = Some 0%nat ->
  delete_task task_id w
  = (Ok (Json (BError "Database connection failed") 500), w).
Proof.
  intros Hsession Hpool. unfold delete_task, login_required, try_except, bind,
    get_world, get_db_connection. rewrite Hsession.
  by destruct Hpool as [-> | ->].
Qed.

(** The three ways into a view. *)
Lemma entry_cases (w : world) :
  s_user_id (w_session w) = None
  \/ (exists uid, s_user_id (w_session w) = Some uid
                  /\ (w_pool w = None \/ w_pool w = Some 0%nat))
  \/ (exists uid free, s_user_id (w_session w) = Some uid
                       /\ w_pool w = Some (S free)).
Proof.
  destruct (s_user_id (w_session w)) as [uid|]; [|by left]. right.
  destruct (w_pool w) as [[|free]|].
  - left. exists uid. split; [done|by right].
  - right. by exists uid, free.
  - left. exists uid. split; [done|by left].
Qed.

(** *** Every outcome of [create_task] *)

(** What [execute_insert] leaves: nothing when it raises, one more row
    when it runs. *)
Lemma execute_insert_outcome (uid : Z) (title description priority due : json)
    (w : world) :
  (exists e, execute_insert uid title description priority due w = (Raise e, w))
  \/ (exists p_title p_description p_priority d,
        execute_insert uid title description priority due w
           = (Ok (w_next_id w),
              set_next_id (w_next_id w + 1)
                (set_tasks
                   (w_tasks w
                    ++ [mkTask (w_next_id w) uid p_title p_description
                               default_status p_priority d (w_now w) (w_now w)])
                   w))).
Proof.
  unfold execute_insert, bind, lift.
  destruct (to_param title) as [p1|e]; [|left; by exists e].
  destruct (to_param description) as [p2|e]; [|left; by exists e].
  destruct (to_param priority) as [p3|e]; [|left; by exists e].
  destruct (to_param due) as [p4|e]; [|left; by exists e].
  unfold coerce_text.
  destruct (stores Ctitle p1) as [s1|]; [|left; by eexists].
  destruct (stores Cdescription p2) as [s2|]; [|left; by eexists].
  destruct (stores Cpriority p3) as [s3|]; [|left; by eexists].
  destruct (coerce_date p4) as [d|e]; [|left; by exists e].
  right. by exists s1, s2, s3, d.
Qed.

Lemma create_task_rejected (w : world) (uid : Z) (data : json) :
  s_user_id (w_session w) = Some uid ->
  has_title data = false ->
  create_task (Parsed data) w = (Ok (Json (BError "Title is required") 400), w)
  \/ create_task (Parsed data) w = (Raise AttributeError_get, w).
Proof.
  intros Hsession Hnone.
  unfold create_task, login_required, bind, get_world. rewrite Hsession.
  parsed_body. cbv beta iota.
  destruct (truthy data) eqn:Htruthy; cbn [negb]; [|by left].
  unfold lift, py_get.
  destruct data; try (by right).
  cbn in Hnone. rewrite Hnone. by left.
Qed.

Lemma create_task_no_connection (w : world) (uid : Z) (data : json) :
  s_user_id (w_session w) = Some uid ->
  w_pool w = None \/ w_pool w = Some 0%nat ->
  has_title data = true ->
  create_task (Parsed data) w
  = (Ok (Json (BError "Database connection failed") 500), w).
Proof.
  intros Hsession Hpool Htitle.
  destruct data as [| | | | |fields]; try done. cbn in Htitle.
  unfold create_task, login_required, bind, get_world. rewrite Hsession.
  parsed_body. cbv beta iota.
  assert (Hdata : truthy (JObj fields) = true).
  { destruct fields; [done|done]. }
  rewrite Hdata. cbn [negb]. unfold lift, py_get. rewrite Htitle. cbn [negb].
  unfold try_except, ret, get_db_connection.
  by destruct Hpool as [-> | ->].
Qed.

Lemma has_title_assoc (fields : list (string * json)) :
  has_title (JObj fields) = true ->
  exists title, assoc "title" fields = Some title /\ truthy title = true.
Proof.
  cbn. unfold dict_get_default.
  destruct (assoc "title" fields) as [title|]; [|done].
  intros Htruthy. by exists title.
Qed.


(** *** Sessions, connections *)

(** A body parses, or [get_json] raises one of its two exceptions. *)
Lemma body_cases (body : request_body) :
  (exists data, body = Parsed data)
  \/ (exists e code, get_json body = Raise e /\ http_code e = Some code
                     /\ (code = 400 \/ code = 415)).
Proof.
  destruct body as [| |data]; [right|right|left; by exists data].
  - exists UnsupportedMediaType, 415. by repeat split; [..|right].
  - exists BadRequest, 400. by repeat split; [..|left].
Qed.

(** Without [user_id] in the session every API view answers with the
    redirect to the login page and one warning. *)
Lemma api_requires_session (a : api_request) (w : world) :
  s_user_id (w_session w) = None ->
  api_view a w
  = (Ok (Redirect "login"),
     add_flash "Please log in to access this page" "warning" w).
Proof.
  intros Hsession. destruct a; by apply view_without_session.
Qed.

(** X2: the connection of an API view on every exit.  When the view
    answers with anything but the text of an exception, the pool is as it
    was.  When it answers with the text of an exception, exactly one
    connection stays out of the pool: the [except] blocks close nothing.
    The one exception is [get_stats] when [jsonify] raises, which is
    after the connection was closed: then the state is as it was.  An
    exception that escapes the view leaves the state as it was. *)
Theorem api_pool_accounting (a : api_request) (w : world) :
  match api_view a w with
  | (Ok r, w') =>
      if exception_answer r
      then (a = GetStats /\ w' = w)
           \/ exists free, w_pool w = Some (S free) /\ w_pool w' = Some free
      else w_pool w' = w_pool w
  | (Raise _, w') => w' = w
  end.
Proof.
  destruct (entry_cases w)
    as [Hnone|[(uid & Hsession & Hpool)|(uid & free & Hsession & Hpool)]].
  { by rewrite (api_requires_session a w Hnone). }
  - destruct a as [|body|task_id body|task_id|]; cbn [api_view].
    + by rewrite (get_tasks_no_connection w uid).
    + destruct (body_cases body) as [[data ->]|(e & code & He & _)];
        [|by rewrite (create_task_refused w uid body e)].
      destruct (has_title data) eqn:Htitle.
      * by rewrite (create_task_no_connection w uid data).
      * by destruct (create_task_rejected w uid data Hsession Htitle)
          as [-> | ->].
    + destruct (body_cases body) as [[data ->]|(e & code & He & _)];
        [|by rewrite (update_task_refused w uid task_id body e)].
      by rewrite (update_task_no_connection w uid).
    + by rewrite (delete_task_no_connection w uid).
    + by rewrite (get_stats_no_connection w uid).
  - destruct a as [|body|task_id body|task_id|]; cbn [api_view].
    + by rewrite (get_tasks_run w uid free).
    + destruct (body_cases body) as [[data ->]|(e & code & He & _)];
        [|by rewrite (create_task_refused w uid body e)].
      destruct (has_title data) eqn:Htitle.
      2:{ by destruct (create_task_rejected w uid data Hsession Htitle)
            as [-> | ->]. }
      destruct data as [| | | | |fields]; try done.
      destruct (has_title_assoc fields Htitle) as (title & Hassoc & Htruthy).
      rewrite (create_task_obj w uid fields title free) by done.
      destruct (execute_insert_outcome uid title
                  (dict_get_default fields "description" (JStr ""))
                  (dict_get_default fields "priority" (JStr "medium"))
                  (if truthy (dict_get_default fields "due_date" JNull)
                   then dict_get_default fields "due_date" JNull else JNull)
                  (set_pool (Some free) w))
        as [[e ->]|(p1 & p2 & p3 & d & ->)].
      * cbn. right. by exists free.
      * cbn. done.
    + destruct (body_cases body) as [[data ->]|(e & code & He & _)];
        [|by rewrite (update_task_refused w uid task_id body e)].
      destruct (filter (fun t => t_id t = task_id /\ t_user_id t = uid)
                       (w_tasks w)) as [|t hits] eqn:Hhits.
      { by rewrite (update_task_no_match w uid task_id data free). }
      rewrite (update_task_owned w uid task_id data free)
        by (try done; by rewrite Hhits).
      destruct (collect_sets data) as [[|s sets]|e]; [done| |cbn; right; by exists free].
      destruct (execute_update_outcome (s :: sets) task_id
                  (set_pool (Some free) w)) as [[e ->]|[assignments ->]].
      * cbn. right. by exists free.
      * cbn. done.
    + destruct (filter (fun t => t_id t = task_id /\ t_user_id t = uid)
                       (w_tasks w)) as [|t hits] eqn:Hhits.
      { by rewrite (delete_task_no_match w uid task_id free). }
      rewrite (delete_task_match w uid task_id free)
        by (try done; by rewrite Hhits).
      done.
    + rewrite (get_stats_run w uid free) by done.
      destruct (serializable uid w); [done|cbn; by left].
Qed.

(** Without a pool or a free connection, an API request that passes
    validation is answered 500 and the state is left as it was. *)
Lemma api_without_connection (a : api_request) (w : world) (uid : Z) :
  s_user_id (w_session w) = Some uid ->
  w_pool w = None \/ w_pool w = Some 0%nat ->
  passes_validation a = true ->
  api_view a w = (Ok (Json (BError "Database connection failed") 500), w).
Proof.
  intros Hsession Hpool Hvalid.
  destruct a as [|[| |data]|task_id [| |data]|task_id|]; try done;
    cbn [api_view].
  - by apply (get_tasks_no_connection w uid).
  - by apply (create_task_no_connection w uid).
  - by apply (update_task_no_connection w uid).
  - by apply (delete_task_no_connection w uid).
  - by apply (get_stats_no_connection w uid).
Qed.

Lemma run_app (rs1 rs2 : list request) (w : world) :
  run (rs1 ++ rs2) w = run rs2 (run rs1 w).
Proof. unfold run. by rewrite foldl_app. Qed.

(** X4: each update of an own task whose body is the JSON value [null]
    takes one connection for good, so as many such requests as the pool
    has free connections leave it empty, nothing else changed, and from
    then on every API request that passes validation is answered 500. *)
Theorem pool_exhaustion (w : world) (uid task_id : Z) (n : nat)
    (a : api_request) :
  s_user_id (w_session w) = Some uid ->
  w_pool w = Some n ->
  filter (fun t => t_id t = task_id /\ t_user_id t = uid) (w_tasks w) <> [] ->
  passes_validation a = true ->
  let w' := run (replicate n (Api (UpdateTask task_id (Parsed JNull)))) w in
  w' = set_pool (Some 0%nat) w
  /\ handle (Api a) w'
     = (Json (BError "Database connection failed") 500, w').
Proof.
  intros Hsession Hpool Howned Hvalid w'.
  assert (Hrun : w' = set_pool (Some 0%nat) w).
  { subst w'. revert w Hsession Hpool Howned.
    induction n as [|n IH]; intros w Hsession Hpool Howned.
    - cbn. destruct w; simpl in *. by rewrite Hpool.
    - cbn [replicate]. change (run (?r :: ?rs) ?w) with (run rs (handle r w).2).
      unfold handle at 1, dispatch. cbn [view_of api_view].
      rewrite (update_task_null_body_owned w uid task_id n) by done.
      cbn [fst snd]. rewrite IH; [by destruct w|done|done|done]. }
  split; [done|]. rewrite Hrun.
  unfold handle, dispatch. cbn [view_of].
  rewrite (api_without_connection a _ uid); [done|done|by right|done].
Qed.


(** *** Signing in and out *)

(** X5: a login form whose user name is empty after [strip()], or whose
    password is empty, is answered with the login page and the message to
    enter both, before any connection is asked for: the answer is the
    same whatever the pool, the tables and the server do. *)
Theorem login_blank_credentials (form : list (string * string))
    (fault : option exn) (w : world) :
  strip (form_get form "username" "") = ""
  \/ form_get form "password" "" = "" ->
  login POST form fault w
  = (Ok (Render "login.html" 200),
     add_flash "Please enter both username and password" "error" w).
Proof.
  intros Hblank. unfold login.
  assert (Hcheck : String.eqb (strip (form_get form "username" "")) ""
                   || String.eqb (form_get form "password" "") "" = true).
  { destruct Hblank as [Hname|Hpw].
    - by rewrite Hname.
    - rewrite Hpw. apply orb_true_r. }
  by rewrite Hcheck.
Qed.

(** X6: with a connection, a server that answers, the user name of a row
    of [users] and a password that [checkpw] accepts against its hash,
    [login] stores the id, the user name and the first name of that row
    in the session, flashes the welcome, redirects to the dashboard and
    gives the connection back. *)
Theorem login_success (w : world) (free : nat)
    (form : list (string * string)) (u : user) :
  w_pool w = Some (S free) ->
  let username := strip (form_get form "username" "") in
  let password := form_get form "password" "" in
  username <> "" -> password <> "" ->
  select_user username w = Some u ->
  checkpw password (u_password_hash u) = Some true ->
  login POST form None w
  = (Ok (Redirect "dashboard"),
     add_flash (String.append "Welcome back, "
                  (String.append (u_first_name u) "!")) "success"
       (set_session (mkSession (Some (u_id u)) (Some (u_username u))
                               (Some (u_first_name u))) w)).
Proof.
  intros Hpool username password Hname Hpw Huser Hcheck.
  rewrite (login_known_user w free form u) by done.
  fold password. by rewrite Hcheck.
Qed.

(** Every outcome of a posted login form with both fields filled in: the
    login page with a message, the same with the connection kept when
    the server fails the statement, or the dashboard. *)
Lemma login_outcome (form : list (string * string)) (fault : option exn)
    (w : world) :
  let username := strip (form_get form "username" "") in
  let password := form_get form "password" "" in
  String.eqb username "" || String.eqb password "" = false ->
  (exists msg, login POST form fault w
               = (Ok (Render "login.html" 200), add_flash msg "error" w))
  \/ (exists e free,
        fault = Some e
        /\ w_pool w = Some (S free)
        /\ login POST form fault w
           = (Ok (Render "login.html" 200),
              add_flash "An error occurred during login" "error"
                (set_pool (Some free) w)))
  \/ (exists u,
        fault = None
        /\ select_user username w = Some u
        /\ checkpw password (u_password_hash u) = Some true
        /\ login POST form fault w
           = (Ok (Redirect "dashboard"),
              add_flash (String.append "Welcome back, "
                           (String.append (u_first_name u) "!")) "success"
                (set_session (mkSession (Some (u_id u)) (Some (u_username u))
                                        (Some (u_first_name u))) w))).
Proof.
  intros username password Hfilled.
  unfold login. fold username password. rewrite Hfilled.
  unfold try_except, bind, get_db_connection, get_world, round_trip.
  destruct (w_pool w) as [[|free]|] eqn:Hpool; cbn [fst snd].
  - left. by eexists.
  - destruct fault as [e|]; cbn [raise ret fst snd].
    { right. left. by exists e, free. }
    change (select_user username (set_pool (Some free) w))
      with (select_user username w).
    destruct (select_user username w) as [u|] eqn:Huser; cbn.
    + destruct (checkpw password (u_password_hash u)) as [[|]|] eqn:Hcheck; cbn.
      * right. right. exists u. repeat split; try done.
        destruct w; simpl in *. by rewrite Hpool.
      * left. eexists. destruct w; simpl in *. by rewrite Hpool.
      * left. eexists. destruct w; simpl in *. by rewrite Hpool.
    + left. eexists. destruct w; simpl in *. by rewrite Hpool.
  - left. by eexists.
Qed.

(** X7: [login] writes the session only for a row of [users] with the
    posted user name whose hash [checkpw] accepts for the posted
    password; on every other path, also when the server fails the
    statement, the session is the one before. *)
Theorem login_sets_session_only_if_verified (method : http_method)
    (form : list (string * string)) (fault : option exn) (w : world) :
  let w' := (login method form fault w).2 in
  w_session w' = w_session w
  \/ exists u,
       u ∈ w_users w
       /\ u_username u = strip (form_get form "username" "")
       /\ checkpw (form_get form "password" "") (u_password_hash u) = Some true
       /\ w_session w' = mkSession (Some (u_id u)) (Some (u_username u))
                                   (Some (u_first_name u)).
Proof.
  destruct method; [by left|].
  destruct (String.eqb (strip (form_get form "username" "")) ""
            || String.eqb (form_get form "password" "") "") eqn:Hfilled.
  { left. unfold login. by rewrite Hfilled. }
  destruct (login_outcome form fault w Hfilled)
    as [[msg Hrun]|[(e & free & _ & _ & Hrun)|(u & _ & Huser & Hcheck & Hrun)]];
    cbn zeta; rewrite Hrun.
  - by left.
  - by left.
  - right. exists u. repeat split; try done.
    + by apply (select_user_elem (strip (form_get form "username" "")) w).
    + unfold select_user in Huser. apply head_Some_elem_of in Huser.
      by apply list_elem_of_filter in Huser as [? _].
Qed.

(** X8: [login] never lets an exception out and changes neither table
    nor the id counter.  It gives its connection back on every path but
    one: when the server fails the [SELECT], the [except] block answers
    with the login page and the connection stays out of the pool; on a
    server that answers, also when [checkpw] raises, the pool is as
    before. *)
Theorem login_connection_accounting (method : http_method)
    (form : list (string * string)) (fault : option exn) (w : world) :
  exists r w',
    login method form fault w = (Ok r, w')
    /\ w_tasks w' = w_tasks w
    /\ w_users w' = w_users w
    /\ w_next_id w' = w_next_id w
    /\ (w_pool w' = w_pool w
        \/ exists e free,
             fault = Some e /\ w_pool w = Some (S free)
             /\ w_pool w' = Some free
             /\ r = Render "login.html" 200
             /\ w_session w' = w_session w)
    /\ (fault = None -> w_pool w' = w_pool w).
Proof.
  destruct method; [eexists _, _; repeat split; by left|].
  destruct (String.eqb (strip (form_get form "username" "")) ""
            || String.eqb (form_get form "password" "") "") eqn:Hfilled.
  { unfold login. rewrite Hfilled. eexists _, _. repeat split; by left. }
  destruct (login_outcome form fault w Hfilled)
    as [[msg Hrun]|[(e & free & -> & Hpool & Hrun)
                   |(u & -> & Huser & Hcheck & Hrun)]];
    rewrite Hrun; eexists _, _; (split; [reflexivity|]);
    repeat split; try done; try (by left).
  right. by exists e, free.
Qed.

(** X9: [logout] empties the session whatever it held, so the API request
    that follows is sent to the login page; neither request touches a
    table or the pool. *)
Theorem logout_then_api (a : api_request) (w : world) :
  responses [Logout; Api a] w = [Redirect "index"; Redirect "login"]
  /\ let w' := run [Logout; Api a] w in
     w_session w' = mkSession None None None
     /\ w_tasks w' = w_tasks w
     /\ w_users w' = w_users w
     /\ w_pool w' = w_pool w.
Proof.
  unfold responses, run, handle, dispatch. cbn [foldl view_of].
  unfold logout at 1 3. unfold bind, modify, flash, ret. cbn [fst snd].
  rewrite api_requires_session by done.
  unfold logout, bind, modify, flash, ret. cbn [fst snd].
  rewrite api_requires_session by done. done.
Qed.

(** X10: [health_check] needs no session.  It answers 200 "healthy" /
    [Connected] exactly when the pool hands out a connection and the
    server answers [SELECT 1], and the state is as before; 503
    "unhealthy" / [Disconnected] when there is no pool or no free
    connection, the state as before; and 503 "unhealthy" with the text of
    the error when the server fails the statement, and then the
    connection stays out of the pool. *)
Theorem health_check_reports {T} (utcnow : Z) (response_time_ms : T)
    (fault : option exn) (w : world) :
  health_check utcnow response_time_ms fault w
  = match w_pool w, fault with
    | Some (S _), None =>
        (Ok (mkHealth "healthy" (isoformat_datetime utcnow) "1.0.0"
                      Connected response_time_ms, 200), w)
    | Some (S free), Some e =>
        (Ok (mkHealth "unhealthy" (isoformat_datetime utcnow) "1.0.0"
                      (HealthError e) response_time_ms, 503),
         set_pool (Some free) w)
    | _, _ =>
        (Ok (mkHealth "unhealthy" (isoformat_datetime utcnow) "1.0.0"
                      Disconnected response_time_ms, 503), w)
    end.
Proof.
  unfold health_check, try_except, bind, get_db_connection, round_trip.
  destruct (w_pool w) as [[|free]|] eqn:Hpool; cbn; try done.
  destruct fault as [e|]; cbn; [done|].
  destruct w; simpl in *. by rewrite Hpool.
Qed.


(** *** Reading *)

Lemma insert_desc_descending {A} (key : A -> Z) (x : A) (l : list A) :
  descending key l -> descending key (insert_desc key x l).
Proof.
  induction l as [|y l IH]; cbn; [done|].
  intros [Hy Hl]. destruct (key x <? key y) eqn:Hlt; cbn.
  - split; [|by apply IH].
    rewrite insert_desc_perm. apply Forall_cons. split; [lia|done].
  - split; [|done]. apply Forall_cons. split; [lia|].
    eapply Forall_impl; [exact Hy|]. cbn. intros; lia.
Qed.

Lemma order_by_desc_descending {A} (key : A -> Z) (l : list A) :
  descending key (order_by_desc key l).
Proof.
  induction l as [|x l IH]; cbn; [done|]. by apply insert_desc_descending.
Qed.

(** X11: for a signed-in user with a connection, [get_tasks] answers 200
    with the user's tasks, each joined with its [users] row, in descending
    order of [updated_at], and leaves the state as it was. *)
Theorem get_tasks_most_recent_first (w : world) (uid : Z) (free : nat) :
  s_user_id (w_session w) = Some uid ->
  w_pool w = Some (S free) ->
  exists selected : list (task * user),
    get_tasks w = (Ok (Json (BTasks (task_row <$> selected)) 200), w)
    /\ selected ≡ₚ filter (fun r : task * user => t_user_id r.1 = uid)
                     (join_users (w_tasks w) (w_users w))
    /\ descending (fun r : task * user => t_updated_at r.1) selected.
Proof.
  intros Hsession Hpool. exists (select_tasks uid w). split; [|split].
  - by apply (get_tasks_run w uid free).
  - unfold select_tasks. apply order_by_desc_perm.
  - unfold select_tasks. apply order_by_desc_descending.
Qed.

Lemma join_users_count (Q : task -> Prop) `{forall t, Decision (Q t)}
    (ts : list task) (us : list user) :
  users_key us ->
  Forall (fun t => t_user_id t ∈ u_id <$> us) ts ->
  length (filter (fun r : task * user => Q r.1) (join_users ts us))
  = length (filter Q ts).
Proof.
  intros Hkey. unfold join_users.
  induction 1 as [|t ts Hin _ IH]; csimpl; [done|].
  destruct (join_one t us Hkey Hin) as [u ->].
  rewrite filter_app, length_app, IH, !filter_cons, filter_nil. simpl.
  destruct (decide (Q t)); simpl; done.
Qed.

Lemma primary_key_one (ts : list task) (t : task) (Q : task -> Prop)
    `{forall t, Decision (Q t)} :
  primary_key ts -> t ∈ ts -> Q t ->
  length (filter (fun t' => t_id t' = t_id t /\ Q t') ts) = 1%nat.
Proof.
  intros Hkey Hin HQ.
  apply elem_of_Permutation in Hin as [rest Hperm].
  assert (Hrest : filter (fun t' => t_id t' = t_id t /\ Q t') rest = []).
  { apply filter_none, Forall_forall. intros t' Hin' [Hid _].
    unfold primary_key in Hkey. rewrite Hperm in Hkey. csimpl in Hkey.
    apply NoDup_cons in Hkey as [Hfresh _]. apply Hfresh.
    rewrite <- Hid. by apply list_elem_of_fmap_2. }
  rewrite Hperm, filter_cons, Hrest.
  by destruct (decide (t_id t = t_id t /\ Q t)) as [|[]].
Qed.

(** X12: on a store that meets its key constraints, every task of the
    signed-in user is in the answer of [get_tasks] exactly once, and the
    row with its id carries its title, description, status and
    priority. *)
Theorem get_tasks_complete (w : world) (uid : Z) (free : nat) (t : task) :
  s_user_id (w_session w) = Some uid ->
  w_pool w = Some (S free) ->
  primary_key (w_tasks w) ->
  users_key (w_users w) ->
  foreign_key w ->
  t ∈ w_tasks w ->
  t_user_id t = uid ->
  length (filter (fun j => j_id j = t_id t) (rows_of (get_tasks w))) = 1%nat
  /\ forall j, j ∈ rows_of (get_tasks w) -> j_id j = t_id t ->
               j_title j = t_title t
               /\ j_description j = t_description t
               /\ j_status j = t_status t
               /\ j_priority j = t_priority t.
Proof.
  intros Hsession Hpool Hkey Hukey Hfk Hin Hown.
  rewrite (get_tasks_run w uid free) by done. unfold rows_of. cbn [fst].
  split.
  - rewrite <- (primary_key_one (w_tasks w) t (fun t' => t_user_id t' = uid))
      by done.
    rewrite <- (join_users_count _ (w_tasks w) (w_users w)) by done.
    unfold select_tasks.
    assert (Hfmap : forall l : list (task * user),
              length (filter (fun j => j_id j = t_id t) (task_row <$> l))
              = length (filter (fun r : task * user => t_id r.1 = t_id t) l)).
    { induction l as [|r l IH]; csimpl; [done|].
      rewrite !filter_cons. cbn.
      destruct (decide (t_id r.1 = t_id t)); cbn; by rewrite IH. }
    by rewrite Hfmap, order_by_desc_perm, list_filter_filter.
  - intros j (r & -> & Hr)%list_elem_of_fmap Hid. cbn in Hid |- *.
    apply select_tasks_elem in Hr as (Hr & _ & _).
    by rewrite (primary_key_unique (w_tasks w) r.1 t Hkey Hr Hin Hid).
Qed.

Lemma join_users_filter (Q : task -> Prop) `{forall t, Decision (Q t)}
    (ts : list task) (us : list user) :
  filter (fun r : task * user => Q r.1) (join_users ts us)
  = join_users (filter Q ts) us.
Proof.
  unfold join_users. induction ts as [|t ts IH]; csimpl; [done|].
  rewrite filter_app, IH, filter_cons.
  assert (Hinner : forall us',
    filter (fun r : task * user => Q r.1)
      (u ← us'; if bool_decide (t_user_id t = u_id u) then [(t, u)] else [])
    = if decide (Q t)
      then u ← us'; if bool_decide (t_user_id t = u_id u) then [(t, u)] else []
      else []).
  { induction us' as [|u us' IHu]; csimpl; [by destruct (decide (Q t))|].
    rewrite filter_app, IHu.
    case_bool_decide; [|by destruct (decide (Q t))].
    rewrite filter_cons, filter_nil. cbn. by destruct (decide (Q t)). }
  rewrite Hinner. by destruct (decide (Q t)).
Qed.

(** X13: what [get_tasks] and [get_stats] answer depends on the tasks of
    the caller only: two states with the same caller, the same [users],
    the same date and the same tasks of the caller give the same rows and
    the same statistics, whatever the other users' tasks are. *)
Theorem reads_independent_of_other_users (w1 w2 : world) (uid : Z)
    (free1 free2 : nat) :
  s_user_id (w_session w1) = Some uid ->
  s_user_id (w_session w2) = Some uid ->
  w_pool w1 = Some (S free1) ->
  w_pool w2 = Some (S free2) ->
  w_users w1 = w_users w2 ->
  w_today w1 = w_today w2 ->
  tasks_of uid (w_tasks w1) = tasks_of uid (w_tasks w2) ->
  (get_tasks w1).1 = (get_tasks w2).1
  /\ (get_stats w1).1 = (get_stats w2).1.
Proof.
  only_used.
  intros Hs1 Hs2 Hp1 Hp2 Husers Htoday Htasks. unfold tasks_of in Htasks.
  rewrite (get_tasks_run w1 uid free1), (get_tasks_run w2 uid free2) by done.
  rewrite (get_stats_run w1 uid free1), (get_stats_run w2 uid free2) by done.
  cbn [fst].
  assert (Hselect : select_tasks uid w1 = select_tasks uid w2).
  { unfold select_tasks.
    pose proof (join_users_filter (fun t => t_user_id t = uid)) as Hjoin.
    cbn beta in Hjoin. by rewrite !Hjoin, Htasks, Husers. }
  assert (Hgroup : forall key, select_group_count key uid w1
                               = select_group_count key uid w2).
  { intros key. unfold select_group_count. by rewrite Htasks. }
  assert (Hoverdue : select_overdue_count uid w1 = select_overdue_count uid w2).
  { unfold select_overdue_count. rewrite <- Htoday. do 2 f_equal.
    assert (Hsplit : forall ts : list task,
      filter (fun t => overdue_where uid (w_today w1) t = true) ts
      = filter (fun t => overdue_where uid (w_today w1) t = true)
          (filter (fun t => t_user_id t = uid) ts)).
    { intros ts. rewrite list_filter_filter. apply list_filter_iff.
      intros t. unfold overdue_where. split; [|tauto].
      intros Hwhere. split; [done|].
      apply andb_true_iff in Hwhere as [Hown _].
      by apply bool_decide_eq_true in Hown. }
    rewrite (Hsplit (w_tasks w1)), (Hsplit (w_tasks w2)). by rewrite Htasks. }
  assert (Hwrite : serializable uid w1 = serializable uid w2).
  { unfold serializable, tasks_of. by rewrite Htasks. }
  assert (Hstats : statistics uid w1 = statistics uid w2).
  { unfold statistics. by rewrite !Hgroup, Hoverdue. }
  rewrite Hselect, Hwrite, Hstats. by destruct (serializable uid w2).
Qed.


(** *** Statistics *)

(** X14: for a signed-in user with a connection whose statistics can be
    written ([jsonify] can sort the statuses and the priorities of the
    user's tasks), [get_stats] answers 200, [status_counts] maps each
    status to the number of the user's tasks with that status and has no
    entry for a status without tasks, and [priority_counts] does the same
    for the priorities; otherwise the answer is the 500 of the
    [TypeError].  The state is as before in both cases. *)
Theorem stats_counts_exact (w : world) (uid : Z) (free : nat) :
  s_user_id (w_session w) = Some uid ->
  w_pool w = Some (S free) ->
  if serializable uid w
  then exists st,
      get_stats w = (Ok (Json (BStats st) 200), w)
      /\ (forall k,
            let n := Z.of_nat (length (filter (fun t => t_status t = k)
                                              (tasks_of uid (w_tasks w)))) in
            status_counts st !! k
            = if bool_decide (n = 0) then None else Some n)
      /\ (forall k,
            let n := Z.of_nat (length (filter (fun t => t_priority t = k)
                                              (tasks_of uid (w_tasks w)))) in
            priority_counts st !! k
            = if bool_decide (n = 0) then None else Some n)
  else get_stats w = (Ok (Json (BException TypeError_sort_keys) 500), w).
Proof.
  only_used.
  intros Hsession Hpool. rewrite (get_stats_run w uid free) by done.
  destruct (serializable uid w); [|done].
  eexists. split; [done|].
  cbn [status_counts priority_counts statistics].
  unfold select_group_count, tasks_of.
  split; intros k; apply dict_of_group_count.
Qed.

Lemma filter_length_le {A} (P Q : A -> Prop) `{forall x, Decision (P x)}
    `{forall x, Decision (Q x)} (l : list A) :
  (forall x, P x -> Q x) ->
  (length (filter P l) <= length (filter Q l))%nat.
Proof.
  intros Himpl. induction l as [|x l IH]; [done|].
  rewrite !filter_cons. destruct (decide (P x)) as [HP|_].
  - rewrite decide_True by (by apply Himpl). cbn [length]. lia.
  - destruct (decide (Q x)); cbn [length]; lia.
Qed.

(** X15: in the statistics [get_stats] answers with, the values of
    [priority_counts] add up to [total_tasks], which is the number of the
    user's tasks, and [overdue_count] lies between 0 and [total_tasks];
    when the statistics cannot be written the answer is the 500 of the
    [TypeError]. *)
Theorem stats_totals (w : world) (uid : Z) (free : nat) :
  s_user_id (w_session w) = Some uid ->
  w_pool w = Some (S free) ->
  if serializable uid w
  then exists st,
      get_stats w = (Ok (Json (BStats st) 200), w)
      /\ total_tasks st = Z.of_nat (length (tasks_of uid (w_tasks w)))
      /\ sum_values (priority_counts st) = total_tasks st
      /\ 0 <= overdue_count st <= total_tasks st
  else get_stats w = (Ok (Json (BException TypeError_sort_keys) 500), w).
Proof.
  only_used.
  intros Hsession Hpool. rewrite (get_stats_run w uid free) by done.
  destruct (serializable uid w); [|done].
  eexists. split; [done|].
  cbn [status_counts priority_counts total_tasks overdue_count statistics].
  unfold select_group_count, tasks_of.
  destruct (group_count_spec t_status
              (filter (fun t => t_user_id t = uid) (w_tasks w))) as [Hnd1 Hsum1].
  destruct (group_count_spec t_priority
              (filter (fun t => t_user_id t = uid) (w_tasks w))) as [Hnd2 Hsum2].
  rewrite !sum_values_dict by done. rewrite Hsum1, Hsum2.
  split; [done|]. split; [done|].
  unfold select_overdue_count.
  pose proof (filter_length_le
                (fun t => overdue_where uid (w_today w) t = true)
                (fun t => t_user_id t = uid) (w_tasks w)) as Hle.
  cbn beta in Hle. unfold overdue_where in Hle at 1.
  assert (Himpl : forall t,
            bool_decide (t_user_id t = uid)
            && sql_true (sql_and (sql_lt_date (t_due_date t) (w_today w))
                                 (sql_ne (t_status t) (SStr "completed")))
            = true -> t_user_id t = uid).
  { intros t [Hown%bool_decide_eq_true _]%andb_true_iff. done. }
  specialize (Hle Himpl).
  lia.
Qed.


(** *** Writing *)

(** Every outcome of [create_task] for a signed-in caller. *)
Lemma create_task_outcome (w : world) (uid : Z) (body : request_body) :
  s_user_id (w_session w) = Some uid ->
  (exists e, create_task body w = (Raise e, w))
  \/ (exists r, create_task body w = (Ok r, w) /\ status_code r <> 201)
  \/ (exists e free,
        w_pool w = Some (S free)
        /\ create_task body w
           = (Ok (Json (BException e) 500), set_pool (Some free) w))
  \/ (exists data title p_title p_description p_priority d,
        body = Parsed data
        /\ has_title data = true
        /\ create_task body w
           = (Ok (Json (BCreated (w_next_id w) "Task created successfully"
                                 title) 201),
              set_next_id (w_next_id w + 1)
                (set_tasks
                   (w_tasks w
                    ++ [mkTask (w_next_id w) uid p_title p_description
                               default_status p_priority d (w_now w) (w_now w)])
                   w))).
Proof.
  intros Hsession.
  destruct (body_cases body) as [[data ->]|(e & code & He & _)];
    [|left; exists e; by apply (create_task_refused w uid)].
  destruct (has_title data) eqn:Htitle.
  2:{ destruct (create_task_rejected w uid data Hsession Htitle) as [Hrun|Hrun].
      - right. left. eexists. split; [exact Hrun|]. cbn. lia.
      - left. by eexists. }
  destruct (entry_cases w)
    as [Hnone|[(uid' & Hsession' & Hpool)|(uid' & free & Hsession' & Hpool)]].
  { congruence. }
  { right. left. eexists. split.
    - by apply (create_task_no_connection w uid).
    - cbn. lia. }
  destruct data as [| | | | |fields]; try done.
  destruct (has_title_assoc fields Htitle) as (title & Hassoc & Htruthy).
  rewrite (create_task_obj w uid fields title free) by done.
  destruct (execute_insert_outcome uid title
              (dict_get_default fields "description" (JStr ""))
              (dict_get_default fields "priority" (JStr "medium"))
              (if truthy (dict_get_default fields "due_date" JNull)
               then dict_get_default fields "due_date" JNull else JNull)
              (set_pool (Some free) w))
    as [[e ->]|(p1 & p2 & p3 & d & ->)].
  - right. right. left. by exists e, free.
  - right. right. right. exists (JObj fields), title, p1, p2, p3, d.
    split; [done|]. split; [done|].
    cbn. by rewrite (pool_returned_insert _ _ _ _ Hpool).
Qed.

(** X16: whatever the request holds, [create_task] adds at most one row,
    and adds it exactly when it answers 201: the row gets the next id, the
    caller as its owner, the schema's default status and the current time
    in both timestamps, so a [user_id], [id] or [status] in the body has
    no effect.  On every other answer the table and the id counter are as
    before. *)
Theorem create_adds_one_owned_row (w : world) (uid : Z)
    (body : request_body) :
  s_user_id (w_session w) = Some uid ->
  match create_task body w with
  | (Ok r, w') =>
      if Z.eqb (status_code r) 201
      then exists row : task,
             w_tasks w' = (w_tasks w ++ [row])%list
             /\ t_id row = w_next_id w
             /\ t_user_id row = uid
             /\ t_status row = default_status
             /\ t_created_at row = w_now w
             /\ t_updated_at row = w_now w
             /\ w_next_id w' = w_next_id w + 1
      else w_tasks w' = w_tasks w /\ w_next_id w' = w_next_id w
  | (Raise _, w') => w' = w
  end.
Proof.
  intros Hsession.
  destruct (create_task_outcome w uid body Hsession)
    as [[e ->] | [(r & -> & Hcode) | [(e & free & _ & ->)
       | (data & title & p1 & p2 & p3 & d & _ & _ & ->)]]].
  - done.
  - by rewrite (proj2 (Z.eqb_neq _ _) Hcode).
  - done.
  - cbn. by eexists.
Qed.

Lemma apply_assignment_created (t : task) (a : assignment) :
  t_created_at (apply_assignment t a) = t_created_at t.
Proof. by destruct a. Qed.

Lemma patched_created (now task_id : Z) (assignments : list assignment)
    (t : task) :
  t_created_at (if bool_decide (t_id t = task_id)
                then touch now (foldl apply_assignment t assignments) else t)
  = t_created_at t.
Proof.
  case_bool_decide; [|done]. cbn. clear H.
  revert t. induction assignments as [|a rest IH]; intros t; [done|].
  cbn. by rewrite IH, apply_assignment_created.
Qed.

(** Every outcome of [update_task]: the state is the one before, up to
    the pool and the flashed messages, or a row of the caller matched and
    the rows with the id were patched. *)
Lemma update_task_outcome (w : world) (task_id : Z) (body : request_body) :
  let w' := (update_task task_id body w).2 in
  (w_tasks w' = w_tasks w
   \/ exists uid assignments,
        s_user_id (w_session w) = Some uid
        /\ filter (fun t => t_id t = task_id /\ t_user_id t = uid) (w_tasks w)
           <> []
        /\ w_tasks w'
           = (fun t => if bool_decide (t_id t = task_id)
                       then touch (w_now w)
                              (foldl apply_assignment t assignments)
                       else t) <$> w_tasks w)
  /\ w_users w' = w_users w
  /\ w_next_id w' = w_next_id w
  /\ w_session w' = w_session w.
Proof.
  destruct (entry_cases w)
    as [Hnone|[(uid & Hsession & Hpool)|(uid & free & Hsession & Hpool)]].
  { unfold update_task. rewrite (view_without_session _ w Hnone). cbn.
    split; [by left|done]. }
  all: destruct (body_cases body) as [[data ->]|(e & code & He & _)];
    [|rewrite (update_task_refused w uid task_id body e) by done;
      cbn; split; [by left|done]].
  { rewrite (update_task_no_connection w uid) by done. cbn.
    split; [by left|done]. }
  destruct (filter (fun t => t_id t = task_id /\ t_user_id t = uid)
                   (w_tasks w)) as [|t hits] eqn:Hhits.
  { rewrite (update_task_no_match w uid task_id data free) by done. cbn.
    split; [by left|done]. }
  rewrite (update_task_owned w uid task_id data free)
    by (try done; by rewrite Hhits).
  destruct (collect_sets data) as [[|s sets]|e];
    [cbn; split; [by left|done]| |cbn; split; [by left|done]].
  destruct (execute_update_outcome (s :: sets) task_id
              (set_pool (Some free) w)) as [[e ->]|[assignments ->]].
  - cbn. split; [by left|done].
  - cbn. split; [|done]. right. exists uid, assignments.
    split; [done|]. split; [by rewrite Hhits|done].
Qed.

(** X17: whatever the request holds, [update_task] creates no row and
    removes none, and no row changes its id, its owner or its creation
    time: a [user_id], [id] or [created_at] in the body has no effect.
    [users] and the id counter stay as they are. *)
Theorem update_keeps_identity (w : world) (task_id : Z)
    (body : request_body) :
  let w' := (update_task task_id body w).2 in
  t_id <$> w_tasks w' = t_id <$> w_tasks w
  /\ t_user_id <$> w_tasks w' = t_user_id <$> w_tasks w
  /\ t_created_at <$> w_tasks w' = t_created_at <$> w_tasks w
  /\ w_users w' = w_users w
  /\ w_next_id w' = w_next_id w.
Proof.
  destruct (update_task_outcome w task_id body)
    as ([Hsame|(uid & assignments & _ & _ & Hpatched)] & Husers & Hnext & _);
    cbn zeta.
  - by rewrite Hsame.
  - rewrite Hpatched. repeat split; try done;
      rewrite <- list_fmap_compose; apply Forall_fmap_ext_1, Forall_forall;
      intros t _; cbn.
    + apply patched_keys.
    + apply patched_keys.
    + apply patched_created.
Qed.


(** X18: a task that [create_task] has just created, deleted under the id
    the 201 answer carries, is gone again: the delete answers 200 and the
    state is the one before the create, but for the id counter. *)
Theorem create_then_delete (w : world) (uid : Z) (body : request_body)
    (free : nat) (r : response) (w1 : world) :
  s_user_id (w_session w) = Some uid ->
  w_pool w = Some (S free) ->
  Forall (fun t => t_id t <> w_next_id w) (w_tasks w) ->
  create_task body w = (Ok r, w1) ->
  status_code r = 201 ->
  exists title,
    r = Json (BCreated (w_next_id w) "Task created successfully" title) 201
    /\ delete_task (w_next_id w) w1
       = (Ok (Json (BMessage "Task deleted successfully") 200),
          set_next_id (w_next_id w + 1) w).
Proof.
  intros Hsession Hpool Hfresh Hrun Hcode.
  destruct (create_task_outcome w uid body Hsession)
    as [[e Hout] | [(r' & Hout & Hcode') | [(e & free' & _ & Hout)
       | (data & title & p1 & p2 & p3 & d & _ & _ & Hout)]]];
    rewrite Hout in Hrun; simplify_eq; try done.
  exists title. split; [done|].
  set (row := mkTask (w_next_id w) uid p1 p2 default_status p3 d
                     (w_now w) (w_now w)).
  rewrite (delete_task_match _ uid (w_next_id w) free); try done.
  - f_equal. cbn [w_tasks set_tasks set_next_id].
    rewrite filter_app, filter_cons, filter_nil.
    rewrite decide_False by (intros Hnot; by apply Hnot).
    rewrite (filter_all (fun t => ~ (t_id t = w_next_id w /\ t_user_id t = uid))).
    + rewrite app_nil_r. by destruct w.
    + eapply Forall_impl; [exact Hfresh|]. intros t Hne [Hid _]. done.
  - cbn [w_tasks set_tasks set_next_id].
    rewrite filter_app, filter_cons, filter_nil.
    rewrite decide_True by done.
    intros Hnil. by apply app_eq_nil in Hnil as [_ ?].
Qed.

(** X19: deleting the same id a second time answers 404 and changes
    nothing more, whatever the first delete answered. *)
Theorem delete_twice (w : world) (uid task_id : Z) (free : nat) :
  s_user_id (w_session w) = Some uid ->
  w_pool w = Some (S free) ->
  let w1 := (delete_task task_id w).2 in
  delete_task task_id w1 = (Ok (Json (BError "Task not found") 404), w1).
Proof.
  only_used.
  intros Hsession Hpool w1.
  destruct (filter (fun t => t_id t = task_id /\ t_user_id t = uid)
                   (w_tasks w)) as [|t hits] eqn:Hhits.
  - subst w1. rewrite (delete_task_no_match w uid task_id free) by done.
    by apply (delete_task_no_match w uid task_id free).
  - subst w1.
    rewrite (delete_task_match w uid task_id free)
      by (try done; by rewrite Hhits).
    cbn [snd]. apply (delete_task_no_match _ uid task_id free); try done.
    cbn [w_tasks set_tasks]. rewrite list_filter_filter.
    apply filter_none, Forall_forall. intros t' _. tauto.
Qed.

Lemma overdue_where_completed (uid today : Z) (t : task) :
  t_status t = SStr "completed" -> overdue_where uid today t = false.
Proof.
  intros Hstatus. unfold overdue_where. rewrite Hstatus.
  destruct (bool_decide (t_user_id t = uid)); [|done].
  by destruct (t_due_date t) as [d|]; cbn; [destruct (d <? today)|].
Qed.

Lemma filter_patched (P : task -> Prop) `{forall t, Decision (P t)}
    (task_id : Z) (patch : task -> task) (ts : list task) :
  (forall t, ~ P (patch t)) ->
  filter P ((fun t => if bool_decide (t_id t = task_id) then patch t else t)
              <$> ts)
  = filter P (filter (fun t => t_id t <> task_id) ts).
Proof.
  intros Hpatch. induction ts as [|t ts IH]; csimpl; [done|].
  rewrite !filter_cons. case_bool_decide as Hid.
  - rewrite decide_False by apply Hpatch.
    rewrite decide_False by (intros Hne; by apply Hne). done.
  - rewrite (decide_True (P:=t_id t <> task_id)) by done.
    rewrite filter_cons. destruct (decide (P t)); by rewrite IH.
Qed.

(** X20: once an update that sets the status to "completed" has answered
    200, the task is not overdue any more: the [overdue_count] of the
    next [get_stats] is the count over the caller's other tasks.  The
    update answers 200 when the connector can bind the values of the body
    and the columns take them; the next [get_stats] answers with
    statistics when they can be written, and 500 otherwise. *)
Theorem completed_leaves_overdue_count (w : world) (uid task_id : Z)
    (fields : list (string * json)) (free : nat) :
  s_user_id (w_session w) = Some uid ->
  w_pool w = Some (S free) ->
  filter (fun t => t_id t = task_id /\ t_user_id t = uid) (w_tasks w) <> [] ->
  assoc "status" fields = Some (JStr "completed") ->
  stores Cstatus (SStr "completed") = Some (SStr "completed") ->
  bindable Ctitle (assoc "title" fields) ->
  bindable Cdescription (assoc "description" fields) ->
  bindable Cpriority (assoc "priority" fields) ->
  date_accepted (assoc "due_date" fields) ->
  let w1 := (update_task task_id (Parsed (JObj fields)) w).2 in
  code_of (update_task task_id (Parsed (JObj fields)) w) = Some 200
  /\ if serializable uid w1
     then exists st,
         get_stats w1 = (Ok (Json (BStats st) 200), w1)
         /\ overdue_count st
            = count_where (overdue_where uid (w_today w))
                (filter (fun t => t_id t <> task_id) (w_tasks w))
     else get_stats w1 = (Ok (Json (BException TypeError_sort_keys) 500), w1).
Proof.
  intros Hsession Hpool Howned Hstatus Hcompleted Hb1 Hb2 Hb4 Hd w1.
  destruct (update_stores_bound_values w uid task_id fields free)
    as (patch & Hrun & Hbound & _); try done.
  { rewrite Hstatus. by eexists. }
  subst w1. rewrite Hrun. split; [done|]. cbn [snd].
  rewrite (get_stats_run _ uid free) by done.
  destruct (serializable uid _); [|done].
  eexists. split; [done|].
  cbn [overdue_count statistics]. unfold select_overdue_count, count_where.
  cbn [w_tasks w_today set_tasks]. do 2 f_equal.
  apply (filter_patched (fun t => overdue_where uid (w_today w) t = true)).
  intros t. destruct (Hbound t) as (_ & _ & _ & _ & _ & Hst & _).
  rewrite Hstatus in Hst. cbn in Hst. injection Hst as Hst.
  rewrite overdue_where_completed by done. done.
Qed.


(** *** Runs of requests *)

(** Answering an exception with a page touches nothing. *)
Lemma dispatch_state (view : M response) (w : world) :
  (dispatch view w).2 = (view w).2.
Proof.
  unfold dispatch. destruct (view w) as [[r|e] w']; [done|].
  by destruct (http_code e).
Qed.

Lemma delete_task_outcome (w : world) (task_id : Z) :
  let w' := (delete_task task_id w).2 in
  (w_tasks w' = w_tasks w
   \/ exists uid,
        s_user_id (w_session w) = Some uid
        /\ w_tasks w'
           = filter (fun t => ~ (t_id t = task_id /\ t_user_id t = uid))
                    (w_tasks w))
  /\ w_users w' = w_users w
  /\ w_next_id w' = w_next_id w
  /\ w_session w' = w_session w.
Proof.
  destruct (entry_cases w)
    as [Hnone|[(uid & Hsession & Hpool)|(uid & free & Hsession & Hpool)]].
  { unfold delete_task. rewrite (view_without_session _ w Hnone). cbn.
    split; [by left|done]. }
  { rewrite (delete_task_no_connection w uid) by done. cbn.
    split; [by left|done]. }
  destruct (filter (fun t => t_id t = task_id /\ t_user_id t = uid)
                   (w_tasks w)) as [|t hits] eqn:Hhits.
  { rewrite (delete_task_no_match w uid task_id free) by done. cbn.
    split; [by left|done]. }
  rewrite (delete_task_match w uid task_id free)
    by (try done; by rewrite Hhits).
  cbn. split; [|done]. right. by exists uid.
Qed.

Lemma read_view_outcome (a : api_request) (w : world) :
  a = GetTasks \/ a = GetStats ->
  let w' := (api_view a w).2 in
  w_tasks w' = w_tasks w /\ w_users w' = w_users w
  /\ w_next_id w' = w_next_id w /\ w_session w' = w_session w.
Proof.
  intros Hread.
  destruct (entry_cases w)
    as [Hnone|[(uid & Hsession & Hpool)|(uid & free & Hsession & Hpool)]].
  - by rewrite (api_requires_session a w Hnone).
  - destruct Hread as [-> | ->]; cbn [api_view].
    + by rewrite (get_tasks_no_connection w uid).
    + by rewrite (get_stats_no_connection w uid).
  - destruct Hread as [-> | ->]; cbn [api_view].
    + by rewrite (get_tasks_run w uid free).
    + rewrite (get_stats_run w uid free) by done.
      by destruct (serializable uid w).
Qed.

(** One API request of [uid] leaves the rows of everybody else as they
    are. *)
Lemma api_leaves_others (a : api_request) (w : world) (uid : Z) :
  s_user_id (w_session w) = Some uid ->
  primary_key (w_tasks w) ->
  tasks_of_others uid (w_tasks (api_view a w).2)
  = tasks_of_others uid (w_tasks w)
  /\ w_session (api_view a w).2 = w_session w.
Proof.
  only_used.
  intros Hsession Hkey. unfold tasks_of_others.
  destruct a as [|body|task_id body|task_id|]; cbn [api_view].
  - pose proof (read_view_outcome GetTasks w (or_introl eq_refl)) as Hread.
    cbn [api_view] in Hread. by destruct Hread as (-> & _ & _ & ->).
  - destruct (create_task_outcome w uid body Hsession)
      as [[e ->] | [(r & -> & _) | [(e & free & _ & ->)
         | (data & title & p1 & p2 & p3 & d & _ & _ & ->)]]]; try done.
    cbn. split; [|done].
    rewrite filter_app, filter_cons, filter_nil. cbn.
    rewrite decide_False by (intros Hne; by apply Hne). by rewrite app_nil_r.
  - destruct (update_task_outcome w task_id body)
      as ([Hsame|(uid' & assignments & Hs' & Howned & Hpatched)] & _ & _ & Hs).
    { by rewrite Hsame. }
    split; [|done]. rewrite Hpatched.
    assert (uid' = uid) as -> by congruence.
    destruct (filter (fun t => t_id t = task_id /\ t_user_id t = uid)
                     (w_tasks w)) as [|t0 hits] eqn:Hhits; [done|].
    assert (Ht0 : t0 ∈ w_tasks w /\ t_id t0 = task_id /\ t_user_id t0 = uid).
    { assert (Hin : t0 ∈ filter (fun t => t_id t = task_id /\ t_user_id t = uid)
                                (w_tasks w))
        by (rewrite Hhits; apply list_elem_of_here).
      apply list_elem_of_filter in Hin. tauto. }
    destruct Ht0 as (Hin0 & Hid0 & Hown0).
    assert (Hrows : Forall (fun t => t_id t = task_id -> t_user_id t = uid)
                           (w_tasks w)).
    { apply Forall_forall. intros t Hin Hid.
      assert (t = t0) as -> by
        (apply (primary_key_unique (w_tasks w)); [done|done|done|congruence]).
      done. }
    clear Hhits Hin0 Hpatched Hkey.
    induction Hrows as [|t ts Ht _ IH]; csimpl; [done|].
    rewrite !filter_cons.
    destruct (patched_keys (w_now w) task_id assignments t) as [_ Hown].
    cbn zeta in Hown. case_bool_decide as Hid.
    + rewrite decide_False by (rewrite Hown, (Ht Hid); intros Hne; by apply Hne).
      rewrite decide_False by (rewrite (Ht Hid); intros Hne; by apply Hne).
      exact IH.
    + destruct (decide (t_user_id t <> uid)); by rewrite IH.
  - destruct (delete_task_outcome w task_id)
      as ([Hsame|(uid' & Hs' & Hdeleted)] & _ & _ & Hs).
    { by rewrite Hsame. }
    split; [|done]. rewrite Hdeleted.
    assert (uid' = uid) as -> by congruence.
    rewrite list_filter_filter. apply list_filter_iff. intros t. tauto.
  - pose proof (read_view_outcome GetStats w (or_intror eq_refl)) as Hread.
    cbn [api_view] in Hread. by destruct Hread as (-> & _ & _ & ->).
Qed.

Lemma preserves_signed_in_view (uid : Z) (view : Z -> M response) :
  (forall uid', preserves (signed_in uid') (view uid')) ->
  preserves (signed_in uid) (login_required view).
Proof.
  intros Hview w [Hwf Hsession]. unfold login_required, bind, get_world.
  rewrite Hsession. by apply Hview.
Qed.

Lemma api_view_signed_in (uid : Z) (a : api_request) :
  preserves (signed_in uid) (api_view a).
Proof.
  destruct a; cbn [api_view]; apply preserves_signed_in_view; intros uid';
    repeat keep_step.
Qed.

(** X21: on a well-formed store, no run of API requests of one user
    changes, adds or removes a task of another user, whatever ids and
    bodies the requests carry. *)
Theorem api_run_leaves_other_users_tasks (calls : list api_request)
    (w : world) (uid : Z) :
  well_formed w ->
  s_user_id (w_session w) = Some uid ->
  tasks_of_others uid (w_tasks (run (Api <$> calls) w))
  = tasks_of_others uid (w_tasks w).
Proof.
  revert w. induction calls as [|a calls IH]; intros w Hwf Hsession; [done|].
  csimpl. change (run (?r :: ?rs) ?w) with (run rs (handle r w).2).
  assert (Hstep : (handle (Api a) w).2 = (api_view a w).2).
  { unfold handle. by rewrite dispatch_state. }
  rewrite Hstep.
  destruct (api_leaves_others a w uid Hsession (proj1 Hwf)) as [Hothers Hs].
  destruct (api_view_signed_in uid a w (conj Hwf Hsession)) as [Hwf' Hsession'].
  rewrite IH by done. exact Hothers.
Qed.

Lemma index_well_formed : preserves well_formed index.
Proof.
  intros w Hwf. unfold index, bind, get_world.
  by destruct (s_user_id (w_session w)).
Qed.

Lemma logout_well_formed : preserves well_formed logout.
Proof.
  intros w (Hkey & Hukey & Hfk & Hnext & _).
  unfold logout, bind, modify, flash, ret, well_formed, foreign_key. cbn.
  by repeat split.
Qed.

(** X22: every run of requests keeps the store well formed: ids stay a
    key of [tasks] and of [users], every task keeps an owner in [users],
    every id stays below the next auto-increment value, and a session
    names a row of [users]. *)
Theorem run_keeps_well_formed (rs : list request) (w : world) :
  well_formed w -> well_formed (run rs w).
Proof.
  revert w. induction rs as [|r rs IH]; intros w Hwf; [done|].
  change (run (r :: rs) w) with (run rs (handle r w).2). apply IH.
  assert (Hstep : (handle r w).2 = (view_of r w).2).
  { unfold handle. by rewrite dispatch_state. }
  rewrite Hstep. destruct r as [|method form fault| |a]; cbn [view_of].
  - by apply index_well_formed.
  - by apply login_well_formed.
  - by apply logout_well_formed.
  - destruct a; cbn [api_view].
    + by apply get_tasks_well_formed.
    + by apply create_task_well_formed.
    + by apply update_task_well_formed.
    + by apply delete_task_well_formed.
    + by apply get_stats_well_formed.
Qed.

Lemma collect_field_not_object (data : json) (key : string) (c : column)
    (value : json -> json) :
  (forall fields, data <> JObj fields) ->
  collect_field data key c value [] = Ok []
  \/ exists e, collect_field data key c value [] = Raise e.
Proof.
  intros Hnot. unfold collect_field.
  destruct (py_in key data) as [[|]|e]; [|by left|right; by exists e].
  right. destruct data; cbn; try (by eexists). by destruct (Hnot fields).
Qed.

(** X23: an update whose body is not a JSON object changes no task: for
    a row of the caller it answers 200 without a statement when none of
    the five keys is found in the string or list, and 500 with the
    connection kept in every other case. *)
Theorem update_body_not_an_object (w : world) (uid task_id : Z) (data : json)
    (free : nat) :
  s_user_id (w_session w) = Some uid ->
  w_pool w = Some (S free) ->
  filter (fun t => t_id t = task_id /\ t_user_id t = uid) (w_tasks w) <> [] ->
  (forall fields, data <> JObj fields) ->
  update_task task_id (Parsed data) w
  = (Ok (Json (BMessage "Task updated successfully") 200), w)
  \/ exists e,
       update_task task_id (Parsed data) w
       = (Ok (Json (BException e) 500), set_pool (Some free) w).
Proof.
  intros Hsession Hpool Howned Hnot.
  rewrite (update_task_owned w uid task_id data free) by done.
  unfold collect_sets, and_then.
  destruct (collect_field_not_object data "title" Ctitle id Hnot)
    as [-> | [e ->]]; [|right; by exists e].
  destruct (collect_field_not_object data "description" Cdescription id Hnot)
    as [-> | [e ->]]; [|right; by exists e].
  destruct (collect_field_not_object data "status" Cstatus id Hnot)
    as [-> | [e ->]]; [|right; by exists e].
  destruct (collect_field_not_object data "priority" Cpriority id Hnot)
    as [-> | [e ->]]; [|right; by exists e].
  destruct (collect_field_not_object data "due_date" Cdue_date
              (fun v => if truthy v then v else JNull) Hnot)
    as [-> | [e ->]]; [by left|right; by exists e].
Qed.


Lemma handle_api (a : api_request) (w : world) (r : response) (w' : world) :
  api_view a w = (Ok r, w') -> handle (Api a) w = (r, w').
Proof. intros Hrun. unfold handle, dispatch. cbn [view_of]. by rewrite Hrun. Qed.

(** X1: a client without [user_id] in its session gets nowhere with the
    API: every request of a run is answered with the redirect to the login
    page, and the run leaves tables, id counter, pool and session as they
    were; only the warnings pile up. *)
Theorem anonymous_api_run (calls : list api_request) (w : world) :
  s_user_id (w_session w) = None ->
  responses (Api <$> calls) w = replicate (length calls) (Redirect "login")
  /\ let w' := run (Api <$> calls) w in
     w_tasks w' = w_tasks w
     /\ w_users w' = w_users w
     /\ w_next_id w' = w_next_id w
     /\ w_pool w' = w_pool w
     /\ w_session w' = w_session w.
Proof.
  revert w. induction calls as [|a calls IH]; intros w Hsession; [done|].
  csimpl. change (run (?r :: ?rs) ?w) with (run rs (handle r w).2).
  rewrite (handle_api a w _ _ (api_requires_session a w Hsession)).
  cbn [fst snd].
  destruct (IH (add_flash "Please log in to access this page" "warning" w))
    as (-> & Ht & Hu & Hn & Hp & Hs); [done|].
  split; [done|]. cbn zeta in *. by rewrite Ht, Hu, Hn, Hp, Hs.
Qed.

(** Without a pool or a free connection no API request changes the
    state. *)
Lemma api_view_no_connection_state (a : api_request) (w : world) (uid : Z) :
  s_user_id (w_session w) = Some uid ->
  w_pool w = None \/ w_pool w = Some 0%nat ->
  (api_view a w).2 = w.
Proof.
  intros Hsession Hpool.
  destruct a as [|body|task_id body|task_id|]; cbn [api_view].
  - by rewrite (get_tasks_no_connection w uid).
  - destruct (body_cases body) as [[data ->]|(e & code & He & _)];
      [|by rewrite (create_task_refused w uid body e)].
    destruct (has_title data) eqn:Htitle.
    + by rewrite (create_task_no_connection w uid data).
    + by destruct (create_task_rejected w uid data Hsession Htitle)
        as [-> | ->].
  - destruct (body_cases body) as [[data ->]|(e & code & He & _)];
      [|by rewrite (update_task_refused w uid task_id body e)].
    by rewrite (update_task_no_connection w uid).
  - by rewrite (delete_task_no_connection w uid).
  - by rewrite (get_stats_no_connection w uid).
Qed.

(** X3: when the pool was never built or has no free connection, a run
    of API requests of a signed-in user changes nothing at all, and every
    request that passes validation is answered 500 "Database connection
    failed". *)
Theorem api_run_without_connection (calls : list api_request) (w : world)
    (uid : Z) :
  s_user_id (w_session w) = Some uid ->
  w_pool w = None \/ w_pool w = Some 0%nat ->
  run (Api <$> calls) w = w
  /\ (Forall (fun a => passes_validation a = true) calls ->
      responses (Api <$> calls) w
      = replicate (length calls)
          (Json (BError "Database connection failed") 500)).
Proof.
  intros Hsession Hpool.
  assert (Hstep : forall a, (handle (Api a) w).2 = w
            /\ (passes_validation a = true ->
                (handle (Api a) w).1
                = Json (BError "Database connection failed") 500)).
  { intros a. split.
    - unfold handle. rewrite dispatch_state. cbn [view_of].
      by apply (api_view_no_connection_state a w uid).
    - intros Hvalid.
      by rewrite (handle_api a w _ _
                    (api_without_connection a w uid Hsession Hpool Hvalid)). }
  induction calls as [|a calls [IHrun IHresp]]; [done|].
  csimpl. change (run (?r :: ?rs) ?w) with (run rs (handle r w).2).
  destruct (Hstep a) as [-> Hanswer]. split; [done|].
  intros [Hvalid Hrest]%Forall_cons. by rewrite Hanswer, IHresp.
Qed.

Lemma create_task_with_title (w : world) (uid : Z) (data : json) :
  s_user_id (w_session w) = Some uid ->
  has_title data = true ->
  exists r w', create_task (Parsed data) w = (Ok r, w').
Proof.
  intros Hsession Htitle.
  destruct (entry_cases w)
    as [Hnone|[(uid' & Hsession' & Hpool)|(uid' & free & Hsession' & Hpool)]].
  { congruence. }
  { eexists _, _. by apply (create_task_no_connection w uid). }
  destruct data as [| | | | |fields]; try done.
  destruct (has_title_assoc fields Htitle) as (title & Hassoc & Htruthy).
  rewrite (create_task_obj w uid fields title free) by done.
  destruct (execute_insert_outcome uid title
              (dict_get_default fields "description" (JStr ""))
              (dict_get_default fields "priority" (JStr "medium"))
              (if truthy (dict_get_default fields "due_date" JNull)
               then dict_get_default fields "due_date" JNull else JNull)
              (set_pool (Some free) w))
    as [[e ->]|(p1 & p2 & p3 & d & ->)]; by eexists _, _.
Qed.

Lemma has_title_false_missing (data : json) :
  has_title data = false -> title_missing_or_empty data.
Proof.
  destruct data as [| | | | |fields]; try done. cbn. unfold dict_get_default.
  by destruct (assoc "title" fields).
Qed.

(** The exceptions that leave [create_task]: the one of [get_json], and
    the one of [data.get] on a body that is true and no object. *)
Lemma create_task_raises (w w' : world) (uid : Z) (body : request_body)
    (e : exn) :
  s_user_id (w_session w) = Some uid ->
  create_task body w = (Raise e, w') ->
  w' = w
  /\ (get_json body = Raise e
      \/ exists data,
           body = Parsed data
           /\ truthy data = true
           /\ (forall fields, data <> JObj fields)
           /\ e = AttributeError_get).
Proof.
  intros Hsession Hraise.
  destruct (body_cases body) as [[data ->]|(e0 & code & He & _)].
  2:{ rewrite (create_task_refused w uid body e0) in Hraise by done.
      injection Hraise as <- <-. split; [done|by left]. }
  destruct (has_title data) eqn:Htitle.
  { destruct (create_task_with_title w uid data Hsession Htitle)
      as (r & w1 & Hrun). congruence. }
  destruct (truthy data && negb (is_object data)) eqn:Hkind.
  - apply andb_true_iff in Hkind as [Htruthy Hobject].
    assert (Hnot : forall fields, data <> JObj fields) by (by intros fields ->).
    destruct (create_task_not_a_dict w uid data Hsession Htruthy Hnot)
      as [Hrun _].
    rewrite Hrun in Hraise. injection Hraise as <- <-.
    split; [done|]. right. by exists data.
  - rewrite (create_task_title_required w uid data) in Hraise; try done.
    by apply has_title_false_missing.
Qed.

(** [update_task] lets no exception out but the one of [get_json]. *)
Lemma update_task_raises (w w' : world) (uid task_id : Z)
    (body : request_body) (e : exn) :
  s_user_id (w_session w) = Some uid ->
  update_task task_id body w = (Raise e, w') ->
  w' = w /\ get_json body = Raise e.
Proof.
  intros Hsession Hraise.
  destruct (body_cases body) as [[data ->]|(e0 & code & He & _)].
  2:{ rewrite (update_task_refused w uid task_id body e0) in Hraise by done.
      by injection Hraise as <- <-. }
  exfalso.
  destruct (entry_cases w)
    as [Hnone|[(uid' & _ & Hpool)|(uid' & free & _ & Hpool)]].
  { congruence. }
  { by rewrite (update_task_no_connection w uid) in Hraise. }
  destruct (filter (fun t => t_id t = task_id /\ t_user_id t = uid)
                   (w_tasks w)) as [|t hits] eqn:Hhits.
  { by rewrite (update_task_no_match w uid task_id data free) in Hraise. }
  rewrite (update_task_owned w uid task_id data free) in Hraise
    by (try done; by rewrite Hhits).
  destruct (collect_sets data) as [[|s sets]|e0]; try done.
  by destruct (execute_update_outcome (s :: sets) task_id
                 (set_pool (Some free) w)) as [[e1 Hx]|[assignments Hx]];
    rewrite Hx in Hraise.
Qed.

(** X24: an exception leaves an API view in two ways only, both before
    the [try] and with the state untouched.  [get_json] refuses the body
    of a create or an update request, and the client gets werkzeug's
    page, 415 for a request that is no JSON and 400 for JSON that does
    not parse; or [data.get] raises on the body of a create request that
    is true in Python's sense and no object, and the client of the JSON
    API gets the application's 500 page.  [get_tasks], [delete_task] and
    [get_stats] let no exception out. *)
Theorem api_escaping_exceptions (a : api_request) (w w' : world) (e : exn) :
  api_view a w = (Raise e, w') ->
  w' = w
  /\ ((exists body code,
         (a = CreateTask body \/ exists task_id, a = UpdateTask task_id body)
         /\ get_json body = Raise e
         /\ (code = 400 \/ code = 415)
         /\ handle (Api a) w = (HttpError code, w))
      \/ (exists data,
            a = CreateTask (Parsed data)
            /\ truthy data = true
            /\ (forall fields, data <> JObj fields)
            /\ e = AttributeError_get
            /\ handle (Api a) w = (Render "500.html" 500, w))).
Proof.
  intros Hraise.
  destruct (entry_cases w) as [Hnone|Hsigned].
  { by rewrite (api_requires_session a w Hnone) in Hraise. }
  assert (Hrefused : forall body,
            get_json body = Raise e ->
            exists code, http_code e = Some code /\ (code = 400 \/ code = 415)).
  { intros body He. destruct (body_cases body)
      as [[data ->]|(e0 & code & He0 & Hcode & Hwhich)]; [done|].
    exists code. split; [congruence|done]. }
  assert (Hsession : exists uid, s_user_id (w_session w) = Some uid).
  { destruct Hsigned as [(uid & ? & _)|(uid & free & ? & _)]; by exists uid. }
  destruct Hsession as [uid Hsession].
  destruct a as [|body|task_id body|task_id|]; cbn [api_view] in Hraise.
  - exfalso. destruct Hsigned as [(uid' & _ & Hpool)|(uid' & free & _ & Hpool)].
    + by rewrite (get_tasks_no_connection w uid) in Hraise.
    + by rewrite (get_tasks_run w uid free) in Hraise.
  - destruct (create_task_raises w w' uid body e Hsession Hraise)
      as [-> [He|(data & -> & Htruthy & Hnot & ->)]]; (split; [done|]).
    + left. destruct (Hrefused body He) as (code & Hcode & Hwhich).
      exists body, code. repeat split; try done; [by left|].
      unfold handle, dispatch. cbn [view_of api_view].
      by rewrite Hraise, Hcode.
    + right. exists data. repeat split; try done.
      unfold handle, dispatch. cbn [view_of api_view]. by rewrite Hraise.
  - destruct (update_task_raises w w' uid task_id body e Hsession Hraise)
      as [-> He]. split; [done|].
    left. destruct (Hrefused body He) as (code & Hcode & Hwhich).
    exists body, code. repeat split; try done; [right; by exists task_id|].
    unfold handle, dispatch. cbn [view_of api_view].
    by rewrite Hraise, Hcode.
  - exfalso. destruct Hsigned as [(uid' & _ & Hpool)|(uid' & free & _ & Hpool)].
    + by rewrite (delete_task_no_connection w uid) in Hraise.
    + destruct (filter (fun t => t_id t = task_id /\ t_user_id t = uid)
                       (w_tasks w)) as [|t hits] eqn:Hhits.
      { by rewrite (delete_task_no_match w uid task_id free) in Hraise. }
      by rewrite (delete_task_match w uid task_id free) in Hraise
        by (try done; by rewrite Hhits).
  - exfalso. destruct Hsigned as [(uid' & _ & Hpool)|(uid' & free & _ & Hpool)].
    + by rewrite (get_stats_no_connection w uid) in Hraise.
    + rewrite (get_stats_run w uid free) in Hraise by done.
      by destruct (serializable uid w).
Qed.

End Handlers.

(** ** The views on the small deployment *)

(** C2 fails on the exception path of a view: once a connection is taken,
    an exception is answered with 500 and the connection is not given
    back, here for an update of an own task whose body is the JSON value
    [null] and for a create whose title cannot be bound; the 404 exit of
    the same view does give it back. *)
Theorem connection_kept_after_exception :
  let w := demo_world (session_of alice) in
  update_task demo_to_date demo_stores 10 (Parsed JNull) w
  = (Ok (Json (BException TypeError_not_iterable) 500),
     set_pool (Some 4%nat) w)
  /\ create_task demo_to_date demo_stores (SStr "pending")
       (Parsed (JObj [("title", JArr [JStr "Buy milk"])])) w
     = (Ok (Json (BException ProgrammingError_param) 500),
        set_pool (Some 4%nat) w)
  /\ update_task demo_to_date demo_stores 11 (Parsed JNull) w
     = (Ok (Json (BError "Task not found") 404), w).
Proof. vm_compute. repeat split. Qed.




(** C10 as stated fails: an update whose body does not parse is answered
    400 by [get_json], for a task of the caller (not 500) and for a task
    of somebody else (not 404); a request that is no JSON is answered
    415. *)
Lemma unparseable_update_body :
  let w := demo_world (session_of alice) in
  dispatch (update_task demo_to_date demo_stores 10 Malformed) w
  = (HttpError 400, w)
  /\ dispatch (update_task demo_to_date demo_stores 11 Malformed) w
     = (HttpError 400, w)
  /\ dispatch (update_task demo_to_date demo_stores 10 NotJson) w
     = (HttpError 415, w).
Proof. vm_compute. repeat split. Qed.




Lemma delete_not_found_witness :
  delete_task 10 (demo_world (session_of bob))
  = (Ok (Json (BError "Task not found") 404), demo_world (session_of bob)).
Proof.
  destruct (delete_not_found_iff_no_match (demo_world (session_of bob)) 2 10
              4%nat) as (_ & _ & Hforeign & _).
  - reflexivity.
  - reflexivity.
  - apply Hforeign. repeat constructor; vm_compute; intros; lia.
Defined.


Lemma stats_total_tasks_witness :
  total_tasks <$> stats_of (get_stats (demo_world (session_of alice)))
  = Some (Z.of_nat (length (rows_of (get_tasks demo_iso demo_iso
                                       (demo_world (session_of alice)))))).
Proof.
  destruct (stats_total_tasks_consistent demo_iso demo_iso
              (demo_world (session_of alice)) 1 4%nat)
    as (_ & Hanswer & _ & Htotal).
  - reflexivity.
  - reflexivity.
  - unfold users_key. apply (bool_decide_unpack _). vm_compute. exact I.
  - vm_compute. repeat constructor.
  - destruct Hanswer as [st Hst]; [reflexivity|].
    destruct (Htotal st) as [_ Hrows]; [by rewrite Hst|].
    rewrite Hst. cbn. by rewrite Hrows.
Defined.

Lemma login_failure_witness :
  login demo_checkpw POST [("username", "carol"); ("password", "guess")] None
        world_with_carol
  <> login demo_checkpw POST [("username", "mallory"); ("password", "guess")]
           None world_with_carol.
Proof.
  destruct (login_failure_outcomes demo_checkpw world_with_carol 4%nat
              [("username", "carol"); ("password", "guess")]
              [("username", "mallory"); ("password", "guess")] carol)
    as (_ & _ & Hraises).
  - reflexivity.
  - vm_compute. discriminate.
  - vm_compute. discriminate.
  - vm_compute. discriminate.
  - vm_compute. discriminate.
  - reflexivity.
  - reflexivity.
  - destruct Hraises as [_ Hapart]; [reflexivity|exact Hapart].
Defined.

Lemma create_defaults_witness :
  (create_task demo_to_date demo_stores (SStr "pending")
     (Parsed (JObj [("title", JStr "Water plants")]))
     (demo_world (session_of alice))).1
  = Ok (Json (BCreated 13 "Task created successfully" (JStr "Water plants"))
             201).
Proof.
  destruct (create_defaults_round_trip demo_to_date demo_stores
              (SStr "pending") demo_iso demo_iso
              (demo_world (session_of alice)) 1
              [("title", JStr "Water plants")] (JStr "Water plants")
              (SStr "Water plants") (SStr "Water plants") 4%nat alice)
    as (row & Hrun & _).
  - reflexivity.
  - reflexivity.
  - reflexivity.
  - reflexivity.
  - reflexivity.
  - reflexivity.
  - reflexivity.
  - reflexivity.
  - vm_compute. exact I.
  - vm_compute. constructor.
  - reflexivity.
  - repeat constructor; vm_compute; lia.
  - by rewrite Hrun.
Defined.

Lemma update_without_body_witness :
  update_task demo_to_date demo_stores 10 (Parsed JNull)
              (demo_world (session_of alice))
  = (Ok (Json (BException TypeError_not_iterable) 500),
     set_pool (Some 4%nat) (demo_world (session_of alice))).
Proof.
  destruct (update_without_body demo_to_date demo_stores
              (demo_world (session_of alice)) 1 10 4%nat) as (_ & Howned & _).
  - reflexivity.
  - reflexivity.
  - apply Howned. vm_compute. discriminate.
Defined.

Lemma demo_world_well_formed : well_formed (demo_world (session_of alice)).
Proof.
  unfold well_formed, primary_key, users_key, foreign_key.
  repeat split.
  - apply (bool_decide_unpack _). vm_compute. exact I.
  - apply (bool_decide_unpack _). vm_compute. exact I.
  - vm_compute. repeat constructor.
  - repeat constructor; vm_compute; reflexivity.
  - intros uid [= <-]. vm_compute. constructor.
Qed.

(** ** The further properties on the small deployment *)

Lemma pool_exhaustion_witness :
  handle demo_to_date demo_stores (SStr "pending") demo_iso demo_iso
         demo_checkpw (Api GetTasks)
         (run demo_to_date demo_stores (SStr "pending") demo_iso demo_iso
              demo_checkpw
              (replicate 5 (Api (UpdateTask 10 (Parsed JNull))))
              (demo_world (session_of alice)))
  = (Json (BError "Database connection failed") 500,
     run demo_to_date demo_stores (SStr "pending") demo_iso demo_iso
         demo_checkpw
         (replicate 5 (Api (UpdateTask 10 (Parsed JNull))))
         (demo_world (session_of alice))).
Proof.
  destruct (pool_exhaustion demo_to_date demo_stores (SStr "pending")
              demo_iso demo_iso demo_checkpw
              (demo_world (session_of alice)) 1 10 5%nat GetTasks)
    as [_ Hdown].
  - reflexivity.
  - reflexivity.
  - vm_compute. discriminate.
  - reflexivity.
  - exact Hdown.
Defined.

Lemma login_blank_credentials_witness :
  login demo_checkpw POST
        [("username", String.append " " (String.append no_break_space " "));
         ("password", "secret-a")]
        None (demo_world anonymous)
  = (Ok (Render "login.html" 200),
     add_flash "Please enter both username and password" "error"
               (demo_world anonymous)).
Proof.
  apply (login_blank_credentials demo_checkpw
           [("username", String.append " " (String.append no_break_space " "));
            ("password", "secret-a")]
           None (demo_world anonymous)).
  left. vm_compute. reflexivity.
Defined.

Lemma login_success_witness :
  (login demo_checkpw POST
         [("username", String.append " alice" no_break_space);
          ("password", "secret-a")]
         None (demo_world anonymous)).1
  = Ok (Redirect "dashboard").
Proof.
  rewrite (login_success demo_checkpw (demo_world anonymous) 4%nat
             [("username", String.append " alice" no_break_space);
              ("password", "secret-a")] alice).
  - reflexivity.
  - reflexivity.
  - vm_compute. discriminate.
  - vm_compute. discriminate.
  - reflexivity.
  - reflexivity.
Defined.

Lemma get_tasks_most_recent_first_witness :
  exists selected : list (task * user),
    (get_tasks demo_iso demo_iso (demo_world (session_of alice))).1
    = Ok (Json (BTasks (task_row demo_iso demo_iso <$> selected)) 200)
    /\ descending (fun r : task * user => t_updated_at r.1) selected.
Proof.
  destruct (get_tasks_most_recent_first demo_iso demo_iso
              (demo_world (session_of alice)) 1 4%nat)
    as (selected & Hrun & _ & Hsorted).
  - reflexivity.
  - reflexivity.
  - exists selected. split; [by rewrite Hrun|exact Hsorted].
Defined.

Lemma get_tasks_complete_witness :
  length (filter (fun j => j_id j = 10)
            (rows_of (get_tasks demo_iso demo_iso
                        (demo_world (session_of alice))))) = 1%nat.
Proof.
  destruct (get_tasks_complete demo_iso demo_iso
              (demo_world (session_of alice)) 1 4%nat task_milk)
    as [Hone _].
  - reflexivity.
  - reflexivity.
  - unfold primary_key. apply (bool_decide_unpack _). vm_compute. exact I.
  - unfold users_key. apply (bool_decide_unpack _). vm_compute. exact I.
  - vm_compute. repeat constructor.
  - vm_compute. constructor.
  - reflexivity.
  - exact Hone.
Defined.

Lemma reads_independent_witness :
  (get_tasks demo_iso demo_iso (demo_world (session_of alice))).1
  = (get_tasks demo_iso demo_iso
       (set_tasks [task_milk; task_rent] (demo_world (session_of alice)))).1.
Proof.
  destruct (reads_independent_of_other_users demo_iso demo_iso
              (demo_world (session_of alice))
              (set_tasks [task_milk; task_rent] (demo_world (session_of alice)))
              1 4%nat 4%nat) as [Hrows _].
  - reflexivity.
  - reflexivity.
  - reflexivity.
  - reflexivity.
  - reflexivity.
  - reflexivity.
  - vm_compute. reflexivity.
  - exact Hrows.
Defined.

Lemma stats_counts_exact_witness :
  exists st,
    (get_stats (demo_world (session_of alice))).1 = Ok (Json (BStats st) 200)
    /\ status_counts st !! SStr "pending" = Some 1
    /\ status_counts st !! SStr "archived" = None.
Proof.
  pose proof (stats_counts_exact (demo_world (session_of alice)) 1 4%nat
                eq_refl eq_refl) as Hstats.
  assert (Hwrite : serializable 1 (demo_world (session_of alice)) = true)
    by (vm_compute; reflexivity).
  rewrite Hwrite in Hstats. destruct Hstats as (st & Hrun & Hstatus & _).
  exists st. split; [by rewrite Hrun|].
  split; rewrite Hstatus; vm_compute; reflexivity.
Defined.

Lemma stats_totals_witness :
  exists st,
    (get_stats (demo_world (session_of alice))).1 = Ok (Json (BStats st) 200)
    /\ total_tasks st = 2.
Proof.
  pose proof (stats_totals (demo_world (session_of alice)) 1 4%nat
                eq_refl eq_refl) as Hstats.
  assert (Hwrite : serializable 1 (demo_world (session_of alice)) = true)
    by (vm_compute; reflexivity).
  rewrite Hwrite in Hstats. destruct Hstats as (st & Hrun & Htotal & _).
  exists st. split; [by rewrite Hrun|]. rewrite Htotal. reflexivity.
Defined.

Lemma create_adds_one_owned_row_witness :
  exists row : task,
    w_tasks (create_task demo_to_date demo_stores (SStr "pending")
               (Parsed (JObj [("title", JStr "Mine"); ("user_id", JNum 2);
                              ("status", JStr "completed")]))
               (demo_world (session_of alice))).2
    = (demo_tasks ++ [row])%list
    /\ t_user_id row = 1
    /\ t_status row = SStr "pending".
Proof.
  pose proof (create_adds_one_owned_row demo_to_date demo_stores
                (SStr "pending") (demo_world (session_of alice)) 1
                (Parsed (JObj [("title", JStr "Mine"); ("user_id", JNum 2);
                               ("status", JStr "completed")])) eq_refl)
    as Hrow.
  destruct (create_task _ _ _ _ _) as [[r|e] w'] eqn:Hrun;
    vm_compute in Hrun; [|discriminate].
  injection Hrun as <- <-.
  destruct Hrow as (row & Htasks & _ & Hown & Hstatus & _).
  exists row. by repeat split.
Defined.

Lemma create_then_delete_witness :
  w_tasks (delete_task 13
             (create_task demo_to_date demo_stores (SStr "pending")
                (Parsed (JObj [("title", JStr "Water plants")]))
                (demo_world (session_of alice))).2).2
  = demo_tasks.
Proof.
  destruct (create_then_delete demo_to_date demo_stores (SStr "pending")
              (demo_world (session_of alice)) 1
              (Parsed (JObj [("title", JStr "Water plants")])) 4%nat
              (Json (BCreated 13 "Task created successfully"
                              (JStr "Water plants")) 201)
              (create_task demo_to_date demo_stores (SStr "pending")
                 (Parsed (JObj [("title", JStr "Water plants")]))
                 (demo_world (session_of alice))).2)
    as (title & _ & Hdelete).
  - reflexivity.
  - reflexivity.
  - repeat constructor; vm_compute; lia.
  - vm_compute. reflexivity.
  - reflexivity.
  - exact (f_equal (fun p : result response * world => w_tasks p.2) Hdelete).
Defined.

Lemma delete_twice_witness :
  (delete_task 10 (delete_task 10 (demo_world (session_of alice))).2).1
  = Ok (Json (BError "Task not found") 404).
Proof.
  rewrite (delete_twice (demo_world (session_of alice)) 1 10 4%nat).
  - reflexivity.
  - reflexivity.
  - reflexivity.
Defined.

Lemma completed_leaves_overdue_count_witness :
  exists st,
    (get_stats (update_task demo_to_date demo_stores 10
                  (Parsed (JObj [("status", JStr "completed")]))
                  (demo_world (session_of alice))).2).1
    = Ok (Json (BStats st) 200)
    /\ overdue_count st = 0.
Proof.
  destruct (completed_leaves_overdue_count demo_to_date demo_stores
              (demo_world (session_of alice)) 1 10
              [("status", JStr "completed")] 4%nat)
    as (_ & Hstats).
  - reflexivity.
  - reflexivity.
  - vm_compute. discriminate.
  - reflexivity.
  - reflexivity.
  - vm_compute. exact I.
  - vm_compute. exact I.
  - vm_compute. exact I.
  - vm_compute. exact I.
  - assert (Hwrite : serializable 1
                       (update_task demo_to_date demo_stores 10
                          (Parsed (JObj [("status", JStr "completed")]))
                          (demo_world (session_of alice))).2 = true)
      by (vm_compute; reflexivity).
    rewrite Hwrite in Hstats. destruct Hstats as (st & Hrun & Hcount).
    exists st. split; [by rewrite Hrun|]. rewrite Hcount. reflexivity.
Defined.

Lemma api_run_leaves_other_users_tasks_witness :
  tasks_of_others 1
    (w_tasks (run demo_to_date demo_stores (SStr "pending") demo_iso demo_iso
                demo_checkpw
                (Api <$> [UpdateTask 11 (Parsed (JObj [("title", JStr "Mine now")]));
                          DeleteTask 11;
                          CreateTask (Parsed (JObj [("title", JStr "New")]))])
                (demo_world (session_of alice))))
  = [task_call].
Proof.
  rewrite (api_run_leaves_other_users_tasks demo_to_date demo_stores
             (SStr "pending") demo_iso demo_iso demo_checkpw).
  - reflexivity.
  - exact demo_world_well_formed.
  - reflexivity.
Defined.

Lemma run_keeps_well_formed_witness :
  well_formed
    (run demo_to_date demo_stores (SStr "pending") demo_iso demo_iso
       demo_checkpw
       [Api (CreateTask (Parsed (JObj [("title", JStr "New")]))); Logout;
        Login POST [("username", "bob"); ("password", "secret-b")] None;
        Api (DeleteTask 11)]
       (demo_world (session_of alice))).
Proof.
  apply (run_keeps_well_formed demo_to_date demo_stores (SStr "pending")
           demo_iso demo_iso demo_checkpw).
  exact demo_world_well_formed.
Defined.

Lemma update_body_not_an_object_witness :
  update_task demo_to_date demo_stores 10 (Parsed (JStr "no key in here"))
              (demo_world (session_of alice))
  = (Ok (Json (BMessage "Task updated successfully") 200),
     demo_world (session_of alice))
  \/ exists e,
       update_task demo_to_date demo_stores 10
                   (Parsed (JStr "no key in here"))
                   (demo_world (session_of alice))
       = (Ok (Json (BException e) 500),
          set_pool (Some 4%nat) (demo_world (session_of alice))).
Proof.
  apply (update_body_not_an_object demo_to_date demo_stores
           (demo_world (session_of alice)) 1 10 (JStr "no key in here") 4%nat).
  - reflexivity.
  - reflexivity.
  - vm_compute. discriminate.
  - intros fields. discriminate.
Defined.

Lemma anonymous_api_run_witness :
  responses demo_to_date demo_stores (SStr "pending") demo_iso demo_iso
    demo_checkpw
    (Api <$> [GetTasks; DeleteTask 10;
              CreateTask (Parsed (JObj [("title", JStr "New")]))])
    (demo_world anonymous)
  = replicate 3 (Redirect "login")
  /\ w_tasks (run demo_to_date demo_stores (SStr "pending") demo_iso demo_iso
                demo_checkpw
                (Api <$> [GetTasks; DeleteTask 10;
                          CreateTask (Parsed (JObj [("title", JStr "New")]))])
                (demo_world anonymous))
     = demo_tasks.
Proof.
  destruct (anonymous_api_run demo_to_date demo_stores (SStr "pending")
              demo_iso demo_iso demo_checkpw
              [GetTasks; DeleteTask 10;
               CreateTask (Parsed (JObj [("title", JStr "New")]))]
              (demo_world anonymous)) as (Hresponses & Htasks & _).
  - reflexivity.
  - split; [exact Hresponses | exact Htasks].
Defined.

Lemma api_run_without_connection_witness :
  run demo_to_date demo_stores (SStr "pending") demo_iso demo_iso
    demo_checkpw
    (Api <$> [CreateTask (Parsed (JObj [("title", JStr "New")]));
              DeleteTask 10; CreateTask (Parsed JNull);
              UpdateTask 10 Malformed])
    (set_pool None (demo_world (session_of alice)))
  = set_pool None (demo_world (session_of alice)).
Proof.
  destruct (api_run_without_connection demo_to_date demo_stores
              (SStr "pending") demo_iso demo_iso demo_checkpw
              [CreateTask (Parsed (JObj [("title", JStr "New")]));
               DeleteTask 10; CreateTask (Parsed JNull);
               UpdateTask 10 Malformed]
              (set_pool None (demo_world (session_of alice))) 1)
    as [Hrun _].
  - reflexivity.
  - left. reflexivity.
  - exact Hrun.
Defined.

Lemma api_escaping_exceptions_witness :
  handle demo_to_date demo_stores (SStr "pending") demo_iso demo_iso
    demo_checkpw
    (Api (CreateTask (Parsed (JArr [JNum 1]))))
    (demo_world (session_of alice))
  = (Render "500.html" 500, demo_world (session_of alice)).
Proof.
  destruct (api_escaping_exceptions demo_to_date demo_stores (SStr "pending")
              demo_iso demo_iso demo_checkpw
              (CreateTask (Parsed (JArr [JNum 1])))
              (demo_world (session_of alice)) (demo_world (session_of alice))
              AttributeError_get)
    as (_ & [(body & code & _ & Hrefused & _)
            |(data & _ & _ & _ & _ & Hpage)]).
  - reflexivity.
  - destruct body; discriminate.
  - exact Hpage.
Defined.
